(** * Ezee Money data-collection client: polling, subscribers and file writes

    A shallow embedding of the JavaScript services that use the GitHub
    contents API as a database:

    - [RealTimeService]           (js/real-time-service.js)
    - [GitHubService]             (js/github-service.js)
    - [ConfigManager], [DataSyncService], [EnhancedSubmissionHandler],
      [FieldAgentLoginHandler]    (integration.js, in its latest revision:
                                   the last of the documents that
                                   js/github-service.js holds, from its
                                   line 1315 on)
    - [Part001.ConfigManager]     (unnamed/part_001, another revision of
                                   integration.js)
    - [SubmissionService]         (unnamed/part_000)

    Every [async] method is a computation in a state-and-exception monad
    over the fields of [this] and a [world] that records what the method
    does to its surroundings: the HTTP requests it issues, the console
    lines it prints, the subscriber callbacks it invokes, the timers it
    arms and the contents of localStorage.  The remote server, the
    callbacks, the clock and the random source are an [Environment]; the
    browser built-ins that the code calls on text ([atob], [btoa],
    [JSON.parse], ...) are a [Runtime].  A method call runs to completion:
    no other task is interleaved at its [await] points. *)

From Stdlib Require Import String List ZArith Bool Lia Ascii DecimalString.
Import ListNotations.
Open Scope string_scope.
Set Warnings "-register-all".

(** ** JavaScript values *)

(** The values that travel through the code: what [response.json()] and
    [JSON.parse] produce, plus [undefined].  Numbers are integers: the code
    only counts and compares them. *)
Inductive value : Type :=
| VUndefined
| VNull
| VBool (b : bool)
| VNum (n : Z)
| VStr (s : string)
| VArr (xs : list value)
| VObj (fields : list (string * value)).

(** The test of [if (v)], [v && ...], [v || ...] and [!v]. *)
Definition truthy (v : value) : bool :=
  match v with
  | VUndefined | VNull => false
  | VBool b => b
  | VNum n => negb (n =? 0)%Z
  | VStr s => negb (s =? "")
  | VArr _ | VObj _ => true
  end.

(** [a === b].  Two arrays or objects are equal only when they are the same
    reference; every array or object compared here was produced by its own
    [response.json()] or [JSON.parse], so such a comparison is false. *)
Definition strict_eq (a b : value) : bool :=
  match a, b with
  | VUndefined, VUndefined => true
  | VNull, VNull => true
  | VBool x, VBool y => Bool.eqb x y
  | VNum x, VNum y => (x =? y)%Z
  | VStr x, VStr y => (x =? y)
  | _, _ => false
  end.

Definition js_or (a b : value) : value := if truthy a then a else b.

Definition dec (n : Z) : string := NilZero.string_of_int (Z.to_int n).

(** String conversion, as a template literal applies it. *)
Fixpoint to_string (v : value) : string :=
  match v with
  | VUndefined => "undefined"
  | VNull => "null"
  | VBool true => "true"
  | VBool false => "false"
  | VNum n => dec n
  | VStr s => s
  | VArr xs =>
      String.concat ","
        (map (fun x => match x with
                       | VUndefined | VNull => ""
                       | _ => to_string x
                       end) xs)
  | VObj _ => "[object Object]"
  end.

(** Own properties of an object, in insertion order. *)
Fixpoint lookup (k : string) (fields : list (string * value)) : option value :=
  match fields with
  | [] => None
  | (k', v) :: rest => if k' =? k then Some v else lookup k rest
  end.

(** [o[k] = v]: an existing key keeps its place, a new key goes last. *)
Fixpoint assign (k : string) (v : value) (fields : list (string * value))
  : list (string * value) :=
  match fields with
  | [] => [(k, v)]
  | (k', v') :: rest =>
      if k' =? k then (k', v) :: rest else (k', v') :: assign k v rest
  end.

(** [v?.k]: the property, [undefined] where there is none.  None of the
    property names read by the code is a built-in of strings or arrays, so
    only objects have them. *)
Definition field (v : value) (k : string) : value :=
  match v with
  | VObj fields => match lookup k fields with Some x => x | None => VUndefined end
  | _ => VUndefined
  end.

Definition nullish (v : value) : bool :=
  match v with VUndefined | VNull => true | _ => false end.

(** What [JSON.stringify] keeps of a value: a property whose value is
    [undefined] is dropped, an [undefined] array element becomes [null]. *)
Fixpoint json_image (v : value) : value :=
  match v with
  | VArr xs =>
      VArr (map (fun x => match x with
                          | VUndefined => VNull
                          | _ => json_image x
                          end) xs)
  | VObj fields =>
      VObj ((fix go (l : list (string * value)) : list (string * value) :=
               match l with
               | [] => []
               | (k, VUndefined) :: rest => go rest
               | (k, x) :: rest => (k, json_image x) :: go rest
               end) fields)
  | _ => v
  end.

(** ** Exceptions *)

(** Every value thrown in this code is an [Error] object; handlers read at
    most its [message].  The text of the errors raised by the engine itself
    ([TypeError], [SyntaxError], ...) is engine-specific: only its class is
    kept. *)
Inductive exn : Type := Error (message : string).

Definition error_message (e : exn) : string := let 'Error m := e in m.

Definition TypeError (what : string) : exn := Error ("TypeError: " ++ what).
Definition SyntaxError : exn := Error "SyntaxError".
Definition InvalidCharacterError : exn := Error "InvalidCharacterError".
Definition URIError : exn := Error "URIError".

Inductive result (A : Type) : Type :=
| Ok (a : A)
| Throw (e : exn).
Arguments Ok {A} a.
Arguments Throw {A} e.

(** ** The world outside the objects *)

Inductive method : Type := GET | PUT | DELETE.

(** A [fetch] call.  [req_body] is the JSON document given to
    [JSON.stringify] as the request body, as [json_image] leaves it. *)
Record request : Type := {
  req_method : method;
  req_url : string;
  req_headers : list (string * string);
  req_body : option value
}.

(** What [fetch] settles to: a rejection (no connection), or a response
    with its status line and the outcome of [response.json()] ([None] when
    the body is not JSON). *)
Inductive fetch_result : Type :=
| NetworkError (msg : string)
| HttpResponse (status : Z) (statusText : string) (json : option value).

Record response : Type := {
  status : Z;
  statusText : string;
  json_body : option value
}.

Definition ok (r : response) : bool :=
  ((200 <=? status r) && (status r <=? 299))%Z.

(** Subscriber callbacks are function objects; they are compared by
    identity ([sub !== callback]), which is all the services do with them
    besides calling them. *)
Definition cbid : Type := nat.

(** What a running callback may do to the service that called it: register
    a callback, or run the unsubscribe closure that [subscribe] returned. *)
Inductive action : Type :=
| Subscribe (c : cbid)
| Unsubscribe (c : cbid).

Record cb_run : Type := {
  cb_actions : list action;
  cb_outcome : option exn      (* [None]: returns; [Some e]: throws [e] *)
}.

Inductive event : Type :=
| CbEnter (c : cbid) (data : value) (type : string)
| CbExit (c : cbid) (thrown : option exn).

Inductive level : Type := LOG | WARN | ERROR.

Inductive log_arg : Type :=
| LogErr (e : exn)
| LogVal (v : value).

Record log_entry : Type := {
  log_level : level;
  log_text : string;
  log_args : list log_arg
}.

Record world : Type := {
  requests : list request;          (* oldest first *)
  console : list log_entry;
  calls : list event;               (* callback invocations, oldest first *)
  timers : list Z;                  (* delays given to setTimeout *)
  localStorage : list (string * string);
  clock_reads : nat;
  random_reads : nat
}.

Definition initial_world : world :=
  {| requests := []; console := []; calls := []; timers := [];
     localStorage := []; clock_reads := 0; random_reads := 0 |}.

(** The surroundings: the server answers a request knowing every request
    sent so far (the last of the list is the one being answered); a
    callback behaves knowing every callback event so far. *)
Class Environment : Type := {
  server : list request -> fetch_result;
  callback : cbid -> list event -> value -> string -> cb_run;
  clock : nat -> Z;                 (* the n-th reading of the time, in ms *)
  random36 : nat -> string          (* Math.random().toString(36).substr(2, 3) *)
}.

(** The built-ins of the browser that work on text.  [None] is the
    exception the built-in throws. *)
Class Runtime : Type := {
  atob : string -> option string;
  btoa : string -> option string;
  utf8_bytes : string -> option string;  (* unescape(encodeURIComponent(s)) *)
  JSON_parse : string -> option value;
  JSON_stringify : value -> string;      (* JSON.stringify(v) *)
  JSON_stringify2 : value -> string;     (* JSON.stringify(v, null, 2) *)
  toISOString : Z -> string;             (* new Date(ms).toISOString() *)
  toLowerCase : string -> string
}.

(** ** The monad of method bodies *)

Definition M (S A : Type) : Type := S -> world -> result A * S * world.

Definition ret {S A} (a : A) : M S A := fun s w => (Ok a, s, w).

Definition bind {S A B} (m : M S A) (k : A -> M S B) : M S B :=
  fun s w =>
    match m s w with
    | (Ok a, s', w') => k a s' w'
    | (Throw e, s', w') => (Throw e, s', w')
    end.

Definition throw {S A} (e : exn) : M S A := fun s w => (Throw e, s, w).

(** [try { m } catch (e) { h e }] *)
Definition try_catch {S A} (m : M S A) (h : exn -> M S A) : M S A :=
  fun s w =>
    match m s w with
    | (Ok a, s', w') => (Ok a, s', w')
    | (Throw e, s', w') => h e s' w'
    end.

Declare Scope js_scope.
Delimit Scope js_scope with js.
Notation "x <- m ;; k" := (bind m (fun x => k))
  (at level 61, m at next level, right associativity) : js_scope.
Notation "m ;; k" := (bind m (fun _ => k))
  (at level 61, right associativity) : js_scope.
Open Scope js_scope.

Definition this {S} : M S S := fun s w => (Ok s, s, w).
Definition set_this {S} (f : S -> S) : M S unit := fun s w => (Ok tt, f s, w).
Definition the_world {S} : M S world := fun s w => (Ok w, s, w).
Definition set_world {S} (f : world -> world) : M S unit :=
  fun s w => (Ok tt, s, f w).

(** Run a method of a member object. *)
Definition within {S T A} (get : S -> T) (set : T -> S -> S) (m : M T A)
  : M S A :=
  fun s w => let '(r, t, w') := m (get s) w in (r, set t s, w').

(** [for (const x of xs) body(x)] and [xs.forEach(body)]. *)
Fixpoint forEach {S A} (xs : list A) (body : A -> M S unit) : M S unit :=
  match xs with
  | [] => ret tt
  | x :: rest => body x ;; forEach rest body
  end.

(** [v.k]: reading a property of [null] or [undefined] throws. *)
Definition prop {S} (v : value) (k : string) : M S value :=
  if nullish v then throw (TypeError ("cannot read " ++ k))
  else ret (field v k).

Definition console_write {S} (l : level) (text : string) (args : list log_arg)
  : M S unit :=
  set_world (fun w =>
    {| requests := requests w;
       console := console w ++ [{| log_level := l; log_text := text;
                                    log_args := args |}];
       calls := calls w; timers := timers w;
       localStorage := localStorage w;
       clock_reads := clock_reads w; random_reads := random_reads w |}).

Definition record_event {S} (e : event) : M S unit :=
  set_world (fun w =>
    {| requests := requests w; console := console w;
       calls := calls w ++ [e]; timers := timers w;
       localStorage := localStorage w;
       clock_reads := clock_reads w; random_reads := random_reads w |}).

Definition record_request (r : request) (w : world) : world :=
  {| requests := requests w ++ [r]; console := console w;
     calls := calls w; timers := timers w;
     localStorage := localStorage w;
     clock_reads := clock_reads w; random_reads := random_reads w |}.

(** [setTimeout(f, delay)]: the timer is armed, [f] runs in a later task. *)
Definition setTimeout {S} (delay : Z) : M S unit :=
  set_world (fun w =>
    {| requests := requests w; console := console w;
       calls := calls w; timers := timers w ++ [delay];
       localStorage := localStorage w;
       clock_reads := clock_reads w; random_reads := random_reads w |}).

Section Program.

Context {env : Environment} {rt : Runtime}.

(** [await fetch(url, {method, headers, body})] *)
Definition fetch {S} (r : request) : M S response :=
  fun s w =>
    let w' := record_request r w in
    match server (requests w') with
    | NetworkError msg => (Throw (Error msg), s, w')
    | HttpResponse st txt j =>
        (Ok {| status := st; statusText := txt; json_body := j |}, s, w')
    end.

(** [await response.json()] *)
Definition json {S} (r : response) : M S value :=
  match json_body r with
  | Some v => ret v
  | None => throw SyntaxError
  end.

Definition js_atob {S} (v : value) : M S string :=
  match atob (to_string v) with
  | Some s => ret s
  | None => throw InvalidCharacterError
  end.

Definition js_btoa {S} (s : string) : M S string :=
  match btoa s with
  | Some b => ret b
  | None => throw InvalidCharacterError
  end.

(** [btoa(unescape(encodeURIComponent(s)))] *)
Definition btoa_utf8 {S} (s : string) : M S string :=
  match utf8_bytes s with
  | Some bytes => js_btoa bytes
  | None => throw URIError
  end.

Definition js_parse {S} (s : string) : M S value :=
  match JSON_parse s with
  | Some v => ret v
  | None => throw SyntaxError
  end.

(** [Date.now()] *)
Definition Date_now {S} : M S Z :=
  fun s w =>
    (Ok (clock (clock_reads w)), s,
     {| requests := requests w; console := console w;
        calls := calls w; timers := timers w;
        localStorage := localStorage w;
        clock_reads := Datatypes.S (clock_reads w);
        random_reads := random_reads w |}).

(** [new Date().toISOString()] *)
Definition now_iso {S} : M S string :=
  t <- Date_now ;; ret (toISOString t).

(** A call [callback(data, type)] made by service code: the callback runs
    to its end, doing to the service what [apply] does for each of its
    actions, and then returns or throws. *)
Definition invoke {S} (apply : action -> M S unit)
  (c : cbid) (data : value) (type : string) : M S unit :=
  w <- the_world ;;
  let run := callback c (calls w) data type in
  record_event (CbEnter c data type) ;;
  forEach (cb_actions run) apply ;;
  record_event (CbExit c (cb_outcome run)) ;;
  match cb_outcome run with
  | None => ret tt
  | Some e => throw e
  end.

End Program.

(** ** Built-ins used by the services *)

Fixpoint storage_get (k : string) (l : list (string * string)) : option string :=
  match l with
  | [] => None
  | (k', v) :: rest => if k' =? k then Some v else storage_get k rest
  end.

Definition localStorage_getItem {S} (k : string) : M S (option string) :=
  w <- the_world ;; ret (storage_get k (localStorage w)).

Definition localStorage_setItem {S} (k v : string) : M S unit :=
  set_world (fun w =>
    {| requests := requests w; console := console w;
       calls := calls w; timers := timers w;
       localStorage := (k, v) :: localStorage w;
       clock_reads := clock_reads w; random_reads := random_reads w |}).

(** [arr.push(x)] on a value: only arrays have [push]. *)
Definition push {S} (arr x : value) : M S value :=
  match arr with
  | VArr xs => ret (VArr (xs ++ [x]))
  | _ => throw (TypeError "push is not a function")
  end.

(** The own enumerable properties that [{...v}] copies. *)
Definition own_properties (v : value) : list (string * value) :=
  match v with
  | VObj fields => fields
  | VArr xs => combine (map (fun i => dec (Z.of_nat i)) (seq 0 (length xs))) xs
  | VStr s =>
      combine (map (fun i => dec (Z.of_nat i)) (seq 0 (String.length s)))
              (map (fun c => VStr (String c "")) (list_ascii_of_string s))
  | _ => []
  end.

Definition spread (v : value) (into : list (string * value))
  : list (string * value) :=
  fold_left (fun o kv => assign (fst kv) (snd kv) o) (own_properties v) into.

(** [s.split(',')[1]] *)
Fixpoint until_comma (s : string) : string :=
  match s with
  | EmptyString => EmptyString
  | String c rest =>
      if Ascii.eqb c "," then EmptyString else String c (until_comma rest)
  end.

Fixpoint split_comma_second (s : string) : value :=
  match s with
  | EmptyString => VUndefined
  | String c rest =>
      if Ascii.eqb c "," then VStr (until_comma rest)
      else split_comma_second rest
  end.

(** [fold] of a loop body over the elements, for a loop that fills a local
    variable. *)
Fixpoint for_of {S A B} (xs : list A) (acc : B) (body : A -> B -> M S B)
  : M S B :=
  match xs with
  | [] => ret acc
  | x :: rest => acc' <- body x acc ;; for_of rest acc' body
  end.

(** [localStorage.getItem(k) || fallback] *)
Definition stored_or (saved : option string) (fallback : string) : string :=
  match saved with
  | Some text => if text =? "" then fallback else text
  | None => fallback
  end.

(** [s.includes(',')] *)
Fixpoint includes_comma (s : string) : bool :=
  match s with
  | EmptyString => false
  | String c rest => Ascii.eqb c "," || includes_comma rest
  end.

(** [v.split(',')[1]] on a value: only strings have [split]. *)
Definition split_second {S} (v : value) : M S value :=
  match v with
  | VStr s => ret (split_comma_second s)
  | _ => throw (TypeError "split is not a function")
  end.

(** [v.length]: the length of an array or of a string, the property of
    that name of an object. *)
Definition js_length {S} (v : value) : M S value :=
  match v with
  | VArr xs => ret (VNum (Z.of_nat (length xs)))
  | VStr s => ret (VNum (Z.of_nat (String.length s)))
  | VUndefined | VNull => throw (TypeError "cannot read length")
  | _ => ret (field v "length")
  end.

(** [Object.entries(v)] *)
Definition Object_entries {S} (v : value) : M S (list (string * value)) :=
  if nullish v then throw (TypeError "cannot convert to object")
  else ret (own_properties v).

(** [o.k = v] in strict code, for what [JSON.stringify] sees of [o]
    afterwards: an object gets the property, an array keeps its elements,
    nothing else can take a property. *)
Definition set_property {S} (o : value) (k : string) (v : value) : M S value :=
  match o with
  | VObj fields => ret (VObj (assign k v fields))
  | VArr xs => ret (VArr xs)
  | _ => throw (TypeError ("cannot set " ++ k))
  end.

(** A name that no scope binds. *)
Definition ReferenceError (name : string) : exn :=
  Error ("ReferenceError: " ++ name ++ " is not defined").

(** ** RealTimeService (js/real-time-service.js) *)

Module RealTimeService.

Record t : Type := {
  baseURL : string;
  repoOwner : string;
  repoName : string;
  branch : string;
  pollingInterval : Z;
  lastKnownHash : value;
  isPolling : bool;
  subscribers : list cbid;
  token : value
}.

Definition constructor : t :=
  {| baseURL := "https://api.github.com";
     repoOwner := "BarasaGodwilTech";
     repoName := "Ezee-money";
     branch := "main";
     pollingInterval := 5000;
     lastKnownHash := VNull;
     isPolling := false;
     subscribers := [];
     token := VUndefined |}.

Definition set_lastKnownHash (v : value) (s : t) : t :=
  {| baseURL := baseURL s; repoOwner := repoOwner s; repoName := repoName s;
     branch := branch s; pollingInterval := pollingInterval s;
     lastKnownHash := v; isPolling := isPolling s;
     subscribers := subscribers s; token := token s |}.

Definition set_isPolling (b : bool) (s : t) : t :=
  {| baseURL := baseURL s; repoOwner := repoOwner s; repoName := repoName s;
     branch := branch s; pollingInterval := pollingInterval s;
     lastKnownHash := lastKnownHash s; isPolling := b;
     subscribers := subscribers s; token := token s |}.

Definition set_subscribers (l : list cbid) (s : t) : t :=
  {| baseURL := baseURL s; repoOwner := repoOwner s; repoName := repoName s;
     branch := branch s; pollingInterval := pollingInterval s;
     lastKnownHash := lastKnownHash s; isPolling := isPolling s;
     subscribers := l; token := token s |}.

(** [repoOwner], [repoName] and [branch] are only ever read inside
    template literals: the record keeps their text. *)
Definition set_repository (owner name branchName : string) (s : t) : t :=
  {| baseURL := baseURL s; repoOwner := owner; repoName := name;
     branch := branchName; pollingInterval := pollingInterval s;
     lastKnownHash := lastKnownHash s; isPolling := isPolling s;
     subscribers := subscribers s; token := token s |}.

Definition set_token (v : value) (s : t) : t :=
  {| baseURL := baseURL s; repoOwner := repoOwner s; repoName := repoName s;
     branch := branch s; pollingInterval := pollingInterval s;
     lastKnownHash := lastKnownHash s; isPolling := isPolling s;
     subscribers := subscribers s; token := v |}.

(** [subscribe(callback)]: the callback goes to the end of the array.  The
    closure it returns is [unsubscribe callback]. *)
Definition subscribe (callback : cbid) : M t unit :=
  set_this (fun s => set_subscribers (subscribers s ++ [callback]) s).

Definition unsubscribe (callback : cbid) : M t unit :=
  set_this (fun s =>
    set_subscribers
      (filter (fun sub => negb (Nat.eqb sub callback)) (subscribers s)) s).

Definition apply (a : action) : M t unit :=
  match a with
  | Subscribe c => subscribe c
  | Unsubscribe c => unsubscribe c
  end.

Section Methods.

Context {env : Environment} {rt : Runtime}.

(** [forEach] walks the array that [this.subscribers] names when the call
    starts: a callback that subscribes appends beyond the length read at
    the start, one that unsubscribes puts a new array in the field. *)
Definition notifySubscribers (data : value) (type : string) : M t unit :=
  s <- this ;;
  forEach (subscribers s) (fun callback =>
    try_catch (invoke apply callback data type)
      (fun error =>
         console_write ERROR "Subscriber callback error:" [LogErr error])).

Definition headers (s : t) : list (string * string) :=
  [("Authorization", "token " ++ to_string (token s));
   ("Accept", "application/vnd.github.v3+json")].

Definition contents_url (s : t) (filePath : string) : string :=
  baseURL s ++ "/repos/" ++ repoOwner s ++ "/" ++ repoName s
  ++ "/contents/" ++ filePath.

Definition read_request (s : t) (filePath : string) : request :=
  {| req_method := GET;
     req_url := contents_url s filePath ++ "?ref=" ++ branch s;
     req_headers := headers s;
     req_body := None |}.

Definition getBranchSHA : M t value :=
  try_catch
    (s <- this ;;
     response <- fetch
       {| req_method := GET;
          req_url := baseURL s ++ "/repos/" ++ repoOwner s ++ "/"
                     ++ repoName s ++ "/git/refs/heads/" ++ branch s;
          req_headers := headers s;
          req_body := None |} ;;
     if negb (ok response) then
       throw (Error ("Failed to get branch SHA: " ++ dec (status response)))
     else
       data <- json response ;;
       object <- prop data "object" ;;
       prop object "sha")
    (fun error =>
       console_write ERROR "Error getting branch SHA:" [LogErr error] ;;
       ret VNull).

Definition hasRepositoryChanged : M t bool :=
  try_catch
    (currentSHA <- getBranchSHA ;;
     if negb (truthy currentSHA) then ret false
     else
       s <- this ;;
       if truthy (lastKnownHash s)
          && negb (strict_eq currentSHA (lastKnownHash s))
       then set_this (set_lastKnownHash currentSHA) ;; ret true
       else set_this (set_lastKnownHash currentSHA) ;; ret false)
    (fun error =>
       console_write ERROR "Error checking repository changes:"
         [LogErr error] ;;
       ret false).

Definition getFile (filePath : string) : M t value :=
  try_catch
    (s <- this ;;
     response <- fetch (read_request s filePath) ;;
     if negb (ok response) then
       if (status response =? 404)%Z then ret VNull
       else throw (Error ("Failed to get file: " ++ dec (status response)))
     else
       data <- json response ;;
       type <- prop data "type" ;;
       if strict_eq type (VStr "file") then
         content <- js_atob (field data "content") ;;
         js_parse content
       else ret VNull)
    (fun error =>
       console_write ERROR "Error getting file:" [LogErr error] ;;
       ret VNull).

Definition saveFile (filePath : string) (content : value) (message : string)
  : M t value :=
  try_catch
    (s <- this ;;
     sha <- try_catch
       (response <- fetch (read_request s filePath) ;;
        if ok response then
          data <- json response ;;
          prop data "sha"
        else ret VNull)
       (fun _ => ret VNull) ;;
     base64Content <- btoa_utf8 (JSON_stringify2 content) ;;
     let body :=
       [("message", VStr message);
        ("content", VStr base64Content);
        ("branch", VStr (branch s))] in
     let body := if truthy sha then assign "sha" sha body else body in
     response <- fetch
       {| req_method := PUT;
          req_url := contents_url s filePath;
          req_headers := headers s ++ [("Content-Type", "application/json")];
          req_body := Some (json_image (VObj body)) |} ;;
     if negb (ok response) then
       errorData <- json response ;;
       msg <- prop errorData "message" ;;
       throw (Error ("Failed to save file: " ++ dec (status response)
                     ++ " - " ++ to_string msg))
     else
       data <- json response ;;
       commit <- prop data "commit" ;;
       commit_sha <- prop commit "sha" ;;
       set_this (set_lastKnownHash commit_sha) ;;
       file <- prop data "content" ;;
       html_url <- prop file "html_url" ;;
       ret (VObj [("success", VBool true);
                  ("sha", commit_sha);
                  ("url", html_url)]))
    (fun error =>
       console_write ERROR "Error saving file:" [LogErr error] ;;
       throw error).

(** The body of the [poll] closure of [startRealTimePolling]: one poll,
    ending with the timer for the next one. *)
Definition poll : M t unit :=
  s <- this ;;
  if negb (isPolling s) then ret tt
  else
    try_catch
      (hasChanged <- hasRepositoryChanged ;;
       if hasChanged : bool then
         console_write LOG "Repository changed, fetching updates..." [] ;;
         submissions <- getFile "submissions.json" ;;
         (if truthy submissions
          then notifySubscribers submissions "submissions_updated"
          else ret tt) ;;
         agents <- getFile "agents.json" ;;
         (if truthy agents
          then notifySubscribers agents "agents_updated"
          else ret tt)
       else ret tt)
      (fun error => console_write ERROR "Polling error:" [LogErr error]) ;;
    s <- this ;;
    setTimeout (pollingInterval s).

Definition startRealTimePolling : M t unit :=
  s <- this ;;
  if isPolling s then ret tt
  else
    set_this (set_isPolling true) ;;
    console_write LOG "Starting real-time polling..." [] ;;
    poll.

Definition getSubmissions : M t value :=
  try_catch
    (data <- getFile "submissions.json" ;;
     ret (js_or (field data "submissions") (VArr [])))
    (fun error =>
       console_write ERROR "Error getting submissions:" [LogErr error] ;;
       ret (VArr [])).

Definition getAgents : M t value :=
  try_catch
    (data <- getFile "agents.json" ;;
     ret (js_or (field data "agents") (VArr [])))
    (fun error =>
       console_write ERROR "Error getting agents:" [LogErr error] ;;
       ret (VArr [])).

Definition init (githubConfig : value) : M t bool :=
  (if truthy githubConfig then
     set_this (fun s =>
       set_repository
         (to_string (js_or (field githubConfig "repoOwner")
                           (VStr (repoOwner s))))
         (to_string (js_or (field githubConfig "repoName")
                           (VStr (repoName s))))
         (to_string (js_or (field githubConfig "branchName")
                           (VStr (branch s))))
         s)
   else ret tt) ;;
  saved <- localStorage_getItem "ezeeAdminConfig" ;;
  adminConfig <- js_parse (stored_or saved "{}") ;;
  github <- prop adminConfig "github" ;;
  set_this (set_token (field github "token")) ;;
  if negb (truthy (field github "token")) then
    console_write WARN
      "No GitHub token found. Real-time features will be limited." [] ;;
    ret false
  else ret true.

Definition uploadImage (imageData : value) (fileName folder : string)
  : M t value :=
  try_catch
    (s <- this ;;
     let filePath := folder ++ "/" ++ fileName in
     base64Data <- split_second imageData ;;
     response <- fetch
       {| req_method := PUT;
          req_url := contents_url s filePath;
          req_headers := headers s ++ [("Content-Type", "application/json")];
          req_body :=
            Some (json_image
                    (VObj [("message", VStr ("Upload image: " ++ fileName));
                           ("content", base64Data);
                           ("branch", VStr (branch s))])) |} ;;
     if negb (ok response) then
       errorData <- json response ;;
       msg <- prop errorData "message" ;;
       throw (Error ("Failed to upload image: " ++ dec (status response)
                     ++ " - " ++ to_string msg))
     else
       data <- json response ;;
       file <- prop data "content" ;;
       download_url <- prop file "download_url" ;;
       html_url <- prop file "html_url" ;;
       commit <- prop data "commit" ;;
       commit_sha <- prop commit "sha" ;;
       ret (VObj [("success", VBool true);
                  ("url", download_url);
                  ("html_url", html_url);
                  ("sha", commit_sha)]))
    (fun error =>
       console_write ERROR "Error uploading image:" [LogErr error] ;;
       throw error).

(** One of the three [if (submission.images.k)] blocks of
    [submitAgentData]. *)
Definition upload_one (images : value) (key name : string) (timestamp : Z)
  (imageUrls : list (string * value)) : M t (list (string * value)) :=
  if truthy (field images key) then
    uploaded <- uploadImage (field images key)
                  (name ++ dec timestamp ++ ".jpg") "images" ;;
    ret (assign key (field uploaded "url") imageUrls)
  else ret imageUrls.

(** [timestamp] is declared inside the block of [if (submission.images)]:
    where the [id] of the final submission reads it, outside that block,
    no declaration of the file is in scope.  The page is taken to define
    no global of that name, so the read throws. *)
Definition submitAgentData (submission : value) : M t value :=
  try_catch
    (console_write LOG "Submitting agent data to GitHub:"
       [LogVal submission] ;;
     images <- prop submission "images" ;;
     imageUrls <-
       (if truthy images then
          timestamp <- Date_now ;;
          urls <- upload_one images "idFront" "id-front-" timestamp [] ;;
          urls <- upload_one images "idBack" "id-back-" timestamp urls ;;
          upload_one images "agentPhoto" "agent-photo-" timestamp urls
        else ret []) ;;
     submittedAt <- now_iso ;;
     id <- (if truthy (field submission "id")
            then ret (field submission "id")
            else throw (ReferenceError "timestamp")) ;;
     let finalSubmission :=
       VObj (assign "id" id
               (assign "submittedAt" (VStr submittedAt)
                  (assign "images" (VObj imageUrls)
                     (spread submission [])))) in
     got <- getFile "submissions.json" ;;
     let submissions := js_or got (VObj [("submissions", VArr [])]) in
     list <- push (field submissions "submissions") finalSubmission ;;
     submissions <- set_property submissions "submissions" list ;;
     saveFile "submissions.json" submissions
       ("New submission from "
        ++ to_string (js_or (field (field finalSubmission "agentInfo")
                                   "fullName")
                            (VStr "Unknown Agent"))) ;;
     notifySubscribers finalSubmission "new_submission" ;;
     ret (VObj [("success", VBool true);
                ("submissionId", field finalSubmission "id");
                ("imageUrls", VObj imageUrls)]))
    (fun error =>
       console_write ERROR "Error submitting agent data:" [LogErr error] ;;
       throw error).

Definition stopRealTimePolling : M t unit :=
  set_this (set_isPolling false) ;;
  console_write LOG "Stopped real-time polling" [].

Definition saveAgents (agents : value) : M t value :=
  try_catch
    (let data := VObj [("agents", agents)] in
     saveFile "agents.json" data "Update agents list" ;;
     notifySubscribers data "agents_updated" ;;
     ret (VObj [("success", VBool true)]))
    (fun error =>
       console_write ERROR "Error saving agents:" [LogErr error] ;;
       throw error).

End Methods.

End RealTimeService.

(** ** Fresh objects *)

(** [new C().method()]: the method runs on a fresh object that nobody
    keeps. *)
Definition on_new {S T A} (fresh : T) (m : M T A) : M S A :=
  fun s w => let '(r, _, w') := m fresh w in (r, s, w').

(** ** ConfigManager (integration.js) *)

Module ConfigManager.

Record t : Type := {
  configFile : string;
  baseURL : string
}.

Definition constructor : t :=
  {| configFile := "gitconfig.json"; baseURL := "https://api.github.com" |}.

Definition default_config : value :=
  VObj [("repoOwner", VStr "BarasaGodwilTech");
        ("repoName", VStr "Ezee-money");
        ("branchName", VStr "main");
        ("token", VStr "")].

Section Methods.

Context {env : Environment} {rt : Runtime}.

(** The [try] block returns from the method in three of its paths; the
    fourth ([localStorage] empty) and the [catch] fall through to the
    default configuration. *)
Definition loadConfig : M t value :=
  returned <- try_catch
    (s <- this ;;
     response <- fetch
       {| req_method := GET;
          req_url := baseURL s
                     ++ "/repos/BarasaGodwilTech/Ezee-money/contents/"
                     ++ configFile s;
          req_headers := [("Accept", "application/vnd.github.v3+json")];
          req_body := None |} ;;
     if ok response then
       data <- json response ;;
       encoded <- prop data "content" ;;
       text <- js_atob encoded ;;
       content <- js_parse text ;;
       localStorage_setItem "ezeeAdminConfig"
         (JSON_stringify (VObj [("github", content)])) ;;
       ret (Some content)
     else
       saved <- localStorage_getItem "ezeeAdminConfig" ;;
       match saved with
       | Some text =>
           if text =? "" then ret None
           else
             config <- js_parse text ;;
             github <- prop config "github" ;;
             ret (Some (js_or github (VObj [])))
       | None => ret None
       end)
    (fun error =>
       console_write ERROR "Error loading config:" [LogErr error] ;;
       ret None) ;;
  match returned with
  | Some config => ret config
  | None => ret default_config
  end.

Definition config_url (s : t) : string :=
  baseURL s ++ "/repos/BarasaGodwilTech/Ezee-money/contents/" ++ configFile s.

Definition saveConfig (config : value) : M t value :=
  try_catch
    (s <- this ;;
     sha <- try_catch
       (tok <- prop config "token" ;;
        checkResponse <- fetch
          {| req_method := GET;
             req_url := config_url s;
             req_headers :=
               [("Authorization", "token " ++ to_string tok);
                ("Accept", "application/vnd.github.v3+json")];
             req_body := None |} ;;
        if ok checkResponse then
          data <- json checkResponse ;;
          prop data "sha"
        else ret VNull)
       (fun _ => ret VNull) ;;
     base64Content <- btoa_utf8 (JSON_stringify2 config) ;;
     tok <- prop config "token" ;;
     response <- fetch
       {| req_method := PUT;
          req_url := config_url s;
          req_headers :=
            [("Authorization", "token " ++ to_string tok);
             ("Accept", "application/vnd.github.v3+json");
             ("Content-Type", "application/json")];
          req_body :=
            Some (json_image
                    (VObj [("message", VStr "Update GitHub configuration");
                           ("content", VStr base64Content);
                           ("branch", VStr "main");
                           ("sha", sha)])) |} ;;
     if negb (ok response) then
       throw (Error "Failed to save configuration")
     else
       localStorage_setItem "ezeeAdminConfig"
         (JSON_stringify (VObj [("github", config)])) ;;
       json response)
    (fun error =>
       console_write ERROR "Error saving config:" [LogErr error] ;;
       throw error).

End Methods.

End ConfigManager.

(** ** ConfigManager, as unnamed/part_001 has it *)

(** Another revision of integration.js: the sources of a configuration
    are tried in turn, each behind its own [try]. *)

Module Part001.

Module ConfigManager.

Record t : Type := {
  configFile : string;
  baseURL : string;
  rawBaseURL : string
}.

Definition constructor : t :=
  {| configFile := "gitconfig.json";
     baseURL := "https://api.github.com";
     rawBaseURL := "https://raw.githubusercontent.com" |}.

Definition getDefaultConfig : value :=
  VObj [("repoOwner", VStr "BarasaGodwilTech");
        ("repoName", VStr "Ezee-money");
        ("branchName", VStr "main");
        ("token", VStr "");
        ("galleryUploadEnabled", VBool false)].

Definition config_url (s : t) : string :=
  "https://api.github.com/repos/BarasaGodwilTech/Ezee-money/contents/"
  ++ configFile s.

Section Methods.

Context {env : Environment} {rt : Runtime}.

Definition loadFromGitHub : M t value :=
  try_catch
    (s <- this ;;
     response <- fetch
       {| req_method := GET;
          req_url := config_url s;
          req_headers := [("Accept", "application/vnd.github.v3+json")];
          req_body := None |} ;;
     if ok response then
       data <- json response ;;
       encoded <- prop data "content" ;;
       text <- js_atob encoded ;;
       js_parse text
     else ret VNull)
    (fun _ => ret VNull).

Definition loadFromLocalStorage : M t value :=
  saved <- localStorage_getItem "ezeeAdminConfig" ;;
  match saved with
  | Some text =>
      if text =? "" then ret VNull
      else
        try_catch
          (config <- js_parse text ;;
           github <- prop config "github" ;;
           ret (js_or github VNull))
          (fun _ => ret VNull)
  | None => ret VNull
  end.

Definition loadConfig : M t value :=
  try_catch
    (console_write LOG "Loading GitHub configuration..." [] ;;
     githubConfig <- loadFromGitHub ;;
     if truthy githubConfig && truthy (field githubConfig "token") then
       console_write LOG "Config loaded from GitHub" [] ;;
       localStorage_setItem "ezeeAdminConfig"
         (JSON_stringify (VObj [("github", githubConfig)])) ;;
       ret githubConfig
     else
       localConfig <- loadFromLocalStorage ;;
       if truthy localConfig && truthy (field localConfig "token") then
         console_write LOG "Config loaded from localStorage" [] ;;
         ret localConfig
       else
         console_write LOG "Using default config" [] ;;
         ret getDefaultConfig)
    (fun error =>
       console_write ERROR "Error loading config:" [LogErr error] ;;
       ret getDefaultConfig).

Definition saveConfig (config : value) : M t value :=
  try_catch
    (console_write LOG "Saving configuration to GitHub..." [LogVal config] ;;
     s <- this ;;
     sha <- try_catch
       (tok <- prop config "token" ;;
        checkResponse <- fetch
          {| req_method := GET;
             req_url := config_url s;
             req_headers :=
               [("Authorization", "token " ++ to_string tok);
                ("Accept", "application/vnd.github.v3+json")];
             req_body := None |} ;;
        if ok checkResponse then
          data <- json checkResponse ;;
          prop data "sha"
        else ret VNull)
       (fun _ => ret VNull) ;;
     base64Content <- btoa_utf8 (JSON_stringify2 config) ;;
     tok <- prop config "token" ;;
     response <- fetch
       {| req_method := PUT;
          req_url := config_url s;
          req_headers :=
            [("Authorization", "token " ++ to_string tok);
             ("Accept", "application/vnd.github.v3+json");
             ("Content-Type", "application/json")];
          req_body :=
            Some (json_image
                    (VObj [("message", VStr "Update GitHub configuration");
                           ("content", VStr base64Content);
                           ("branch", VStr "main");
                           ("sha", sha)])) |} ;;
     if negb (ok response) then
       error <- json response ;;
       msg <- prop error "message" ;;
       throw (Error (to_string
                       (js_or msg (VStr "Failed to save configuration"))))
     else
       localStorage_setItem "ezeeAdminConfig"
         (JSON_stringify (VObj [("github", config)])) ;;
       ret (VObj [("success", VBool true)]))
    (fun error =>
       console_write ERROR "Error saving config:" [LogErr error] ;;
       throw error).

Definition toggleGalleryUpload (enable tok : value) : M t value :=
  config <- loadConfig ;;
  config <- set_property config "galleryUploadEnabled" enable ;;
  current <- prop config "token" ;;
  config <- set_property config "token" (js_or tok current) ;;
  saveConfig config.

End Methods.

End ConfigManager.

End Part001.

(** ** DataSyncService (integration.js) *)

(** The class as js/github-service.js has it from line 501 on.  Its later
    revision (line 1429) has the same methods; its constructor polls every
    3000 ms, starts with [token] null and has no [submissionsHash]. *)

Module DataSyncService.

Record state : Type := {
  submissionsHash : value;
  agentsHash : value;
  dataHash : value
}.

Record t : Type := {
  baseURL : string;
  repoOwner : string;
  repoName : string;
  branch : string;
  pollingInterval : Z;
  isPolling : bool;
  lastKnownState : state;
  subscribers : list cbid;
  token : value
}.

Definition constructor : t :=
  {| baseURL := "https://api.github.com";
     repoOwner := "BarasaGodwilTech";
     repoName := "Ezee-money";
     branch := "main";
     pollingInterval := 5000;
     isPolling := false;
     lastKnownState :=
       {| submissionsHash := VNull; agentsHash := VNull; dataHash := VNull |};
     subscribers := [];
     token := VUndefined |}.

(** The constructor of the later revision (line 1429), the one that
    [EnhancedSubmissionHandler] and [FieldAgentLoginHandler] call. *)
Definition revised_constructor : t :=
  {| baseURL := "https://api.github.com";
     repoOwner := "BarasaGodwilTech";
     repoName := "Ezee-money";
     branch := "main";
     pollingInterval := 3000;
     isPolling := false;
     lastKnownState :=
       {| submissionsHash := VUndefined; agentsHash := VNull;
          dataHash := VNull |};
     subscribers := [];
     token := VNull |}.

Definition set_lastKnownState (st : state) (s : t) : t :=
  {| baseURL := baseURL s; repoOwner := repoOwner s; repoName := repoName s;
     branch := branch s; pollingInterval := pollingInterval s;
     isPolling := isPolling s; lastKnownState := st;
     subscribers := subscribers s; token := token s |}.

Definition set_dataHash (v : value) (s : t) : t :=
  set_lastKnownState
    {| submissionsHash := submissionsHash (lastKnownState s);
       agentsHash := agentsHash (lastKnownState s);
       dataHash := v |} s.

Definition set_agentsHash (v : value) (s : t) : t :=
  set_lastKnownState
    {| submissionsHash := submissionsHash (lastKnownState s);
       agentsHash := v;
       dataHash := dataHash (lastKnownState s) |} s.

Definition set_isPolling (b : bool) (s : t) : t :=
  {| baseURL := baseURL s; repoOwner := repoOwner s; repoName := repoName s;
     branch := branch s; pollingInterval := pollingInterval s;
     isPolling := b; lastKnownState := lastKnownState s;
     subscribers := subscribers s; token := token s |}.

Definition set_subscribers (l : list cbid) (s : t) : t :=
  {| baseURL := baseURL s; repoOwner := repoOwner s; repoName := repoName s;
     branch := branch s; pollingInterval := pollingInterval s;
     isPolling := isPolling s; lastKnownState := lastKnownState s;
     subscribers := l; token := token s |}.

Definition set_token (v : value) (s : t) : t :=
  {| baseURL := baseURL s; repoOwner := repoOwner s; repoName := repoName s;
     branch := branch s; pollingInterval := pollingInterval s;
     isPolling := isPolling s; lastKnownState := lastKnownState s;
     subscribers := subscribers s; token := v |}.

Definition subscribe (callback : cbid) : M t unit :=
  set_this (fun s => set_subscribers (subscribers s ++ [callback]) s).

Definition unsubscribe (callback : cbid) : M t unit :=
  set_this (fun s =>
    set_subscribers
      (filter (fun sub => negb (Nat.eqb sub callback)) (subscribers s)) s).

Definition apply (a : action) : M t unit :=
  match a with
  | Subscribe c => subscribe c
  | Unsubscribe c => unsubscribe c
  end.

Section Methods.

Context {env : Environment} {rt : Runtime}.

Definition init (tok : value) : M t bool :=
  if truthy tok then
    set_this (set_token tok) ;; ret true
  else
    config <- on_new ConfigManager.constructor ConfigManager.loadConfig ;;
    loaded <- prop config "token" ;;
    set_this (set_token loaded) ;;
    ret (truthy loaded).

Definition headers (s : t) : list (string * string) :=
  [("Authorization", "token " ++ to_string (token s));
   ("Accept", "application/vnd.github.v3+json")].

Definition contents_url (s : t) (filePath : string) : string :=
  baseURL s ++ "/repos/" ++ repoOwner s ++ "/" ++ repoName s
  ++ "/contents/" ++ filePath.

Definition read_request (s : t) (filePath : string) : request :=
  {| req_method := GET;
     req_url := contents_url s filePath ++ "?ref=" ++ branch s;
     req_headers := headers s;
     req_body := None |}.

Definition getFileSHA (filePath : string) : M t value :=
  try_catch
    (s <- this ;;
     response <- fetch (read_request s filePath) ;;
     if ok response then
       data <- json response ;;
       prop data "sha"
     else ret VNull)
    (fun _ => ret VNull).

Definition getFileContent (filePath : string) : M t value :=
  try_catch
    (s <- this ;;
     response <- fetch (read_request s filePath) ;;
     if negb (ok response) then
       if (status response =? 404)%Z then ret VNull
       else throw (Error ("Failed to get file: " ++ dec (status response)))
     else
       data <- json response ;;
       encoded <- prop data "content" ;;
       content <- js_atob encoded ;;
       js_parse content)
    (fun error =>
       console_write ERROR ("Error getting " ++ filePath ++ ":")
         [LogErr error] ;;
       ret VNull).

Definition saveFileContent (filePath : string) (content : value)
  (message : value) : M t value :=
  try_catch
    (s <- this ;;
     sha <- try_catch
       (checkResponse <- fetch (read_request s filePath) ;;
        if ok checkResponse then
          data <- json checkResponse ;;
          prop data "sha"
        else ret VNull)
       (fun _ => ret VNull) ;;
     base64Content <- btoa_utf8 (JSON_stringify2 content) ;;
     response <- fetch
       {| req_method := PUT;
          req_url := contents_url s filePath;
          req_headers := headers s ++ [("Content-Type", "application/json")];
          req_body :=
            Some (json_image
                    (VObj [("message", message);
                           ("content", VStr base64Content);
                           ("branch", VStr (branch s));
                           ("sha", sha)])) |} ;;
     if negb (ok response) then
       throw (Error ("Failed to save " ++ filePath))
     else json response)
    (fun error =>
       console_write ERROR ("Error saving " ++ filePath ++ ":")
         [LogErr error] ;;
       throw error).

Definition notifySubscribers (data : value) (type : string) : M t unit :=
  s <- this ;;
  forEach (subscribers s) (fun callback =>
    try_catch (invoke apply callback data type)
      (fun error => console_write ERROR "Subscriber error:" [LogErr error])).

Definition checkForChanges : M t unit :=
  try_catch
    (dataSHA <- getFileSHA "data.json" ;;
     s <- this ;;
     (if truthy dataSHA
         && negb (strict_eq dataSHA (dataHash (lastKnownState s)))
      then
        set_this (set_dataHash dataSHA) ;;
        data <- getFileContent "data.json" ;;
        notifySubscribers data "submissions_updated"
      else ret tt) ;;
     agentsSHA <- getFileSHA "agents.json" ;;
     s <- this ;;
     (if truthy agentsSHA
         && negb (strict_eq agentsSHA (agentsHash (lastKnownState s)))
      then
        set_this (set_agentsHash agentsSHA) ;;
        agents <- getFileContent "agents.json" ;;
        notifySubscribers agents "agents_updated"
      else ret tt))
    (fun error => console_write ERROR "Change check error:" [LogErr error]).

(** The body of the [poll] closure of [startPolling]. *)
Definition poll : M t unit :=
  s <- this ;;
  if negb (isPolling s) then ret tt
  else
    checkForChanges ;;
    s <- this ;;
    setTimeout (pollingInterval s).

Definition startPolling : M t unit :=
  s <- this ;;
  if isPolling s || negb (truthy (token s)) then ret tt
  else
    set_this (set_isPolling true) ;;
    console_write LOG "Starting real-time polling..." [] ;;
    poll.

Definition stopPolling : M t unit := set_this (set_isPolling false).

End Methods.

End DataSyncService.

(** ** GitHubService (js/github-service.js) *)

Module GitHubService.

Record t : Type := {
  config : value;
  baseURL : string
}.

Section Methods.

Context {env : Environment} {rt : Runtime}.

(** The guard that opens [uploadFile], [readFile] and [deleteFile]. *)
Definition require_config : M t unit :=
  s <- this ;;
  tok <- prop (config s) "token" ;;
  if negb (truthy tok) then throw (Error "GitHub configuration is incomplete")
  else
    owner <- prop (config s) "repoOwner" ;;
    if negb (truthy owner)
    then throw (Error "GitHub configuration is incomplete")
    else
      name <- prop (config s) "repoName" ;;
      if negb (truthy name)
      then throw (Error "GitHub configuration is incomplete")
      else ret tt.

Definition headers (s : t) : list (string * string) :=
  [("Authorization", "token " ++ to_string (field (config s) "token"));
   ("Accept", "application/vnd.github.v3+json")].

Definition contents_url (s : t) (filename : string) : string :=
  baseURL s ++ "/repos/" ++ to_string (field (config s) "repoOwner") ++ "/"
  ++ to_string (field (config s) "repoName") ++ "/contents/" ++ filename.

Definition read_request (s : t) (filename : string) : request :=
  {| req_method := GET;
     req_url := contents_url s filename;
     req_headers := headers s;
     req_body := None |}.

Definition write_request (s : t) (filename : string) (content : value)
  (message : string) (sha : value) : request :=
  {| req_method := PUT;
     req_url := contents_url s filename;
     req_headers := headers s ++ [("Content-Type", "application/json")];
     req_body :=
       Some (json_image
               (VObj [("message", VStr message);
                      ("content", content);
                      ("sha", sha)])) |}.

Definition uploadFile (filename : string) (content : value) (message : string)
  : M t value :=
  require_config ;;
  try_catch
    (s <- this ;;
     sha <- try_catch
       (existingFile <- fetch (read_request s filename) ;;
        if ok existingFile then
          fileData <- json existingFile ;;
          prop fileData "sha"
        else ret VNull)
       (fun _ => ret VNull) ;;
     response <- fetch (write_request s filename content message sha) ;;
     if negb (ok response) then
       errorData <- json response ;;
       msg <- prop errorData "message" ;;
       throw (Error ("Upload failed: " ++ to_string msg))
     else json response)
    (fun error => throw (Error ("File upload error: " ++ error_message error))).

Definition readFile (filename : string) : M t value :=
  require_config ;;
  try_catch
    (s <- this ;;
     response <- fetch (read_request s filename) ;;
     if negb (ok response) then
       if (status response =? 404)%Z then ret VNull
       else throw (Error ("Read failed: " ++ dec (status response) ++ " "
                          ++ statusText response))
     else
       data <- json response ;;
       content <- prop data "content" ;;
       if truthy content then
         try_catch
           (text <- js_atob content ;; js_parse text)
           (fun _ => text <- js_atob content ;; ret (VStr text))
       else ret VNull)
    (fun error => throw (Error ("File read error: " ++ error_message error))).

Definition saveSubmission (submissionData : value) : M t value :=
  try_catch
    (submissions <- try_catch
       (existingData <- readFile "submissions.json" ;;
        if truthy existingData && truthy (field existingData "submissions")
        then ret (field existingData "submissions")
        else ret (VArr []))
       (fun _ =>
          console_write LOG "No existing submissions file, creating new one"
            [] ;;
          ret (VArr [])) ;;
     id <- Date_now ;;
     createdAt <- now_iso ;;
     let newSubmission :=
       VObj (assign "createdAt" (VStr createdAt)
               (spread submissionData [("id", VStr (dec id))])) in
     submissions <- push submissions newSubmission ;;
     lastUpdated <- now_iso ;;
     let dataToSave :=
       VObj [("submissions", submissions);
             ("lastUpdated", VStr lastUpdated);
             ("totalSubmissions",
              VNum (Z.of_nat (match submissions with
                              | VArr xs => length xs
                              | _ => 0
                              end)))] in
     encoded <- js_btoa (JSON_stringify2 dataToSave) ;;
     agentInfo <- prop submissionData "agentInfo" ;;
     fullName <- prop agentInfo "fullName" ;;
     result <- uploadFile "submissions.json" (VStr encoded)
                 ("New submission from " ++ to_string fullName) ;;
     file <- prop result "content" ;;
     download_url <- prop file "download_url" ;;
     ret (VObj [("success", VBool true);
                ("submissionId", field newSubmission "id");
                ("downloadUrl", download_url)]))
    (fun error =>
       throw (Error ("Failed to save submission: " ++ error_message error))).

(** [loadConfig()] does not read [this]: it also runs in the constructor. *)
Definition loadConfig {S} : M S value :=
  saved <- localStorage_getItem "ezeeAdminConfig" ;;
  match saved with
  | Some text =>
      if text =? "" then ret (VObj [])
      else
        config <- js_parse text ;;
        github <- prop config "github" ;;
        ret (js_or github (VObj []))
  | None => ret (VObj [])
  end.

(** [new GitHubService()] *)
Definition constructor {S} : M S t :=
  loaded <- loadConfig ;;
  ret {| config := loaded; baseURL := "https://api.github.com" |}.

Definition saveConfig (new_config : value) : M t unit :=
  saved <- localStorage_getItem "ezeeAdminConfig" ;;
  current <- js_parse (stored_or saved "{}") ;;
  current <- set_property current "github" new_config ;;
  localStorage_setItem "ezeeAdminConfig" (JSON_stringify current) ;;
  set_this (fun s => {| config := new_config; baseURL := baseURL s |}).

Definition repo_url (s : t) : string :=
  baseURL s ++ "/repos/" ++ to_string (field (config s) "repoOwner") ++ "/"
  ++ to_string (field (config s) "repoName").

Definition testConnection : M t value :=
  require_config ;;
  try_catch
    (s <- this ;;
     response <- fetch
       {| req_method := GET; req_url := repo_url s;
          req_headers := headers s; req_body := None |} ;;
     if negb (ok response) then
       throw (Error ("GitHub API Error: " ++ dec (status response) ++ " "
                     ++ statusText response))
     else json response)
    (fun error => throw (Error ("Connection failed: " ++ error_message error))).

(** [base64Data.includes(',') ? base64Data.split(',')[1] : base64Data]:
    strings and arrays have [includes], only strings have [split]. *)
Definition without_prefix (base64Data : value) : M t value :=
  match base64Data with
  | VStr s =>
      if includes_comma s then ret (split_comma_second s) else ret base64Data
  | VArr xs =>
      if existsb (fun x => strict_eq x (VStr ",")) xs
      then throw (TypeError "split is not a function")
      else ret base64Data
  | _ => throw (TypeError "includes is not a function")
  end.

Definition uploadImage (filename : string) (base64Data : value)
  (message : string) : M t value :=
  base64Content <- without_prefix base64Data ;;
  uploadFile filename base64Content message.

Definition deleteFile (filename message : string) : M t value :=
  require_config ;;
  try_catch
    (s <- this ;;
     response <- fetch (read_request s filename) ;;
     if negb (ok response) then
       throw (Error ("File not found: " ++ dec (status response)))
     else
       fileData <- json response ;;
       sha <- prop fileData "sha" ;;
       deleteResponse <- fetch
         {| req_method := DELETE;
            req_url := contents_url s filename;
            req_headers := headers s ++ [("Content-Type", "application/json")];
            req_body :=
              Some (json_image (VObj [("message", VStr message);
                                      ("sha", sha)])) |} ;;
       if negb (ok deleteResponse) then
         throw (Error ("Delete failed: " ++ dec (status deleteResponse)))
       else json deleteResponse)
    (fun error => throw (Error ("File delete error: " ++ error_message error))).

Definition getSubmissions : M t value :=
  try_catch
    (data <- readFile "submissions.json" ;;
     if truthy data then ret (js_or (field data "submissions") (VArr []))
     else ret (VArr []))
    (fun error =>
       throw (Error ("Failed to get submissions: " ++ error_message error))).

Definition saveAgents (agents : value) : M t value :=
  try_catch
    (lastUpdated <- now_iso ;;
     totalAgents <- js_length agents ;;
     let dataToSave :=
       VObj [("agents", agents);
             ("lastUpdated", VStr lastUpdated);
             ("totalAgents", totalAgents)] in
     encoded <- js_btoa (JSON_stringify2 dataToSave) ;;
     result <- uploadFile "agents.json" (VStr encoded)
                 "Update field agents configuration" ;;
     file <- prop result "content" ;;
     download_url <- prop file "download_url" ;;
     ret (VObj [("success", VBool true); ("downloadUrl", download_url)]))
    (fun error =>
       throw (Error ("Failed to save agents: " ++ error_message error))).

Definition getAgents : M t value :=
  try_catch
    (data <- readFile "agents.json" ;;
     if truthy data then ret (js_or (field data "agents") (VArr []))
     else ret (VArr []))
    (fun error =>
       throw (Error ("Failed to get agents: " ++ error_message error))).

Definition uploadSubmissionImages (submissionId : string) (images : value)
  : M t value :=
  let imageFolder := "images/submissions/" ++ submissionId in
  entries <- Object_entries images ;;
  results <- for_of entries [] (fun entry results =>
    let '(key, imageData) := entry in
    try_catch
      (stamp <- Date_now ;;
       let filename := imageFolder ++ "/" ++ key ++ "_" ++ dec stamp ++ ".jpg" in
       result <- uploadImage filename imageData
                   ("Upload " ++ key ++ " for submission " ++ submissionId) ;;
       file <- prop result "content" ;;
       download_url <- prop file "download_url" ;;
       ret (assign key
              (VObj [("success", VBool true);
                     ("filename", VStr filename);
                     ("downloadUrl", download_url)])
              results))
      (fun error =>
         ret (assign key
                (VObj [("success", VBool false);
                       ("error", VStr (error_message error))])
                results))) ;;
  ret (VObj results).

Definition getRepoInfo : M t value :=
  try_catch
    (s <- this ;;
     owner <- prop (config s) "repoOwner" ;;
     response <- fetch
       {| req_method := GET; req_url := repo_url s;
          req_headers := headers s; req_body := None |} ;;
     if negb (ok response) then
       throw (Error ("Failed to get repo info: " ++ dec (status response)))
     else json response)
    (fun error =>
       throw (Error ("Repository info error: " ++ error_message error))).

Definition ensureDirectory (directoryPath : string) : M t bool :=
  try_catch
    (uploadFile (directoryPath ++ "/.gitkeep") (VStr "")
       ("Ensure directory exists: " ++ directoryPath) ;;
     ret true)
    (fun error =>
       throw (Error ("Failed to create directory: " ++ error_message error))).

End Methods.

End GitHubService.

(** ** Regular expressions of the form validation *)

(** Just enough of a matcher for the anchored patterns of the code, by
    derivatives. *)
Inductive regex : Type :=
| Never
| Epsilon
| Class (p : ascii -> bool)
| Seq (r1 r2 : regex)
| Alt (r1 r2 : regex)
| Star (r : regex).

Definition Plus (r : regex) : regex := Seq r (Star r).
Definition Char (c : ascii) : regex := Class (Ascii.eqb c).

Fixpoint nullable (r : regex) : bool :=
  match r with
  | Never => false
  | Epsilon => true
  | Class _ => false
  | Seq r1 r2 => nullable r1 && nullable r2
  | Alt r1 r2 => nullable r1 || nullable r2
  | Star _ => true
  end.

Fixpoint derivative (c : ascii) (r : regex) : regex :=
  match r with
  | Never => Never
  | Epsilon => Never
  | Class p => if p c then Epsilon else Never
  | Seq r1 r2 =>
      if nullable r1
      then Alt (Seq (derivative c r1) r2) (derivative c r2)
      else Seq (derivative c r1) r2
  | Alt r1 r2 => Alt (derivative c r1) (derivative c r2)
  | Star r' => Seq (derivative c r') (Star r')
  end.

(** [/^r$/.test(s)] *)
Fixpoint matches (r : regex) (s : string) : bool :=
  match s with
  | EmptyString => nullable r
  | String c rest => matches (derivative c r) rest
  end.

(** [\s] on the characters below 256: tab, line feed, vertical tab, form
    feed, carriage return, space and no-break space. *)
Definition is_space (c : ascii) : bool :=
  let n := nat_of_ascii c in
  (((9 <=? n) && (n <=? 13)) || (n =? 32) || (n =? 160))%nat.

Definition is_upper (c : ascii) : bool :=
  let n := nat_of_ascii c in ((65 <=? n) && (n <=? 90))%nat.

(** [/^[^\s@]+@[^\s@]+\.[^\s@]+$/] *)
Definition emailRegex : regex :=
  let part := Plus (Class (fun c => negb (is_space c || Ascii.eqb c "@"))) in
  Seq part (Seq (Char "@") (Seq part (Seq (Char ".") part))).

(** [s.replace(/([A-Z])/g, ' $1')] *)
Fixpoint space_capitals (s : string) : string :=
  match s with
  | EmptyString => EmptyString
  | String c rest =>
      if is_upper c then String " " (String c (space_capitals rest))
      else String c (space_capitals rest)
  end.

(** ** EnhancedSubmissionHandler (integration.js) *)

(** A [File] chosen in the form, as [FileReader.readAsDataURL] sees it:
    the data URL it reads to, or [None] when reading fails. *)
Record File : Type := {
  dataURL : option string
}.

(** [Object.entries(imageFiles)]: the entries of the object given, a key
    with [None] where no file was chosen.  The argument itself is [None]
    when it is [null] or [undefined], on which [Object.entries] throws. *)
Definition file_entries {S} (imageFiles : option (list (string * option File)))
  : M S (list (string * option File)) :=
  match imageFiles with
  | Some entries => ret entries
  | None => throw (TypeError "cannot convert to object")
  end.

Module EnhancedSubmissionHandler.

(** Of the two fields of the constructor, [photoHandler] drives the
    photo pickers of the page and is not used by the methods below. *)
Record t : Type := {
  dataSync : DataSyncService.t
}.

Definition constructor : t :=
  {| dataSync := DataSyncService.revised_constructor |}.

Definition set_dataSync (d : DataSyncService.t) (_ : t) : t :=
  {| dataSync := d |}.

Definition required : list string :=
  ["fullName"; "personalNumber"; "email"; "nationalId"; "dob"; "gender";
   "businessAddress"; "residentialAddress"; "nextOfKinName";
   "nextOfKinRelationship"; "nextOfKinPhone"].

Definition contents_api : string :=
  "https://api.github.com/repos/BarasaGodwilTech/Ezee-money/contents/".

Definition raw_base : string :=
  "https://raw.githubusercontent.com/BarasaGodwilTech/Ezee-money/main/".

Section Methods.

Context {env : Environment} {rt : Runtime}.

Definition validateFormData (formData : value) : M t unit :=
  forEach required (fun name =>
    v <- prop formData name ;;
    if negb (truthy v)
    then throw (Error ("Please fill in " ++ toLowerCase (space_capitals name)))
    else ret tt) ;;
  email <- prop formData "email" ;;
  if negb (matches emailRegex (to_string email))
  then throw (Error "Please enter a valid email address")
  else ret tt.

Definition fileToBase64 (file : File) : M t string :=
  match dataURL file with
  | Some url => ret url
  | None => throw (Error "FileReader error")
  end.

Definition write_headers (tok : value) : list (string * string) :=
  [("Authorization", "token " ++ to_string tok);
   ("Accept", "application/vnd.github.v3+json");
   ("Content-Type", "application/json")].

Definition uploadImages (submissionId : string)
  (imageFiles : option (list (string * option File))) (tok : value)
  : M t value :=
  timestamp <- Date_now ;;
  entries <- file_entries imageFiles ;;
  imageUrls <- for_of entries []
    (fun entry imageUrls =>
       let key := fst entry in
       match snd entry with
       | None => ret imageUrls
       | Some file =>
           try_catch
             (base64Data <- fileToBase64 file ;;
              let cleanBase64 := split_comma_second base64Data in
              let filename :=
                "images/" ++ submissionId ++ "_" ++ key ++ "_"
                ++ dec timestamp ++ ".jpg" in
              response <- fetch
                {| req_method := PUT;
                   req_url := contents_api ++ filename;
                   req_headers := write_headers tok;
                   req_body :=
                     Some (json_image
                             (VObj [("message",
                                     VStr ("Upload " ++ key
                                           ++ " for submission "
                                           ++ submissionId));
                                    ("content", cleanBase64);
                                    ("branch", VStr "main")])) |} ;;
              if ok response then
                _ <- json response ;;
                let url := VStr (raw_base ++ filename) in
                console_write LOG ("Uploaded " ++ key ++ ":") [LogVal url] ;;
                ret (assign key url imageUrls)
              else
                error <- json response ;;
                console_write ERROR ("Failed to upload " ++ key ++ ":")
                  [LogVal error] ;;
                ret imageUrls)
             (fun error =>
                console_write ERROR ("Error uploading " ++ key ++ ":")
                  [LogErr error] ;;
                ret imageUrls)
       end) ;;
  ret (VObj imageUrls).

Definition data_json_url : string := contents_api ++ "data.json".

Definition saveToDataFile (submission : value) (tok : value) : M t unit :=
  try_catch
    (initial <- now_iso ;;
     response <- fetch
       {| req_method := GET;
          req_url := data_json_url;
          req_headers :=
            [("Authorization", "token " ++ to_string tok);
             ("Accept", "application/vnd.github.v3+json")];
          req_body := None |} ;;
     read <-
       (if ok response then
          data <- json response ;;
          encoded <- prop data "content" ;;
          text <- js_atob encoded ;;
          parsed <- js_parse text ;;
          ret (parsed, field data "sha")
        else
          ret (VObj [("agents", VArr []); ("lastUpdated", VStr initial)],
               VNull)) ;;
     let submissions := fst read in
     let sha := snd read in
     agents <- prop submissions "agents" ;;
     agents <- push agents submission ;;
     lastUpdated <- now_iso ;;
     let submissions :=
       VObj (assign "lastUpdated" (VStr lastUpdated)
               (assign "agents" agents (own_properties submissions))) in
     base64Content <- btoa_utf8 (JSON_stringify2 submissions) ;;
     fullName <- prop submission "fullName" ;;
     saveResponse <- fetch
       {| req_method := PUT;
          req_url := data_json_url;
          req_headers := write_headers tok;
          req_body :=
            Some (json_image
                    (VObj [("message",
                            VStr ("Add new submission from "
                                  ++ to_string fullName));
                           ("content", VStr base64Content);
                           ("branch", VStr "main");
                           ("sha", sha)])) |} ;;
     if negb (ok saveResponse) then
       error <- json saveResponse ;;
       msg <- prop error "message" ;;
       throw (Error ("Failed to save to data.json: " ++ to_string msg))
     else
       console_write LOG "Successfully saved to data.json" [])
    (fun error =>
       console_write ERROR "Error saving to data.json:" [LogErr error] ;;
       throw error).

(** [Math.random().toString(36).substr(2, 3)] *)
Definition random_suffix : M t string :=
  fun s w =>
    (Ok (random36 (random_reads w)), s,
     {| requests := requests w; console := console w;
        calls := calls w; timers := timers w;
        localStorage := localStorage w;
        clock_reads := clock_reads w;
        random_reads := Datatypes.S (random_reads w) |}).

Definition handleSubmission (formData : value)
  (imageFiles : option (list (string * option File))) : M t value :=
  try_catch
    (config <- on_new ConfigManager.constructor ConfigManager.loadConfig ;;
     tok <- prop config "token" ;;
     if negb (truthy tok) then
       throw (Error "GitHub configuration not found. Please contact admin.")
     else
       _ <- within dataSync set_dataSync (DataSyncService.init tok) ;;
       validateFormData formData ;;
       stamp <- Date_now ;;
       suffix <- random_suffix ;;
       let id := "AGENT-" ++ dec stamp ++ "-" ++ suffix in
       submissionDate <- now_iso ;;
       let submission :=
         [("id", VStr id);
          ("fullName", field formData "fullName");
          ("personalNumber", field formData "personalNumber");
          ("email", field formData "email");
          ("nationalId", field formData "nationalId");
          ("dob", field formData "dob");
          ("gender", field formData "gender");
          ("businessAddress", field formData "businessAddress");
          ("residentialAddress", field formData "residentialAddress");
          ("nextOfKinName", field formData "nextOfKinName");
          ("nextOfKinRelationship", field formData "nextOfKinRelationship");
          ("nextOfKinPhone", field formData "nextOfKinPhone");
          ("tradingName",
           VStr ("SC" ++ to_string (field formData "personalNumber")));
          ("submissionDate", VStr submissionDate);
          ("status", VStr "pending");
          ("emailVerified", VBool false);
          ("adminVerified", VBool false)] in
       console_write LOG "Uploading images to GitHub..." [] ;;
       imageUrls <- uploadImages id imageFiles tok ;;
       let submission :=
         assign "agentPhotoUrl"
           (js_or (field imageUrls "agentPhoto") (VStr ""))
           (assign "idBackUrl" (js_or (field imageUrls "idBack") (VStr ""))
              (assign "idFrontUrl"
                 (js_or (field imageUrls "idFront") (VStr ""))
                 submission)) in
       console_write LOG "Saving submission to data.json..." [] ;;
       saveToDataFile (VObj submission) tok ;;
       ret (VObj [("success", VBool true); ("submissionId", VStr id)]))
    (fun error =>
       console_write ERROR "Submission error:" [LogErr error] ;;
       throw error).

End Methods.

End EnhancedSubmissionHandler.

(** ** FieldAgentLoginHandler (integration.js) *)

(** [arr.find(p)]: the first element on which [p] is truthy, [undefined]
    when there is none; an exception of [p] ends the search. *)
Fixpoint find {S} (p : value -> M S bool) (xs : list value) : M S value :=
  match xs with
  | [] => ret VUndefined
  | x :: rest =>
      b <- p x ;;
      if b : bool then ret x else find p rest
  end.

Module FieldAgentLoginHandler.

Record t : Type := {
  dataSync : DataSyncService.t
}.

Definition constructor : t :=
  {| dataSync := DataSyncService.revised_constructor |}.

Definition set_dataSync (d : DataSyncService.t) (_ : t) : t :=
  {| dataSync := d |}.

Section Methods.

Context {env : Environment} {rt : Runtime}.

(** [v.toLowerCase()] *)
Definition lower (v : value) : M t string :=
  match v with
  | VStr s => ret (toLowerCase s)
  | _ => throw (TypeError "toLowerCase is not a function")
  end.

(** The arrow function given to [find]. *)
Definition matching (scCode fullName : string) (password : value) (a : value)
  : M t bool :=
  code <- prop a "scCode" ;;
  code <- lower code ;;
  if negb (code =? toLowerCase scCode) then ret false
  else
    name <- lower (field a "fullName") ;;
    if negb (name =? toLowerCase fullName) then ret false
    else
      ret (strict_eq (field a "password") password
           && strict_eq (field a "status") (VStr "active")).

Definition authenticate (scCode fullName : string) (password : value)
  : M t value :=
  try_catch
    (config <- on_new ConfigManager.constructor ConfigManager.loadConfig ;;
     tok <- prop config "token" ;;
     if negb (truthy tok) then
       throw (Error "System configuration error. Please contact admin.")
     else
       _ <- within dataSync set_dataSync (DataSyncService.init tok) ;;
       agentsData <-
         within dataSync set_dataSync
           (DataSyncService.getFileContent "agents.json") ;;
       if negb (truthy agentsData) || negb (truthy (field agentsData "agents"))
       then throw (Error "No agents found in system")
       else
         match field agentsData "agents" with
         | VArr agents => find (matching scCode fullName password) agents
         | _ => throw (TypeError "find is not a function")
         end)
    (fun error =>
       console_write ERROR "Authentication error:" [LogErr error] ;;
       throw error).

End Methods.

End FieldAgentLoginHandler.

(** ** SubmissionService (unnamed/part_000) *)

(** [arr.filter(p)]: the elements on which [p] is truthy, in their order;
    an exception of [p] ends the call. *)
Fixpoint js_filter {S} (p : value -> M S bool) (xs : list value)
  : M S (list value) :=
  match xs with
  | [] => ret []
  | x :: rest =>
      b <- p x ;;
      kept <- js_filter p rest ;;
      ret (if b : bool then x :: kept else kept)
  end.

Module SubmissionService.

Record t : Type := {
  baseURL : string;
  submissionEndpoint : string
}.

(** [origin] is [window.location.origin]. *)
Definition constructor (origin : string) : t :=
  {| baseURL := origin;
     submissionEndpoint := origin ++ "/api/submit" |}.

(** [if (!data.group.name) errors.push(msg)] *)
Definition required (errors : list value) (data : value)
  (group name msg : string) : M t (list value) :=
  g <- prop data group ;;
  v <- prop g name ;;
  ret (if truthy v then errors else (errors ++ [VStr msg])%list).

Definition validateSubmission (data : value) : M t value :=
  let errors := [] in
  errors <- required errors data "clientInfo" "fullName"
              "Client name is required" ;;
  errors <- required errors data "clientInfo" "phone"
              "Client phone is required" ;;
  errors <- required errors data "clientInfo" "nationalId"
              "National ID is required" ;;
  errors <- required errors data "clientInfo" "dob"
              "Date of birth is required" ;;
  errors <- required errors data "clientInfo" "gender"
              "Gender is required" ;;
  errors <- required errors data "clientInfo" "businessAddress"
              "Business address is required" ;;
  errors <- required errors data "clientInfo" "residentialAddress"
              "Residential address is required" ;;
  errors <- required errors data "serviceInfo" "type"
              "Service type is required" ;;
  ret (VObj [("isValid", VBool (Nat.eqb (length errors) 0));
             ("errors", VArr errors)]).

Section Methods.

Context {env : Environment} {rt : Runtime}.

(** [navigator.userAgent] *)
Variable userAgent : string.

Definition getClientIP : M t value :=
  try_catch
    (response <- fetch
       {| req_method := GET;
          req_url := "https://api.ipify.org?format=json";
          req_headers := [];
          req_body := None |} ;;
     data <- json response ;;
     prop data "ip")
    (fun _ => ret (VStr "Unknown")).

Definition submitData (data images : value) : M t value :=
  try_catch
    (now <- Date_now ;;
     agentInfo <- prop data "agentInfo" ;;
     clientInfo <- prop data "clientInfo" ;;
     serviceInfo <- prop data "serviceInfo" ;;
     submissionDate <- now_iso ;;
     ipAddress <- getClientIP ;;
     let submission :=
       VObj [("id", VStr (dec now));
             ("agentInfo", agentInfo);
             ("clientInfo", clientInfo);
             ("serviceInfo", serviceInfo);
             ("images", images);
             ("submissionDate", VStr submissionDate);
             ("status", VStr "submitted");
             ("userAgent", VStr userAgent);
             ("ipAddress", ipAddress)] in
     saved <- localStorage_getItem "ezeeSubmissions" ;;
     submissions <- js_parse (stored_or saved "[]") ;;
     submissions <- push submissions submission ;;
     localStorage_setItem "ezeeSubmissions" (JSON_stringify submissions) ;;
     saved <- localStorage_getItem "adminSubmissions" ;;
     adminSubmissions <- js_parse (stored_or saved "[]") ;;
     adminSubmissions <- push adminSubmissions submission ;;
     localStorage_setItem "adminSubmissions"
       (JSON_stringify adminSubmissions) ;;
     id <- prop submission "id" ;;
     ret (VObj [("success", VBool true);
                ("submissionId", id);
                ("message",
                 VStr "Data submitted to Ezee Money Database successfully")]))
    (fun error =>
       throw (Error ("Submission failed: " ++ error_message error))).

Definition getSubmissionStatus (submissionId : value) : M t value :=
  saved <- localStorage_getItem "ezeeSubmissions" ;;
  submissions <- js_parse (stored_or saved "[]") ;;
  submission <-
    match submissions with
    | VArr xs =>
        find (fun s => id <- prop s "id" ;; ret (strict_eq id submissionId)) xs
    | _ => throw (TypeError "find is not a function")
    end ;;
  if truthy submission then prop submission "status"
  else ret (VStr "not_found").

Definition getAgentSubmissions (agentScCode : value) : M t value :=
  saved <- localStorage_getItem "ezeeSubmissions" ;;
  submissions <- js_parse (stored_or saved "[]") ;;
  match submissions with
  | VArr xs =>
      kept <- js_filter
                (fun s =>
                   agentInfo <- prop s "agentInfo" ;;
                   code <- prop agentInfo "scCode" ;;
                   ret (strict_eq code agentScCode))
                xs ;;
      ret (VArr kept)
  | _ => throw (TypeError "filter is not a function")
  end.

End Methods.

End SubmissionService.

(** ** Vocabulary of the statements *)

(** The events of notifying the callbacks [l] in turn, each paired with
    how its call ended: a callback is entered, runs, and exits before the
    next one is entered. *)
Definition notification (data : value) (type : string)
  (l : list (cbid * option exn)) : list event :=
  flat_map (fun co => [CbEnter (fst co) data type; CbExit (fst co) (snd co)]) l.

(** The callback invocations of a trace: who was called, with what. *)
Fixpoint invoked (evs : list event) : list (cbid * value * string) :=
  match evs with
  | [] => []
  | CbEnter c data type :: rest => (c, data, type) :: invoked rest
  | CbExit _ _ :: rest => invoked rest
  end.

(** A notification of every callback of [subs] with [(data, type)]. *)
Definition notify_all (subs : list cbid) (data : value) (type : string)
  : list (cbid * value * string) :=
  map (fun c => (c, data, type)) subs.

(** A version token as the server hands it out: a non-empty string. *)
Definition is_sha (v : value) : Prop :=
  exists s, v = VStr s /\ s <> "".

(** What a notification leaves alone in the world: it only adds callback
    events and console lines. *)
Definition quiet (w w' : world) : Prop :=
  requests w' = requests w /\ timers w' = timers w /\
  localStorage w' = localStorage w /\ clock_reads w' = clock_reads w /\
  random_reads w' = random_reads w.

(** What a notification may change in a service: its subscriber list. *)
Definition rt_rel (s s' : RealTimeService.t) : Prop :=
  exists l, s' = RealTimeService.set_subscribers l s.

Definition ds_rel (s s' : DataSyncService.t) : Prop :=
  exists l, s' = DataSyncService.set_subscribers l s.

(** What a read adds to the world: requests and console lines only. *)
Definition silent (w w' : world) : Prop :=
  calls w' = calls w /\ timers w' = timers w /\
  localStorage w' = localStorage w /\ clock_reads w' = clock_reads w /\
  random_reads w' = random_reads w.

Section Tracking.

Context {env : Environment} {rt : Runtime}.

(** One tracked file of [DataSyncService.checkForChanges], from the state
    [s], [w] before its block to [s'], [w'] after it.  [recorded] reads the
    file's token in [lastKnownState], [record] writes it, [other] reads the
    token of the other file.

    The freshly fetched SHA is what [getFileSHA] returns.  When it is a
    SHA that differs from the recorded one, the record is replaced, the
    body is fetched by [getFileContent] (a second read of the file), and
    every callback registered in [s] is invoked with [(body, tag)].  When
    it is [null], or the recorded SHA itself, nothing is invoked and the
    record stays.  Either way the token of the other file stays. *)
Definition tracked (filePath : string)
  (recorded other : DataSyncService.t -> value)
  (record : value -> DataSyncService.t -> DataSyncService.t)
  (tag : string)
  (s : DataSyncService.t) (w : world)
  (s' : DataSyncService.t) (w' : world) : Prop :=
  exists sha wa,
    DataSyncService.getFileSHA filePath s w = (Ok sha, s, wa) /\
    other s' = other s /\
    (is_sha sha -> sha <> recorded s ->
       recorded s' = sha /\
       exists body wb,
         DataSyncService.getFileContent filePath (record sha s) wa
           = (Ok body, record sha s, wb) /\
         requests w' = (requests w
                        ++ [DataSyncService.read_request s filePath;
                            DataSyncService.read_request s filePath])%list /\
         invoked (calls w')
           = (invoked (calls w)
              ++ notify_all (DataSyncService.subscribers s) body tag)%list) /\
    (sha = VNull \/ sha = recorded s /\ is_sha sha ->
       recorded s' = recorded s /\
       DataSyncService.subscribers s' = DataSyncService.subscribers s /\
       calls w' = calls w).

End Tracking.

(** The request by which [RealTimeService.getBranchSHA] asks for the head
    of the branch. *)
Definition branch_request (s : RealTimeService.t) : request :=
  {| req_method := GET;
     req_url := RealTimeService.baseURL s ++ "/repos/"
                ++ RealTimeService.repoOwner s ++ "/"
                ++ RealTimeService.repoName s ++ "/git/refs/heads/"
                ++ RealTimeService.branch s;
     req_headers := RealTimeService.headers s;
     req_body := None |}.

Section Announcing.

Context {env : Environment} {rt : Runtime}.

(** One file of a poll of [RealTimeService] that saw a change, from [s],
    [w] before the file is fetched to [s'], [w'] after its notification.
    The content is what [getFile] returns; the callbacks registered in [s]
    are notified with it and the tag when it is truthy, and nothing is
    invoked when it is not ([getFile] returns [null] for a missing file and
    for every failure). *)
Definition announced (filePath tag : string)
  (s : RealTimeService.t) (w : world)
  (s' : RealTimeService.t) (w' : world) : Prop :=
  exists content wa,
    RealTimeService.getFile filePath s w = (Ok content, s, wa) /\
    RealTimeService.lastKnownHash s' = RealTimeService.lastKnownHash s /\
    (truthy content = true ->
       invoked (calls w')
       = (invoked (calls w)
          ++ notify_all (RealTimeService.subscribers s) content tag)%list) /\
    (truthy content = false -> s' = s /\ calls w' = calls w).

End Announcing.

(** The configuration that the guard of [GitHubService] asks for. *)
Definition configured (s : GitHubService.t) : Prop :=
  truthy (field (GitHubService.config s) "token") = true /\
  truthy (field (GitHubService.config s) "repoOwner") = true /\
  truthy (field (GitHubService.config s) "repoName") = true.

(** The answer of the server to [r], sent after the requests of [w]. *)
Definition answer {env : Environment} (w : world) (r : request)
  : fetch_result :=
  server (requests w ++ [r])%list.

Definition ok_status (st : Z) : bool := ((200 <=? st) && (st <=? 299))%Z.

(** The version token that a read hands to the write that follows it:
    the [sha] of an ok response, [null] for any other outcome. *)
Definition token_of (a : fetch_result) : value :=
  match a with
  | HttpResponse st _ (Some data) =>
      if ok_status st && negb (nullish data) then field data "sha" else VNull
  | _ => VNull
  end.

(** [btoa(unescape(encodeURIComponent(text)))], [None] when it throws. *)
Definition encode {rt : Runtime} (text : string) : option string :=
  match utf8_bytes text with
  | Some bytes => btoa bytes
  | None => None
  end.

(** The version token that a request carries in its body. *)
Definition version_token (r : request) : value :=
  match req_body r with
  | Some body => field body "sha"
  | None => VUndefined
  end.

(** The requests of a write of one file.  [before] and [after] are the
    requests sent before and after the call, [get] is the read of the
    target file that opens it, [put_url] the address of the file.  The read
    is always sent first; when the content is [ready] (it could be encoded)
    the read is followed at once by one PUT to the file, which carries the
    SHA that the read returned when it returned one, and no token (a
    [null] or absent [sha]) when the read reported the file missing. *)
Definition guarded_write {env : Environment} (ready : bool)
  (before after : list request) (get : request) (put_url : string) : Prop :=
  req_method get = GET /\
  if ready then
    exists put,
      after = (before ++ [get; put])%list /\
      req_method put = PUT /\ req_url put = put_url /\
      (forall sha, token_of (server (before ++ [get])%list) = sha ->
                   is_sha sha -> version_token put = sha) /\
      (forall txt j, server (before ++ [get])%list = HttpResponse 404 txt j ->
                     nullish (version_token put) = true)
  else after = (before ++ [get])%list.

(** A request that did not go through: no connection, or a status that is
    not ok. *)
Definition failed (a : fetch_result) : Prop :=
  match a with
  | NetworkError _ => True
  | HttpResponse st _ _ => ok_status st = false
  end.

(** The list that [GitHubService.saveSubmission] starts from, given the
    outcome of its read of [submissions.json]: the [submissions] of what
    was read; the empty list when the file is missing or has no such
    field; and the empty list again when the read threw, which the
    [catch] around it takes for a missing file. *)
Definition submissions_read (r : result value) : value :=
  match r with
  | Ok existingData =>
      if truthy existingData && truthy (field existingData "submissions")
      then field existingData "submissions"
      else VArr []
  | Throw _ => VArr []
  end.

(** The [content] that a request carries in its body. *)
Definition content_sent (r : request) : value :=
  match req_body r with
  | Some body => field body "content"
  | None => VUndefined
  end.

Section Login.

Context {rt : Runtime}.

(** The record that a login is looking for, in the words of the claim:
    [scCode] and [fullName] equal to the supplied ones up to case,
    [password] equal to the supplied one exactly, [status] exactly
    [active]. *)
Definition accepts (scCode fullName password : string) (a : value) : bool :=
  match field a "scCode", field a "fullName" with
  | VStr code, VStr name =>
      (toLowerCase code =? toLowerCase scCode)
      && (toLowerCase name =? toLowerCase fullName)
      && strict_eq (field a "password") (VStr password)
      && strict_eq (field a "status") (VStr "active")
  | _, _ => false
  end.

(** A stored agent record that carries its two names as strings. *)
Definition named (a : value) : Prop :=
  exists code name, field a "scCode" = VStr code /\ field a "fullName" = VStr name.

(** The result of a search for the first accepted record. *)
Definition first_accepted (scCode fullName password : string)
  (agents : list value) : value :=
  match List.find (accepts scCode fullName password) agents with
  | Some a => a
  | None => VUndefined
  end.

End Login.

(** A computation that never asks the server to delete anything: whatever
    it does, the requests it adds are reads and writes. *)
Definition no_rollback {S A} (m : M S A) : Prop :=
  forall s w r s' w',
    m s w = (r, s', w') ->
    exists sent,
      requests w' = (requests w ++ sent)%list /\
      Forall (fun q => req_method q <> DELETE) sent.

(** The answers of the server to the requests [sent], one after the other,
    after the requests [before]. *)
Fixpoint replies {env : Environment} (before sent : list request)
  : list fetch_result :=
  match sent with
  | [] => []
  | q :: rest =>
      server (before ++ [q])%list :: replies (before ++ [q])%list rest
  end.

Definition status_of (a : fetch_result) : Z :=
  match a with
  | HttpResponse st _ _ => st
  | NetworkError _ => 0
  end.

(** The document that a write sends, read back as the code reads a file:
    [JSON.parse(atob(content))]. *)
Definition document_sent {rt : Runtime} (q : request) : option value :=
  match atob (to_string (content_sent q)) with
  | Some text => JSON_parse text
  | None => None
  end.

(** The last request of a list. *)
Fixpoint last_request (l : list request) : option request :=
  match l with
  | [] => None
  | [r] => Some r
  | _ :: rest => last_request rest
  end.

(** What is seen of a request in a trace: its method and its address. *)
Definition line (q : request) : method * string := (req_method q, req_url q).

(** A computation whose requests, whatever it does, satisfy [P]. *)
Definition sends {S A} (P : list request -> Prop) (m : M S A) : Prop :=
  forall s w r s' w',
    m s w = (r, s', w') ->
    exists sent, requests w' = (requests w ++ sent)%list /\ P sent.

(** The write of one image: a PUT below [images/]. *)
Definition image_write (q : request) : Prop :=
  req_method q = PUT /\
  prefix (EnhancedSubmissionHandler.contents_api ++ "images/") (req_url q)
  = true.

(** The requests of the write of the record: the read of [data.json],
    then at most one PUT to it. *)
Definition metadata_requests (l : list request) : Prop :=
  l = [] \/
  exists get rest,
    l = get :: rest /\
    req_method get = GET /\
    req_url get = EnhancedSubmissionHandler.data_json_url /\
    (rest = [] \/
     exists put,
       rest = [put] /\ req_method put = PUT /\
       req_url put = EnhancedSubmissionHandler.data_json_url).

(** The requests of a form submission: the read of the configuration,
    then one write per image, then the requests of the record. *)
Definition submission_requests (l : list request) : Prop :=
  exists config images metadata,
    l = (config :: images ++ metadata)%list /\
    req_method config = GET /\
    Forall image_write images /\
    metadata_requests metadata.

(** ** Vocabulary of the further properties *)

(** The strings that [/^r$/] accepts. *)
Inductive lang : regex -> string -> Prop :=
| LEpsilon : lang Epsilon ""
| LClass p c : p c = true -> lang (Class p) (String c "")
| LSeq r1 r2 s1 s2 :
    lang r1 s1 -> lang r2 s2 -> lang (Seq r1 r2) (s1 ++ s2)
| LAltL r1 r2 s : lang r1 s -> lang (Alt r1 r2) s
| LAltR r1 r2 s : lang r2 s -> lang (Alt r1 r2) s
| LStarNil r : lang (Star r) ""
| LStarMore r s1 s2 :
    lang r s1 -> lang (Star r) s2 -> lang (Star r) (s1 ++ s2).

(** One of the three parts of an address that the form accepts: not
    empty, without white space and without [@]. *)
Definition email_part (s : string) : bool :=
  negb (s =? "")
  && forallb (fun c => negb (is_space c || Ascii.eqb c "@"))
       (list_ascii_of_string s).

(** The text [local@domain.rest]. *)
Definition email_shape (s : string) : Prop :=
  exists a b c,
    s = a ++ "@" ++ b ++ "." ++ c /\
    email_part a = true /\ email_part b = true /\ email_part c = true.

(** A form that [validateFormData] lets through. *)
Definition valid_form (formData : value) : Prop :=
  Forall (fun name => truthy (field formData name) = true)
    EnhancedSubmissionHandler.required /\
  email_shape (to_string (field formData "email")).

(** The first name of [names] that [formData] leaves empty. *)
Fixpoint first_missing (formData : value) (names : list string)
  : option string :=
  match names with
  | [] => None
  | name :: rest =>
      if truthy (field formData name) then first_missing formData rest
      else Some name
  end.

(** A computation that always returns, leaving the object and the world
    related to what they were by [P] and [Q]. *)
Definition returns_with {S A} (P : S -> S -> Prop)
  (Q : world -> world -> Prop) (m : M S A) : Prop :=
  forall s w, exists a s' w', m s w = (Ok a, s', w') /\ P s s' /\ Q w w'.

(** What a poll leaves alone in a service: whether it is polling, and at
    which interval. *)
Definition rt_polling (s s' : RealTimeService.t) : Prop :=
  RealTimeService.isPolling s' = RealTimeService.isPolling s /\
  RealTimeService.pollingInterval s' = RealTimeService.pollingInterval s.

Definition ds_polling (s s' : DataSyncService.t) : Prop :=
  DataSyncService.isPolling s' = DataSyncService.isPolling s /\
  DataSyncService.pollingInterval s' = DataSyncService.pollingInterval s /\
  DataSyncService.token s' = DataSyncService.token s.

Definition same_timers (w w' : world) : Prop := timers w' = timers w.

(** The callbacks that stay registered when the closure returned by
    [subscribe(c)] has run. *)
Definition others (c : cbid) (subs : list cbid) : list cbid :=
  filter (fun sub => negb (Nat.eqb sub c)) subs.

(** A computation that leaves its object as it is and relates the worlds
    before and after it by [Q], whether it returns or throws; and one
    that, besides, always throws. *)
Definition keeps {S A} (Q : S -> world -> world -> Prop) (m : M S A) : Prop :=
  forall s w, exists r w', m s w = (r, s, w') /\ Q s w w'.

Definition fails {S A} (Q : S -> world -> world -> Prop) (m : M S A) : Prop :=
  forall s w, exists e w', m s w = (Throw e, s, w') /\ Q s w w'.

(** The write of an image by [RealTimeService.uploadImage]: a PUT of a
    file of the folder [images]. *)
Definition rt_image_write (s : RealTimeService.t) (q : request) : Prop :=
  req_method q = PUT /\
  exists fileName,
    req_url q = RealTimeService.contents_url s ("images/" ++ fileName).

(** A stretch of [submitAgentData] in which nothing but images is sent
    and no subscriber is called. *)
Definition uploads_only (s : RealTimeService.t) (w w' : world) : Prop :=
  calls w' = calls w /\ timers w' = timers w /\
  exists sent,
    requests w' = (requests w ++ sent)%list /\ Forall (rt_image_write s) sent.

(** An entry of the report of [uploadSubmissionImages]: the upload of an
    image succeeded, or failed with a message. *)
Definition reported (entry : value) : Prop :=
  (field entry "success" = VBool true /\
   exists filename, field entry "filename" = VStr filename) \/
  (field entry "success" = VBool false /\
   exists msg, field entry "error" = VStr msg).

(** A write that names no version of its target: a PUT whose body
    carries no [sha]. *)
Definition blind_write (q : request) : Prop :=
  req_method q = PUT /\ version_token q = VUndefined.

(** The read of [gitconfig.json] that opens [loadConfig] of
    unnamed/part_001. *)
Definition part001_read (c : Part001.ConfigManager.t) : request :=
  {| req_method := GET;
     req_url := Part001.ConfigManager.config_url c;
     req_headers := [("Accept", "application/vnd.github.v3+json")];
     req_body := None |}.

(** The fields that [SubmissionService.validateSubmission] looks at, each
    with the part of the data that holds it and the message of its
    absence. *)
Definition required_fields : list (string * string * string) :=
  [("clientInfo", "fullName", "Client name is required");
   ("clientInfo", "phone", "Client phone is required");
   ("clientInfo", "nationalId", "National ID is required");
   ("clientInfo", "dob", "Date of birth is required");
   ("clientInfo", "gender", "Gender is required");
   ("clientInfo", "businessAddress", "Business address is required");
   ("clientInfo", "residentialAddress", "Residential address is required");
   ("serviceInfo", "type", "Service type is required")]%string.

Definition present (data : value) (f : string * string * string) : bool :=
  let '(group, name, _) := f in truthy (field (field data group) name).

Definition complaint (data : value) (f : string * string * string)
  : list value :=
  if present data f then [] else [VStr (snd f)].

(** The request by which [SubmissionService.getClientIP] asks for the
    address of the client. *)
Definition ip_request : request :=
  {| req_method := GET;
     req_url := "https://api.ipify.org?format=json";
     req_headers := [];
     req_body := None |}.

(** What is stored under a key of [localStorage], read as
    [JSON.parse(localStorage.getItem(key) || '[]')] reads it. *)
Definition stored_list {rt : Runtime} (key : string) (w : world)
  : option value :=
  JSON_parse (stored_or (storage_get key (localStorage w)) "[]").

(** The agent code of a stored submission. *)
Definition agent_code (x : value) : value :=
  field (field x "agentInfo") "scCode".

(** The test that [SubmissionService.getAgentSubmissions] gives to
    [filter]. *)
Definition by_agent (agentScCode s : value) : M SubmissionService.t bool :=
  agentInfo <- prop s "agentInfo" ;;
  code <- prop agentInfo "scCode" ;;
  ret (strict_eq code agentScCode).

(** The test that [SubmissionService.getSubmissionStatus] gives to
    [find]. *)
Definition by_id (submissionId s : value) : M SubmissionService.t bool :=
  id <- prop s "id" ;; ret (strict_eq id submissionId).

(** The status that a list of stored submissions has for an identifier:
    that of the first submission with it. *)
Definition status_in (xs : list value) (submissionId : value) : value :=
  match List.find (fun x => strict_eq (field x "id") submissionId) xs with
  | Some x => if truthy x then field x "status" else VStr "not_found"
  | None => VStr "not_found"
  end.

(** * A runtime and environments to run the code on *)

(** ** The browser built-ins, on text whose characters are below 256 *)

Module Browser.

Local Open Scope list_scope.

Definition alphabet : string :=
  "ABCDEFGHIJKLMNOPQRSTUVWXYZabcdefghijklmnopqrstuvwxyz0123456789+/".

Definition quote : ascii := ascii_of_nat 34.
Definition backslash : ascii := ascii_of_nat 92.
Definition newline : ascii := ascii_of_nat 10.

Definition sextet_char (n : nat) : ascii :=
  match get n alphabet with
  | Some c => c
  | None => "="%char
  end.

Fixpoint index_of (c : ascii) (s : string) (i : nat) : option nat :=
  match s with
  | EmptyString => None
  | String c' rest => if Ascii.eqb c c' then Some i else index_of c rest (S i)
  end.

(** [btoa] on bytes: three bytes give four characters, the last group is
    padded with [=]. *)
Fixpoint btoa_bytes (l : list nat) : list ascii :=
  match l with
  | [] => []
  | [a] =>
      [sextet_char (a / 4); sextet_char ((a mod 4) * 16); "="%char; "="%char]
  | [a; b] =>
      [sextet_char (a / 4); sextet_char ((a mod 4) * 16 + b / 16);
       sextet_char ((b mod 16) * 4); "="%char]
  | a :: b :: c :: rest =>
      sextet_char (a / 4) :: sextet_char ((a mod 4) * 16 + b / 16)
      :: sextet_char ((b mod 16) * 4 + c / 64) :: sextet_char (c mod 64)
      :: btoa_bytes rest
  end.

Definition btoa (s : string) : option string :=
  Some (string_of_list_ascii
          (btoa_bytes (map nat_of_ascii (list_ascii_of_string s)))).

Definition is_ascii_whitespace (c : ascii) : bool :=
  let n := nat_of_ascii c in
  ((n =? 9) || (n =? 10) || (n =? 12) || (n =? 13) || (n =? 32))%nat.

Fixpoint sextets (l : list ascii) : option (list nat) :=
  match l with
  | [] => Some []
  | c :: rest =>
      match index_of c alphabet 0, sextets rest with
      | Some n, Some ns => Some (n :: ns)
      | _, _ => None
      end
  end.

Fixpoint atob_sextets (l : list nat) : list ascii :=
  match l with
  | a :: b :: c :: d :: rest =>
      ascii_of_nat (a * 4 + b / 16)
      :: ascii_of_nat ((b mod 16) * 16 + c / 4)
      :: ascii_of_nat ((c mod 4) * 64 + d)
      :: atob_sextets rest
  | [a; b; c] =>
      [ascii_of_nat (a * 4 + b / 16); ascii_of_nat ((b mod 16) * 16 + c / 4)]
  | [a; b] => [ascii_of_nat (a * 4 + b / 16)]
  | _ => []
  end.

Definition strip_padding (l : list ascii) : list ascii :=
  if (length l mod 4 =? 0)%nat then
    match rev l with
    | "="%char :: "="%char :: rest => rev rest
    | "="%char :: rest => rev rest
    | _ => l
    end
  else l.

(** [atob]: white space is skipped, up to two [=] of a complete last group
    are dropped, and what is left must be of the alphabet and not one
    character beyond a multiple of four. *)
Definition atob (s : string) : option string :=
  let l := filter (fun c => negb (is_ascii_whitespace c))
                  (list_ascii_of_string s) in
  let l := strip_padding l in
  if (length l mod 4 =? 1)%nat then None
  else
    match sextets l with
    | Some ns => Some (string_of_list_ascii (atob_sextets ns))
    | None => None
    end.

(** [unescape(encodeURIComponent(s))]: the UTF-8 bytes of the text. *)
Definition utf8_bytes (s : string) : option string :=
  Some (string_of_list_ascii
          (flat_map
             (fun c =>
                let n := nat_of_ascii c in
                if (n <? 128)%nat then [c]
                else [ascii_of_nat (192 + n / 64);
                      ascii_of_nat (128 + n mod 64)])
             (list_ascii_of_string s))).

Definition toLowerCase (s : string) : string :=
  string_of_list_ascii
    (map (fun c =>
            let n := nat_of_ascii c in
            if (((65 <=? n) && (n <=? 90))
                || ((192 <=? n) && (n <=? 222) && negb (n =? 215)))%nat
            then ascii_of_nat (n + 32)
            else c)
         (list_ascii_of_string s)).

(** *** Writing JSON *)

Definition hex_digit (n : nat) : ascii :=
  match get n "0123456789abcdef" with
  | Some c => c
  | None => "0"%char
  end.

Definition escape_char (c : ascii) : list ascii :=
  let n := nat_of_ascii c in
  if Ascii.eqb c quote then [backslash; quote]
  else if Ascii.eqb c backslash then [backslash; backslash]
  else if (n =? 8)%nat then [backslash; "b"%char]
  else if (n =? 9)%nat then [backslash; "t"%char]
  else if (n =? 10)%nat then [backslash; "n"%char]
  else if (n =? 12)%nat then [backslash; "f"%char]
  else if (n =? 13)%nat then [backslash; "r"%char]
  else if (n <? 32)%nat then
    [backslash; "u"%char; "0"%char; "0"%char;
     hex_digit (n / 16); hex_digit (n mod 16)]
  else [c].

Definition quoted (s : string) : list ascii :=
  quote :: flat_map escape_char (list_ascii_of_string s) ++ [quote].

Fixpoint join (sep : list ascii) (parts : list (list ascii)) : list ascii :=
  match parts with
  | [] => []
  | [p] => p
  | p :: rest => p ++ sep ++ join sep rest
  end.

Definition spaces (n : nat) : list ascii := repeat " "%char n.

(** [JSON.stringify(v, null, step)] at nesting depth [depth]; [step = 0]
    is the compact form. *)
Fixpoint write (step depth : nat) (v : value) : list ascii :=
  let inner := depth + step in
  let open := if (step =? 0)%nat then [] else newline :: spaces inner in
  let close := if (step =? 0)%nat then [] else newline :: spaces depth in
  let colon := if (step =? 0)%nat then [":"%char] else [":"%char; " "%char] in
  match v with
  | VUndefined => list_ascii_of_string "undefined"
  | VNull => list_ascii_of_string "null"
  | VBool true => list_ascii_of_string "true"
  | VBool false => list_ascii_of_string "false"
  | VNum n => list_ascii_of_string (dec n)
  | VStr s => quoted s
  | VArr [] => list_ascii_of_string "[]"
  | VArr xs =>
      "["%char :: open
      ++ join (","%char :: open)
           (map (fun x => match x with
                          | VUndefined => list_ascii_of_string "null"
                          | _ => write step inner x
                          end) xs)
      ++ close ++ ["]"%char]
  | VObj fields =>
      let members :=
        (fix go (l : list (string * value)) : list (list ascii) :=
           match l with
           | [] => []
           | (k, VUndefined) :: rest => go rest
           | (k, x) :: rest =>
               (quoted k ++ colon ++ write step inner x) :: go rest
           end) fields in
      match members with
      | [] => list_ascii_of_string "{}"
      | _ => "{"%char :: open ++ join (","%char :: open) members
             ++ close ++ ["}"%char]
      end
  end.

Definition JSON_stringify (v : value) : string :=
  string_of_list_ascii (write 0 0 v).

Definition JSON_stringify2 (v : value) : string :=
  string_of_list_ascii (write 2 0 v).

(** *** Reading JSON *)

Definition is_json_space (c : ascii) : bool :=
  let n := nat_of_ascii c in
  ((n =? 9) || (n =? 10) || (n =? 13) || (n =? 32))%nat.

Fixpoint skip_space (cs : list ascii) : list ascii :=
  match cs with
  | c :: rest => if is_json_space c then skip_space rest else cs
  | [] => []
  end.

Definition digit_value (c : ascii) : option nat :=
  let n := nat_of_ascii c in
  if ((48 <=? n) && (n <=? 57))%nat then Some (n - 48) else None.

Definition hex_value (c : ascii) : option nat :=
  let n := nat_of_ascii c in
  if ((48 <=? n) && (n <=? 57))%nat then Some (n - 48)
  else if ((97 <=? n) && (n <=? 102))%nat then Some (n - 87)
  else if ((65 <=? n) && (n <=? 70))%nat then Some (n - 55)
  else None.

Fixpoint read_digits (cs : list ascii) (acc : Z) : Z * list ascii :=
  match cs with
  | c :: rest =>
      match digit_value c with
      | Some d => read_digits rest (10 * acc + Z.of_nat d)
      | None => (acc, cs)
      end
  | [] => (acc, [])
  end.

(** An integer: no leading zero, and neither fraction nor exponent (those
    are beyond the numbers of [value]). *)
Definition read_number (cs : list ascii) : option (Z * list ascii) :=
  let after (n : Z) (rest : list ascii) :=
    match rest with
    | c :: _ =>
        if Ascii.eqb c "."%char || Ascii.eqb c "e"%char
           || Ascii.eqb c "E"%char
        then None else Some (n, rest)
    | [] => Some (n, rest)
    end in
  match cs with
  | c :: rest =>
      match digit_value c with
      | Some 0 =>
          match rest with
          | c' :: _ => match digit_value c' with
                       | Some _ => None
                       | None => after 0%Z rest
                       end
          | [] => Some (0%Z, [])
          end
      | Some _ => let '(n, rest') := read_digits cs 0 in after n rest'
      | None => None
      end
  | [] => None
  end.

(** The characters of a string up to its closing quote. *)
Fixpoint read_string (cs : list ascii) (acc : list ascii)
  : option (string * list ascii) :=
  match cs with
  | [] => None
  | c :: rest =>
      if Ascii.eqb c quote
      then Some (string_of_list_ascii (rev acc), rest)
      else if Ascii.eqb c backslash then
        match rest with
        | e :: rest' =>
            let plain (x : ascii) := read_string rest' (x :: acc) in
            if Ascii.eqb e quote then plain quote
            else if Ascii.eqb e backslash then plain backslash
            else if Ascii.eqb e "/"%char then plain "/"%char
            else if Ascii.eqb e "b"%char then plain (ascii_of_nat 8)
            else if Ascii.eqb e "f"%char then plain (ascii_of_nat 12)
            else if Ascii.eqb e "n"%char then plain (ascii_of_nat 10)
            else if Ascii.eqb e "r"%char then plain (ascii_of_nat 13)
            else if Ascii.eqb e "t"%char then plain (ascii_of_nat 9)
            else if Ascii.eqb e "u"%char then
              match rest' with
              | a :: b :: c' :: d :: rest'' =>
                  match hex_value a, hex_value b, hex_value c', hex_value d
                  with
                  | Some 0, Some 0, Some h, Some l =>
                      read_string rest'' (ascii_of_nat (16 * h + l) :: acc)
                  | _, _, _, _ => None
                  end
              | _ => None
              end
            else None
        | [] => None
        end
      else if (nat_of_ascii c <? 32)%nat then None
      else read_string rest (c :: acc)
  end.

Fixpoint drop_prefix (p : string) (cs : list ascii) : option (list ascii) :=
  match p with
  | EmptyString => Some cs
  | String c p' =>
      match cs with
      | c' :: rest => if Ascii.eqb c c' then drop_prefix p' rest else None
      | [] => None
      end
  end.

Fixpoint read_value (fuel : nat) (cs : list ascii)
  : option (value * list ascii) :=
  match fuel with
  | 0 => None
  | S fuel' =>
      match skip_space cs with
      | [] => None
      | c :: rest =>
          if Ascii.eqb c "{"%char then
            match skip_space rest with
            | c' :: rest' =>
                if Ascii.eqb c' "}"%char then Some (VObj [], rest')
                else read_members fuel' rest []
            | [] => None
            end
          else if Ascii.eqb c "["%char then
            match skip_space rest with
            | c' :: rest' =>
                if Ascii.eqb c' "]"%char then Some (VArr [], rest')
                else read_elements fuel' rest []
            | [] => None
            end
          else if Ascii.eqb c quote then
            match read_string rest [] with
            | Some (s, rest') => Some (VStr s, rest')
            | None => None
            end
          else if Ascii.eqb c "-"%char then
            match read_number rest with
            | Some (n, rest') => Some (VNum (- n), rest')
            | None => None
            end
          else if Ascii.eqb c "t"%char then
            option_map (pair (VBool true)) (drop_prefix "rue" rest)
          else if Ascii.eqb c "f"%char then
            option_map (pair (VBool false)) (drop_prefix "alse" rest)
          else if Ascii.eqb c "n"%char then
            option_map (pair VNull) (drop_prefix "ull" rest)
          else
            match read_number (c :: rest) with
            | Some (n, rest') => Some (VNum n, rest')
            | None => None
            end
      end
  end

with read_elements (fuel : nat) (cs : list ascii) (acc : list value)
  : option (value * list ascii) :=
  match fuel with
  | 0 => None
  | S fuel' =>
      match read_value fuel' cs with
      | Some (v, rest) =>
          match skip_space rest with
          | c :: rest' =>
              if Ascii.eqb c ","%char
              then read_elements fuel' rest' (v :: acc)
              else if Ascii.eqb c "]"%char
              then Some (VArr (rev (v :: acc)), rest')
              else None
          | [] => None
          end
      | None => None
      end
  end

with read_members (fuel : nat) (cs : list ascii)
  (acc : list (string * value)) : option (value * list ascii) :=
  match fuel with
  | 0 => None
  | S fuel' =>
      match skip_space cs with
      | q :: rest =>
          if Ascii.eqb q quote then
            match read_string rest [] with
            | Some (k, rest1) =>
                match skip_space rest1 with
                | c :: rest2 =>
                    if Ascii.eqb c ":"%char then
                      match read_value fuel' rest2 with
                      | Some (v, rest3) =>
                          match skip_space rest3 with
                          | c' :: rest4 =>
                              if Ascii.eqb c' ","%char
                              then read_members fuel' rest4 (assign k v acc)
                              else if Ascii.eqb c' "}"%char
                              then Some (VObj (assign k v acc), rest4)
                              else None
                          | [] => None
                          end
                      | None => None
                      end
                    else None
                | [] => None
                end
            | None => None
            end
          else None
      | [] => None
      end
  end.

(** [JSON.parse]: one value, with nothing but white space after it. *)
Definition JSON_parse (s : string) : option value :=
  let cs := list_ascii_of_string s in
  match read_value (S (length cs)) cs with
  | Some (v, rest) =>
      match skip_space rest with
      | [] => Some v
      | _ => None
      end
  | None => None
  end.

(** *** Dates *)

Definition pad (width : nat) (n : Z) : string :=
  let s := dec n in
  (string_of_list_ascii (repeat "0"%char (width - String.length s))
   ++ s)%string.

(** [new Date(ms).toISOString()], for the years 0 to 9999. *)
Definition toISOString (ms : Z) : string :=
  let days := (ms / 86400000)%Z in
  let rem := (ms mod 86400000)%Z in
  let z := (days + 719468)%Z in
  let era := (z / 146097)%Z in
  let doe := (z - era * 146097)%Z in
  let yoe := ((doe - doe / 1460 + doe / 36524 - doe / 146096) / 365)%Z in
  let doy := (doe - (365 * yoe + yoe / 4 - yoe / 100))%Z in
  let mp := ((5 * doy + 2) / 153)%Z in
  let d := (doy - (153 * mp + 2) / 5 + 1)%Z in
  let m := (if mp <? 10 then mp + 3 else mp - 9)%Z in
  let y := (yoe + era * 400 + (if m <=? 2 then 1 else 0))%Z in
  (pad 4 y ++ "-" ++ pad 2 m ++ "-" ++ pad 2 d ++ "T"
   ++ pad 2 (rem / 3600000) ++ ":" ++ pad 2 ((rem / 60000) mod 60) ++ ":"
   ++ pad 2 ((rem / 1000) mod 60) ++ "." ++ pad 3 (rem mod 1000)
   ++ "Z")%string.

End Browser.

#[export] Instance browser : Runtime :=
  {| atob := Browser.atob;
     btoa := Browser.btoa;
     utf8_bytes := Browser.utf8_bytes;
     JSON_parse := Browser.JSON_parse;
     JSON_stringify := Browser.JSON_stringify;
     JSON_stringify2 := Browser.JSON_stringify2;
     toISOString := Browser.toISOString;
     toLowerCase := Browser.toLowerCase |}.

(** ** Environments *)

Module Examples.

Definition method_eqb (a b : method) : bool :=
  match a, b with
  | GET, GET | PUT, PUT | DELETE, DELETE => true
  | _, _ => false
  end.

(** A request for exactly this address, or for an address below it. *)
Definition exactly (m : method) (url : string) (r : request) : bool :=
  method_eqb (req_method r) m && (req_url r =? url).

Definition under (m : method) (url : string) (r : request) : bool :=
  method_eqb (req_method r) m && prefix url (req_url r).

Definition repo : string :=
  "https://api.github.com/repos/BarasaGodwilTech/Ezee-money".

Definition file (sha content : string) : fetch_result :=
  HttpResponse 200 "OK"
    (Some (VObj [("type", VStr "file"); ("sha", VStr sha);
                 ("content", VStr content)])).

Definition written (url : string) : fetch_result :=
  HttpResponse 200 "OK"
    (Some (VObj [("content",
                  VObj [("download_url", VStr url); ("html_url", VStr url)]);
                 ("commit", VObj [("sha", VStr "c0ffee")])])).

Definition not_found : fetch_result :=
  HttpResponse 404 "Not Found" (Some (VObj [("message", VStr "Not Found")])).

Definition server_error : fetch_result :=
  HttpResponse 500 "Internal Server Error"
    (Some (VObj [("message", VStr "Server Error")])).

Definition conflict : fetch_result :=
  HttpResponse 409 "Conflict"
    (Some (VObj [("message", VStr "data.json does not match")])).

Definition returns : cbid -> list event -> value -> string -> cb_run :=
  fun _ _ _ _ => {| cb_actions := []; cb_outcome := None |}.

(** Callback 1 throws, the others return. *)
Definition first_throws : cbid -> list event -> value -> string -> cb_run :=
  fun c _ _ _ =>
    {| cb_actions := [];
       cb_outcome := if Nat.eqb c 1 then Some (Error "boom") else None |}.

Definition environment (answer : request -> fetch_result)
  (cb : cbid -> list event -> value -> string -> cb_run) : Environment :=
  {| server := fun l => match last_request l with
                        | Some r => answer r
                        | None => NetworkError "Failed to fetch"
                        end;
     callback := cb;
     clock := fun n => (1700000000000 + Z.of_nat n)%Z;
     random36 := fun _ => "k3x" |}.

(** The texts of the files, in base64 as the contents API returns them. *)

(** [{"repoOwner":"BarasaGodwilTech","repoName":"Ezee-money",
      "branchName":"main","token":"ghp_example"}] *)
Definition gitconfig_json : string :=
  "eyJyZXBvT3duZXIiOiJCYXJhc2FHb2R3aWxUZWNoIiwicmVwb05hbWUiOiJFemVlLW1vbmV5IiwiYnJhbmNoTmFtZSI6Im1haW4iLCJ0b2tlbiI6ImdocF9leGFtcGxlIn0=".

(** [{"agents":[{"fullName":"Jane Doe","password":"pw","status":"active"}]}]:
    a record without [scCode]. *)
Definition agents_without_code : string :=
  "eyJhZ2VudHMiOlt7ImZ1bGxOYW1lIjoiSmFuZSBEb2UiLCJwYXNzd29yZCI6InB3Iiwic3RhdHVzIjoiYWN0aXZlIn1dfQ==".

(** [{"agents":[{"scCode":"SC001","fullName":"Jane Doe","password":"pw",
      "status":"inactive"},{"scCode":"sc002","fullName":"John Roe",
      "password":"secret","status":"active"}]}] *)
Definition agents_json : string :=
  "eyJhZ2VudHMiOlt7InNjQ29kZSI6IlNDMDAxIiwiZnVsbE5hbWUiOiJKYW5lIERvZSIsInBhc3N3b3JkIjoicHciLCJzdGF0dXMiOiJpbmFjdGl2ZSJ9LHsic2NDb2RlIjoic2MwMDIiLCJmdWxsTmFtZSI6IkpvaG4gUm9lIiwicGFzc3dvcmQiOiJzZWNyZXQiLCJzdGF0dXMiOiJhY3RpdmUifV19".

(** [{"submissions":[{"id":"1","agentInfo":{"fullName":"Ann"}}],
      "lastUpdated":"2024-01-01T00:00:00.000Z","totalSubmissions":1}] *)
Definition submissions_json : string :=
  "eyJzdWJtaXNzaW9ucyI6W3siaWQiOiIxIiwiYWdlbnRJbmZvIjp7ImZ1bGxOYW1lIjoiQW5uIn19XSwibGFzdFVwZGF0ZWQiOiIyMDI0LTAxLTAxVDAwOjAwOjAwLjAwMFoiLCJ0b3RhbFN1Ym1pc3Npb25zIjoxfQ==".

(** [{"agents":[{"id":"AGENT-1","fullName":"Ann"}],
      "lastUpdated":"2024-01-01T00:00:00.000Z"}] *)
Definition data_json : string :=
  "eyJhZ2VudHMiOlt7ImlkIjoiQUdFTlQtMSIsImZ1bGxOYW1lIjoiQW5uIn1dLCJsYXN0VXBkYXRlZCI6IjIwMjQtMDEtMDFUMDA6MDA6MDAuMDAwWiJ9".

(** [plain text, not JSON] *)
Definition plain_text : string := "cGxhaW4gdGV4dCwgbm90IEpTT04=".

(** *** A repository whose head moved *)

Definition head (sha : string) : fetch_result :=
  HttpResponse 200 "OK" (Some (VObj [("object", VObj [("sha", VStr sha)])])).

Definition moved_repository (r : request) : fetch_result :=
  if exactly GET (repo ++ "/git/refs/heads/main") r then head "5ha2"
  else if exactly GET (repo ++ "/contents/submissions.json?ref=main") r
  then file "b10b" submissions_json
  else if exactly GET (repo ++ "/contents/data.json?ref=main") r
  then file "da7a" data_json
  else if exactly GET (repo ++ "/contents/data.json") r
  then file "da7a" data_json
  else if exactly GET (repo ++ "/contents/submissions.json") r
  then file "b10b" submissions_json
  else if exactly GET (repo ++ "/contents/agents.json?ref=main") r
  then file "a9e7" agents_json
  else if exactly GET (repo ++ "/contents/gitconfig.json") r
  then file "c0f1" gitconfig_json
  else if under PUT (repo ++ "/contents/") r
  then written (req_url r)
  else not_found.

Definition moved : Environment := environment moved_repository returns.

Definition moved_throwing : Environment :=
  environment moved_repository first_throws.

(** A polling [RealTimeService] with two subscribers; [seen] is the
    identifier it recorded. *)
Definition polling (seen : value) : RealTimeService.t :=
  {| RealTimeService.baseURL := "https://api.github.com";
     RealTimeService.repoOwner := "BarasaGodwilTech";
     RealTimeService.repoName := "Ezee-money";
     RealTimeService.branch := "main";
     RealTimeService.pollingInterval := 5000;
     RealTimeService.lastKnownHash := seen;
     RealTimeService.isPolling := true;
     RealTimeService.subscribers := [1; 2];
     RealTimeService.token := VStr "ghp_example" |}.

(** A [DataSyncService] with two subscribers that has seen nothing yet. *)
Definition syncing : DataSyncService.t :=
  DataSyncService.set_subscribers [1; 2]
    (DataSyncService.set_token (VStr "ghp_example")
       DataSyncService.constructor).

Definition github : GitHubService.t :=
  {| GitHubService.config :=
       VObj [("repoOwner", VStr "BarasaGodwilTech");
             ("repoName", VStr "Ezee-money");
             ("branchName", VStr "main");
             ("token", VStr "ghp_example")];
     GitHubService.baseURL := "https://api.github.com" |}.

(** *** A server that fails every request *)

Definition failing : Environment :=
  environment (fun _ => server_error) returns.

(** *** An agents file with a record that has no [scCode] *)

Definition nameless_repository (r : request) : fetch_result :=
  if exactly GET (repo ++ "/contents/gitconfig.json") r
  then file "c0f1" gitconfig_json
  else if exactly GET (repo ++ "/contents/agents.json?ref=main") r
  then file "a9e7" agents_without_code
  else not_found.

Definition nameless : Environment := environment nameless_repository returns.

(** *** A form submission *)

Definition created (url : string) : fetch_result :=
  HttpResponse 201 "Created"
    (Some (VObj [("content",
                  VObj [("download_url", VStr url); ("html_url", VStr url)]);
                 ("commit", VObj [("sha", VStr "c0ffee")])])).

Definition form : value :=
  VObj [("fullName", VStr "Ann Lee");
        ("personalNumber", VStr "0700123456");
        ("email", VStr "ann@example.com");
        ("nationalId", VStr "CM900123");
        ("dob", VStr "1990-05-17");
        ("gender", VStr "female");
        ("businessAddress", VStr "12 Market Street");
        ("residentialAddress", VStr "4 Hill Road");
        ("nextOfKinName", VStr "Ben Lee");
        ("nextOfKinRelationship", VStr "brother");
        ("nextOfKinPhone", VStr "0700654321")].

(** Two photographs chosen, the third left out. *)
Definition photos : option (list (string * option File)) :=
  Some
    [("idFront", Some {| dataURL := Some "data:image/jpeg;base64,AAAA" |});
     ("idBack", Some {| dataURL := Some "data:image/jpeg;base64,BBBB" |});
     ("agentPhoto", None)].

(** The server takes the images and refuses the write of [data.json]. *)
Definition metadata_rejected : Environment :=
  environment
    (fun r =>
       if exactly GET (repo ++ "/contents/gitconfig.json") r
       then file "c0f1" gitconfig_json
       else if under PUT (repo ++ "/contents/images/") r
       then created (req_url r)
       else if exactly GET (repo ++ "/contents/data.json") r
       then file "da7a" data_json
       else if exactly PUT (repo ++ "/contents/data.json") r
       then conflict
       else not_found)
    returns.

(** The server refuses the first image and takes everything else; there
    is no [data.json] yet. *)
Definition image_rejected : Environment :=
  environment
    (fun r =>
       if exactly GET (repo ++ "/contents/gitconfig.json") r
       then file "c0f1" gitconfig_json
       else if exactly PUT
                 (repo ++ "/contents/images/"
                  ++ "AGENT-1700000000000-k3x_idFront_1700000000002.jpg") r
       then server_error
       else if under PUT (repo ++ "/contents/") r
       then created (req_url r)
       else not_found)
    returns.

(** *** A form with its first field left empty *)

Definition incomplete_form : value :=
  VObj [("fullName", VStr "");
        ("personalNumber", VStr "0700123456");
        ("email", VStr "ann@example.com");
        ("nationalId", VStr "CM900123");
        ("dob", VStr "1990-05-17");
        ("gender", VStr "female");
        ("businessAddress", VStr "12 Market Street");
        ("residentialAddress", VStr "4 Hill Road");
        ("nextOfKinName", VStr "Ben Lee");
        ("nextOfKinRelationship", VStr "brother");
        ("nextOfKinPhone", VStr "0700654321")].

(** *** A repository whose head is the commit of the last write *)

Definition settled : Environment :=
  environment
    (fun r =>
       if exactly GET (repo ++ "/git/refs/heads/main") r then head "c0ffee"
       else moved_repository r)
    returns.

(** *** A server that fails the first read of [submissions.json] *)

Definition reads_of (url : string) (l : list request) : nat :=
  length (filter (exactly GET url) l).

Definition flaky : Environment :=
  {| server := fun l =>
       match last_request l with
       | Some r =>
           if exactly GET (repo ++ "/contents/submissions.json?ref=main") r
              && Nat.eqb
                   (reads_of (repo ++ "/contents/submissions.json?ref=main") l)
                   1
           then server_error
           else moved_repository r
       | None => NetworkError "Failed to fetch"
       end;
     callback := returns;
     clock := fun n => (1700000000000 + Z.of_nat n)%Z;
     random36 := fun _ => "k3x" |}.

(** *** A server that fails the first read of [submissions.json] by
    [GitHubService] *)

Definition hiccup : Environment :=
  {| server := fun l =>
       match last_request l with
       | Some r =>
           if exactly GET (repo ++ "/contents/submissions.json") r
              && Nat.eqb (reads_of (repo ++ "/contents/submissions.json") l) 1
           then server_error
           else moved_repository r
       | None => NetworkError "Failed to fetch"
       end;
     callback := returns;
     clock := fun n => (1700000000000 + Z.of_nat n)%Z;
     random36 := fun _ => "k3x" |}.

(** A submission of a field agent, with and without an identifier. *)
Definition visit : value :=
  VObj [("id", VStr "SUB-7");
        ("agentInfo", VObj [("fullName", VStr "John Roe")]);
        ("images",
         VObj [("idFront", VStr "data:image/jpeg;base64,AAAA")])].

Definition unnamed_visit : value :=
  VObj [("agentInfo", VObj [("fullName", VStr "John Roe")]);
        ("images",
         VObj [("idFront", VStr "data:image/jpeg;base64,AAAA")])].

(** Two images to upload, the second of which is not text. *)
Definition scans : value :=
  VObj [("idFront", VStr "data:image/jpeg;base64,AAAA");
        ("idBack", VNum 5)].

(** *** A browser that has a configuration cached *)

Definition cached_config : value :=
  VObj [("github",
         VObj [("repoOwner", VStr "BarasaGodwilTech");
               ("repoName", VStr "Ezee-money");
               ("branchName", VStr "main");
               ("token", VStr "ghp_cached")])].

Definition configured_browser : world :=
  {| requests := []; console := []; calls := []; timers := [];
     localStorage :=
       [("ezeeAdminConfig", JSON_stringify (Runtime := browser) cached_config)];
     clock_reads := 0; random_reads := 0 |}.

(** *** A service created in a browser that has nothing stored *)

Definition unconfigured : GitHubService.t :=
  {| GitHubService.config := VObj [];
     GitHubService.baseURL := "https://api.github.com" |}.

(** *** No connection *)

Definition disconnected : Environment :=
  environment (fun _ => NetworkError "Failed to fetch") returns.

(** *** Submissions kept in the browser *)

Definition office : SubmissionService.t :=
  SubmissionService.constructor "https://ezee.example".

(** Data that names no agent and leaves most of the form empty. *)
Definition walk_in : value :=
  VObj [("clientInfo", VObj [("fullName", VStr "Ann Lee")]);
        ("serviceInfo", VObj [("type", VStr "loan")])].

(** A browser in which [adminSubmissions] does not hold JSON. *)
Definition broken_admin_list : world :=
  {| requests := []; console := []; calls := []; timers := [];
     localStorage := [("adminSubmissions", "oops")];
     clock_reads := 0; random_reads := 0 |}.

(** The browser after [walk_in] was submitted without a connection. *)
Definition stored_walk_in : world :=
  snd (SubmissionService.submitData (env := disconnected) (rt := browser)
         "Mozilla/5.0" walk_in (VObj []) office initial_world).

End Examples.

(** * Proofs *)

Local Open Scope list_scope.

#[local] Arguments json_image : simpl never.

(** ** The monad *)

Lemma bind_Ok {S A B} (m : M S A) (k : A -> M S B) s w a s' w' :
  m s w = (Ok a, s', w') -> bind m k s w = k a s' w'.
Proof. intros H. unfold bind. now rewrite H. Qed.

Lemma bind_Throw {S A B} (m : M S A) (k : A -> M S B) s w e s' w' :
  m s w = (Throw e, s', w') -> bind m k s w = (Throw e, s', w').
Proof. intros H. unfold bind. now rewrite H. Qed.

Lemma try_Ok {S A} (m : M S A) h s w a s' w' :
  m s w = (Ok a, s', w') -> try_catch m h s w = (Ok a, s', w').
Proof. intros H. unfold try_catch. now rewrite H. Qed.

Lemma try_Throw {S A} (m : M S A) h s w e s' w' :
  m s w = (Throw e, s', w') -> try_catch m h s w = h e s' w'.
Proof. intros H. unfold try_catch. now rewrite H. Qed.

Lemma bind_inv_Ok {S A B} (m : M S A) (k : A -> M S B) s w b s' w' :
  bind m k s w = (Ok b, s', w') ->
  exists a s1 w1, m s w = (Ok a, s1, w1) /\ k a s1 w1 = (Ok b, s', w').
Proof.
  unfold bind. destruct (m s w) as [[[a|e] s1] w1]; [eauto|discriminate].
Qed.

Lemma try_rethrow_Ok {S A} (m : M S A) (h : exn -> M S A) s w a s' w' :
  (forall e s1 w1, exists e' s2 w2, h e s1 w1 = (Throw e', s2, w2)) ->
  try_catch m h s w = (Ok a, s', w') ->
  m s w = (Ok a, s', w').
Proof.
  intros Hh. unfold try_catch.
  destruct (m s w) as [[[x|e] s1] w1]; [auto|].
  destruct (Hh e s1 w1) as (e' & s2 & w2 & ->). discriminate.
Qed.

Ltac bind_step H x Hx :=
  let s1 := fresh "s" in
  let w1 := fresh "w" in
  apply bind_inv_Ok in H as (x & s1 & w1 & Hx & H).

Ltac prop_step Hx :=
  unfold prop in Hx;
  match type of Hx with
  | context [nullish ?v] => destruct (nullish v) eqn:?; [discriminate|]
  end;
  unfold ret in Hx; inversion Hx; subst; clear Hx.

Lemma invoked_app (a b : list event) :
  invoked (a ++ b) = invoked a ++ invoked b.
Proof.
  induction a as [|[c d t|c o] a IH]; simpl; [reflexivity| |assumption].
  now rewrite IH.
Qed.

Lemma invoked_notification data type (l : list (cbid * option exn)) :
  invoked (notification data type l) = notify_all (map fst l) data type.
Proof.
  induction l as [|[c o] l IH]; simpl; [reflexivity|].
  unfold notify_all in *. simpl. now rewrite <- IH.
Qed.

Lemma map_fst_combine {A B} (l : list A) (l' : list B) :
  length l' = length l -> map fst (combine l l') = l.
Proof.
  revert l'. induction l as [|a l IH]; intros [|b l'] H; simpl in *;
    try discriminate; [reflexivity|].
  f_equal. apply IH. lia.
Qed.

(** ** Notification loops *)

Section Notify.

Context {env : Environment} {S : Type}.
Variable apply : action -> M S unit.
Variable R : S -> S -> Prop.
Hypothesis R_refl : forall s, R s s.
Hypothesis R_trans : forall a b c, R a b -> R b c -> R a c.
Hypothesis apply_ok :
  forall a s w, exists s', apply a s w = (Ok tt, s', w) /\ R s s'.

Lemma actions_ok (l : list action) :
  forall s w, exists s', forEach l apply s w = (Ok tt, s', w) /\ R s s'.
Proof.
  induction l as [|a l IH]; intros s w; simpl.
  - exists s. split; [reflexivity|apply R_refl].
  - destruct (apply_ok a s w) as (s1 & H1 & R1).
    destruct (IH s1 w) as (s2 & H2 & R2).
    exists s2. split; [|eauto].
    erewrite bind_Ok by exact H1. exact H2.
Qed.

Lemma invoke_guarded label c data type s w :
  exists s' w',
    try_catch (invoke apply c data type)
      (fun error => console_write ERROR label [LogErr error]) s w
    = (Ok tt, s', w') /\
    R s s' /\ quiet w w' /\
    calls w' = calls w
               ++ [CbEnter c data type;
                   CbExit c (cb_outcome (callback c (calls w) data type))].
Proof.
  unfold invoke, try_catch, bind, the_world, record_event, set_world.
  simpl.
  match goal with
  | |- context [forEach ?l apply ?s0 ?w0] =>
      destruct (actions_ok l s0 w0) as (s1 & H1 & R1); rewrite H1
  end.
  simpl.
  destruct (cb_outcome (callback c (calls w) data type)) as [e|];
    simpl; do 2 eexists; (split; [reflexivity|]);
    (split; [exact R1|]); unfold quiet; simpl;
    rewrite <- app_assoc; simpl; auto 10.
Qed.

Lemma notify_loop label data type (subs : list cbid) :
  forall s w,
  exists s' w' outs,
    forEach subs (fun callback =>
      try_catch (invoke apply callback data type)
        (fun error => console_write ERROR label [LogErr error])) s w
    = (Ok tt, s', w') /\
    R s s' /\ quiet w w' /\
    length outs = length subs /\
    calls w' = calls w ++ notification data type (combine subs outs).
Proof.
  induction subs as [|c subs IH]; intros s w; simpl.
  - exists s, w, []. unfold quiet. rewrite app_nil_r. auto 10.
  - destruct (invoke_guarded label c data type s w)
      as (s1 & w1 & H1 & R1 & Q1 & C1).
    destruct (IH s1 w1) as (s2 & w2 & outs & H2 & R2 & Q2 & L2 & C2).
    exists s2, w2, (cb_outcome (callback c (calls w) data type) :: outs).
    split; [erewrite bind_Ok by exact H1; exact H2|].
    split; [eauto|].
    split; [unfold quiet in *; intuition congruence|].
    split; [simpl; congruence|].
    rewrite C2, C1, <- app_assoc. reflexivity.
Qed.

End Notify.

Lemma notification_app data type (a b : list (cbid * option exn)) :
  notification data type (a ++ b)
  = notification data type a ++ notification data type b.
Proof. unfold notification. apply flat_map_app. Qed.

Lemma notification_enter data type (l : list (cbid * option exn)) :
  forall j c o,
    nth_error l j = Some (c, o) ->
    nth_error (notification data type l) (2 * j) = Some (CbEnter c data type).
Proof.
  induction l as [|[c0 o0] l IH]; intros [|j] c o H; simpl in *;
    try discriminate.
  - now inversion H.
  - replace (j + Datatypes.S (j + 0)) with (Datatypes.S (2 * j)) by lia.
    simpl. eapply IH. exact H.
Qed.

Lemma nth_error_combine_fst {A B} (l : list A) (l' : list B) :
  length l' = length l ->
  forall j a, nth_error l j = Some a ->
  exists b, nth_error (combine l l') j = Some (a, b).
Proof.
  revert l'. induction l as [|x l IH]; intros [|y l'] Hlen [|j] a H;
    simpl in *; try discriminate.
  - inversion H. eauto.
  - apply IH; [lia|assumption].
Qed.

(** ** The subscriber lists of the two services *)

Lemma rt_rel_refl s : rt_rel s s.
Proof. exists (RealTimeService.subscribers s). now destruct s. Qed.

Lemma rt_rel_trans a b c : rt_rel a b -> rt_rel b c -> rt_rel a c.
Proof. intros [l ->] [l' ->]. now exists l'. Qed.

Lemma ds_rel_refl s : ds_rel s s.
Proof. exists (DataSyncService.subscribers s). now destruct s. Qed.

Lemma ds_rel_trans a b c : ds_rel a b -> ds_rel b c -> ds_rel a c.
Proof. intros [l ->] [l' ->]. now exists l'. Qed.

Lemma rt_apply_ok a s w :
  exists s', RealTimeService.apply a s w = (Ok tt, s', w) /\ rt_rel s s'.
Proof. destruct a; eexists; (split; [reflexivity|]); eexists; reflexivity. Qed.

Lemma ds_apply_ok a s w :
  exists s', DataSyncService.apply a s w = (Ok tt, s', w) /\ ds_rel s s'.
Proof. destruct a; eexists; (split; [reflexivity|]); eexists; reflexivity. Qed.

Lemma rt_notifySubscribers_trace {env : Environment} data type s w :
  exists s' w' outs,
    RealTimeService.notifySubscribers data type s w = (Ok tt, s', w') /\
    rt_rel s s' /\ quiet w w' /\
    length outs = length (RealTimeService.subscribers s) /\
    calls w' = calls w
      ++ notification data type (combine (RealTimeService.subscribers s) outs).
Proof.
  unfold RealTimeService.notifySubscribers, bind, this.
  apply (notify_loop RealTimeService.apply rt_rel rt_rel_refl rt_rel_trans
           rt_apply_ok).
Qed.

Lemma ds_notifySubscribers_trace {env : Environment} data type s w :
  exists s' w' outs,
    DataSyncService.notifySubscribers data type s w = (Ok tt, s', w') /\
    ds_rel s s' /\ quiet w w' /\
    length outs = length (DataSyncService.subscribers s) /\
    calls w' = calls w
      ++ notification data type (combine (DataSyncService.subscribers s) outs).
Proof.
  unfold DataSyncService.notifySubscribers, bind, this.
  apply (notify_loop DataSyncService.apply ds_rel ds_rel_refl ds_rel_trans
           ds_apply_ok).
Qed.

Lemma rt_subscribe_all (l : list cbid) :
  forall s w, exists s',
    forEach l RealTimeService.subscribe s w = (Ok tt, s', w) /\
    RealTimeService.subscribers s' = RealTimeService.subscribers s ++ l.
Proof.
  induction l as [|c l IH]; intros s w; simpl.
  - exists s. now rewrite app_nil_r.
  - destruct (IH (RealTimeService.set_subscribers
                    (RealTimeService.subscribers s ++ [c]) s) w)
      as (s' & H & E).
    exists s'. split; [exact H|].
    rewrite E. simpl. now rewrite <- app_assoc.
Qed.

Lemma ds_subscribe_all (l : list cbid) :
  forall s w, exists s',
    forEach l DataSyncService.subscribe s w = (Ok tt, s', w) /\
    DataSyncService.subscribers s' = DataSyncService.subscribers s ++ l.
Proof.
  induction l as [|c l IH]; intros s w; simpl.
  - exists s. now rewrite app_nil_r.
  - destruct (IH (DataSyncService.set_subscribers
                    (DataSyncService.subscribers s ++ [c]) s) w)
      as (s' & H & E).
    exists s'. split; [exact H|].
    rewrite E. simpl. now rewrite <- app_assoc.
Qed.

(** Once the trace of a notification is known, a callback that threw is
    followed by the entry of every later one. *)
Lemma later_callbacks_entered data type (subs : list cbid) outs evs :
  length outs = length subs ->
  evs = notification data type (combine subs outs) ->
  forall j c', nth_error subs j = Some c' ->
  nth_error evs (2 * j) = Some (CbEnter c' data type).
Proof.
  intros Hlen -> j c' Hj.
  destruct (nth_error_combine_fst subs outs Hlen j c' Hj) as [o Ho].
  eapply notification_enter. exact Ho.
Qed.

(** C5. Subscriber callbacks are invoked synchronously in registration
    order.  Whatever list [callbacks] of callbacks is registered by
    successive [subscribe] calls, on a service whose list was [s0]'s, the
    list ends as the earlier registrations followed by [callbacks], and
    [notifySubscribers(data, type)] then produces exactly one entry event
    [(callback, data, type)] per registration, in registration order, each
    followed by the exit of that callback before the next entry.  This
    holds for [RealTimeService] and for [DataSyncService]. *)
Theorem notifySubscribers_in_registration_order :
  forall (env : Environment) (callbacks : list cbid)
         (data : value) (type : string) (w : world),
    (forall s0 : RealTimeService.t,
       exists s s' w' outs,
         forEach callbacks RealTimeService.subscribe s0 w = (Ok tt, s, w) /\
         RealTimeService.subscribers s
           = RealTimeService.subscribers s0 ++ callbacks /\
         RealTimeService.notifySubscribers data type s w = (Ok tt, s', w') /\
         length outs = length (RealTimeService.subscribers s) /\
         calls w' = calls w
           ++ notification data type
                (combine (RealTimeService.subscribers s) outs) /\
         invoked (calls w') = invoked (calls w)
           ++ notify_all (RealTimeService.subscribers s) data type)
    /\
    (forall s0 : DataSyncService.t,
       exists s s' w' outs,
         forEach callbacks DataSyncService.subscribe s0 w = (Ok tt, s, w) /\
         DataSyncService.subscribers s
           = DataSyncService.subscribers s0 ++ callbacks /\
         DataSyncService.notifySubscribers data type s w = (Ok tt, s', w') /\
         length outs = length (DataSyncService.subscribers s) /\
         calls w' = calls w
           ++ notification data type
                (combine (DataSyncService.subscribers s) outs) /\
         invoked (calls w') = invoked (calls w)
           ++ notify_all (DataSyncService.subscribers s) data type).
Proof.
  intros env callbacks data type w. split; intros s0.
  - destruct (rt_subscribe_all callbacks s0 w) as (s & Hs & Es).
    destruct (rt_notifySubscribers_trace data type s w)
      as (s' & w' & outs & Hn & _ & _ & Hl & Hc).
    exists s, s', w', outs. repeat split; try assumption.
    rewrite Hc, invoked_app, invoked_notification, map_fst_combine;
      [reflexivity|assumption].
  - destruct (ds_subscribe_all callbacks s0 w) as (s & Hs & Es).
    destruct (ds_notifySubscribers_trace data type s w)
      as (s' & w' & outs & Hn & _ & _ & Hl & Hc).
    exists s, s', w', outs. repeat split; try assumption.
    rewrite Hc, invoked_app, invoked_notification, map_fst_combine;
      [reflexivity|assumption].
Qed.

(** C8. A subscriber callback that throws does not disrupt notification.
    [notifySubscribers] always returns normally, whatever the callbacks
    do; and if the call of the [i]-th registered callback ended by
    throwing [e] (its exit event, the [2i+1]-th of the notification,
    carries [e]), then every callback registered at a later position [j]
    is still entered with the same [(data, type)] (the [2j]-th event).
    This holds for [RealTimeService] and for [DataSyncService]. *)
Theorem notifySubscribers_isolates_throwing_callbacks :
  forall (env : Environment) (data : value) (type : string),
    (forall (s : RealTimeService.t) (w : world),
       exists s' w',
         RealTimeService.notifySubscribers data type s w = (Ok tt, s', w'))
    /\
    (forall (s : RealTimeService.t) (w : world) r s' w' evs i c e j c',
       RealTimeService.notifySubscribers data type s w = (r, s', w') ->
       calls w' = calls w ++ evs ->
       nth_error (RealTimeService.subscribers s) i = Some c ->
       nth_error evs (2 * i + 1) = Some (CbExit c (Some e)) ->
       i < j ->
       nth_error (RealTimeService.subscribers s) j = Some c' ->
       nth_error evs (2 * j) = Some (CbEnter c' data type))
    /\
    (forall (s : DataSyncService.t) (w : world),
       exists s' w',
         DataSyncService.notifySubscribers data type s w = (Ok tt, s', w'))
    /\
    (forall (s : DataSyncService.t) (w : world) r s' w' evs i c e j c',
       DataSyncService.notifySubscribers data type s w = (r, s', w') ->
       calls w' = calls w ++ evs ->
       nth_error (DataSyncService.subscribers s) i = Some c ->
       nth_error evs (2 * i + 1) = Some (CbExit c (Some e)) ->
       i < j ->
       nth_error (DataSyncService.subscribers s) j = Some c' ->
       nth_error evs (2 * j) = Some (CbEnter c' data type)).
Proof.
  intros env data type. repeat split.
  - intros s w.
    destruct (rt_notifySubscribers_trace data type s w)
      as (s' & w' & outs & Hn & _).
    eauto.
  - intros s w r s' w' evs i c e j c' Hrun Hcalls _ _ _ Hj.
    destruct (rt_notifySubscribers_trace data type s w)
      as (s1 & w1 & outs & Hn & _ & _ & Hl & Hc).
    rewrite Hn in Hrun. inversion Hrun; subst.
    rewrite Hc in Hcalls. apply app_inv_head in Hcalls.
    eapply later_callbacks_entered; eauto.
  - intros s w.
    destruct (ds_notifySubscribers_trace data type s w)
      as (s' & w' & outs & Hn & _).
    eauto.
  - intros s w r s' w' evs i c e j c' Hrun Hcalls _ _ _ Hj.
    destruct (ds_notifySubscribers_trace data type s w)
      as (s1 & w1 & outs & Hn & _ & _ & Hl & Hc).
    rewrite Hn in Hrun. inversion Hrun; subst.
    rewrite Hc in Hcalls. apply app_inv_head in Hcalls.
    eapply later_callbacks_entered; eauto.
Qed.

(** ** Reads of DataSyncService *)

Lemma strict_eq_str x v : strict_eq (VStr x) v = true <-> v = VStr x.
Proof.
  destruct v; simpl; try (split; [discriminate|intros H; inversion H]).
  - rewrite String.eqb_eq. split; [now intros ->|].
    intros H. now inversion H.
Qed.

Lemma is_sha_truthy v : is_sha v -> truthy v = true.
Proof.
  intros (x & -> & Hx). simpl. apply negb_true_iff.
  now apply String.eqb_neq.
Qed.

Lemma sha_differs v r : is_sha v -> v <> r -> strict_eq v r = false.
Proof.
  intros (x & -> & _) Hne. destruct (strict_eq (VStr x) r) eqn:E;
    [|reflexivity].
  apply strict_eq_str in E. congruence.
Qed.

Lemma sha_same v : is_sha v -> strict_eq v v = true.
Proof. intros (x & -> & _). now apply strict_eq_str. Qed.

Lemma silent_refl w : silent w w.
Proof. unfold silent. auto. Qed.

Lemma silent_trans a b c : silent a b -> silent b c -> silent a c.
Proof. unfold silent. intuition congruence. Qed.

Lemma silent_request r w : silent w (record_request r w).
Proof. unfold silent. simpl. auto. Qed.

Section DataSyncReads.

Context {env : Environment} {rt : Runtime}.

Lemma ds_getFileSHA_total filePath s w :
  exists sha,
    DataSyncService.getFileSHA filePath s w
    = (Ok sha, s, record_request (DataSyncService.read_request s filePath) w).
Proof.
  unfold DataSyncService.getFileSHA, try_catch, bind, this, fetch, json,
    prop, ret, throw.
  destruct (server _) as [msg|st txt [data|]]; simpl; eauto;
    destruct (ok _); simpl; eauto.
  destruct (nullish data); simpl; eauto.
Qed.

Lemma ds_getFileContent_total filePath s w :
  exists body w',
    DataSyncService.getFileContent filePath s w = (Ok body, s, w') /\
    requests w'
    = requests w ++ [DataSyncService.read_request s filePath] /\
    silent w w'.
Proof.
  unfold DataSyncService.getFileContent, try_catch, bind, this, fetch, json,
    prop, ret, throw, js_atob, js_parse, console_write, set_world.
  destruct (server _) as [msg|st txt [data|]]; simpl;
    repeat match goal with
    | |- context [if ?b then _ else _] => destruct b; simpl
    | |- context [match atob ?x with _ => _ end] => destruct (atob x); simpl
    | |- context [match JSON_parse ?x with _ => _ end] =>
        destruct (JSON_parse x); simpl
    end;
    do 2 eexists; (split; [reflexivity|]); simpl;
    (split; [reflexivity|]); unfold silent; simpl; auto.
Qed.

End DataSyncReads.

(** ** C1: change detection of DataSyncService *)

Section CheckForChanges.

Context {env : Environment} {rt : Runtime}.

Variable filePath : string.
Variables recorded other : DataSyncService.t -> value.
Variable record : value -> DataSyncService.t -> DataSyncService.t.
Variable tag : string.

Hypothesis recorded_record : forall v s, recorded (record v s) = v.
Hypothesis other_record : forall v s, other (record v s) = other s.
Hypothesis subscribers_record :
  forall v s,
    DataSyncService.subscribers (record v s) = DataSyncService.subscribers s.
Hypothesis request_record :
  forall v s,
    DataSyncService.read_request (record v s) filePath
    = DataSyncService.read_request s filePath.
Hypothesis recorded_subscribers :
  forall l s, recorded (DataSyncService.set_subscribers l s) = recorded s.
Hypothesis other_subscribers :
  forall l s, other (DataSyncService.set_subscribers l s) = other s.

(** The block that [checkForChanges] runs for one file. *)
Let block : M DataSyncService.t unit :=
  sha <- DataSyncService.getFileSHA filePath ;;
  s <- this ;;
  if truthy sha && negb (strict_eq sha (recorded s))
  then
    set_this (record sha) ;;
    data <- DataSyncService.getFileContent filePath ;;
    DataSyncService.notifySubscribers data tag
  else ret tt.

Lemma block_tracked s w :
  exists s' w',
    block s w = (Ok tt, s', w') /\
    tracked filePath recorded other record tag s w s' w'.
Proof.
  destruct (ds_getFileSHA_total filePath s w) as [sha Hsha].
  unfold block. erewrite bind_Ok by exact Hsha. unfold bind at 1, this at 1.
  destruct (truthy sha && negb (strict_eq sha (recorded s))) eqn:Hcond.
  - apply andb_true_iff in Hcond as [Ht Hne].
    apply negb_true_iff in Hne.
    unfold bind at 1, set_this at 1.
    destruct (ds_getFileContent_total filePath (record sha s)
                (record_request (DataSyncService.read_request s filePath) w))
      as (body & wb & Hbody & Hreq & Hsil).
    erewrite bind_Ok by exact Hbody.
    destruct (ds_notifySubscribers_trace body tag (record sha s) wb)
      as (s' & w' & outs & Hn & [l ->] & Hq & Hl & Hc).
    exists (DataSyncService.set_subscribers l (record sha s)), w'.
    split; [exact Hn|].
    exists sha, (record_request (DataSyncService.read_request s filePath) w).
    split; [exact Hsha|].
    split; [now rewrite other_subscribers, other_record|].
    split.
    + intros _ _.
      split; [now rewrite recorded_subscribers, recorded_record|].
      exists body, wb. split; [exact Hbody|].
      destruct Hq as (Hq & _). destruct Hsil as (Hcalls & _).
      split.
      * rewrite Hq, Hreq, request_record. simpl.
        now rewrite <- app_assoc.
      * rewrite Hc, invoked_app, invoked_notification, map_fst_combine
          by exact Hl.
        rewrite subscribers_record, Hcalls. reflexivity.
    + intros [->|[-> Hs]]; [discriminate|].
      rewrite sha_same in Hne by exact Hs. discriminate.
  - exists s, (record_request (DataSyncService.read_request s filePath) w).
    split; [reflexivity|].
    exists sha, (record_request (DataSyncService.read_request s filePath) w).
    split; [exact Hsha|]. split; [reflexivity|].
    split.
    + intros Hs Hne.
      rewrite (is_sha_truthy _ Hs), (sha_differs _ _ Hs Hne) in Hcond.
      discriminate.
    + intros _. auto.
Qed.

End CheckForChanges.


(** ** C2: the polling loop of RealTimeService *)

Ltac crunch :=
  repeat match goal with
  | |- context [match server ?x with _ => _ end] =>
      destruct (server x) as [?|? ? [?|]] eqn:?; simpl
  | |- context [match atob ?x with _ => _ end] =>
      destruct (atob x) eqn:?; simpl
  | |- context [match btoa ?x with _ => _ end] =>
      destruct (btoa x) eqn:?; simpl
  | |- context [match utf8_bytes ?x with _ => _ end] =>
      destruct (utf8_bytes x) eqn:?; simpl
  | |- context [match JSON_parse ?x with _ => _ end] =>
      destruct (JSON_parse x) eqn:?; simpl
  | |- context [((200 <=? ?st)%Z && (?st <=? 299)%Z)] =>
      change ((200 <=? st)%Z && (st <=? 299)%Z) with (ok_status st)
  | |- context [ok_status ?x] => destruct (ok_status x) eqn:?; simpl
  | |- context [if ?b then _ else _] => destruct b eqn:?; simpl
  end.

Section RealTimeReads.

Context {env : Environment} {rt : Runtime}.

Lemma rt_getBranchSHA_total s w :
  exists sha w',
    RealTimeService.getBranchSHA s w = (Ok sha, s, w') /\
    requests w' = requests w ++ [branch_request s] /\
    silent w w'.
Proof.
  unfold RealTimeService.getBranchSHA, try_catch, bind, this, fetch, json,
    prop, ret, throw, console_write, set_world.
  fold (branch_request s). crunch.
  all: do 2 eexists; (split; [reflexivity|]).
  all: simpl.
  all: (split; [reflexivity|]); unfold silent; simpl; auto.
Qed.

Lemma rt_getFile_total filePath s w :
  exists content w',
    RealTimeService.getFile filePath s w = (Ok content, s, w') /\
    silent w w'.
Proof.
  unfold RealTimeService.getFile, try_catch, bind, this, fetch, json,
    prop, ret, throw, js_atob, js_parse, console_write, set_world.
  crunch.
  all: do 2 eexists.
  all: split; [reflexivity|]; unfold silent; simpl; auto.
Qed.

Lemma announce_block filePath tag s w :
  exists s' w',
    (content <- RealTimeService.getFile filePath ;;
     if truthy content
     then RealTimeService.notifySubscribers content tag
     else ret tt) s w = (Ok tt, s', w') /\
    announced filePath tag s w s' w'.
Proof.
  destruct (rt_getFile_total filePath s w) as (content & wa & Hget & Hsil).
  erewrite bind_Ok by exact Hget.
  destruct (truthy content) eqn:Ht.
  - destruct (rt_notifySubscribers_trace content tag s wa)
      as (s' & w' & outs & Hn & [l ->] & Hq & Hl & Hc).
    do 2 eexists. split; [exact Hn|].
    exists content, wa. split; [exact Hget|]. split; [reflexivity|].
    split; [intros _|congruence].
    rewrite Hc, invoked_app, invoked_notification.
    rewrite map_fst_combine by exact Hl.
    destruct Hsil as [-> _]. reflexivity.
  - exists s, wa. split; [reflexivity|].
    exists content, wa. split; [exact Hget|]. split; [reflexivity|].
    split; [congruence|]. intros _. split; [reflexivity|apply Hsil].
Qed.

End RealTimeReads.

Section Polling.

Context {env : Environment} {rt : Runtime}.

Lemma rt_hasRepositoryChanged_spec s w sha w0 :
  RealTimeService.getBranchSHA s w = (Ok sha, s, w0) ->
  RealTimeService.hasRepositoryChanged s w
  = if truthy sha
    then (Ok (truthy (RealTimeService.lastKnownHash s)
              && negb (strict_eq sha (RealTimeService.lastKnownHash s))),
          RealTimeService.set_lastKnownHash sha s, w0)
    else (Ok false, s, w0).
Proof.
  intros H.
  unfold RealTimeService.hasRepositoryChanged, try_catch, bind.
  rewrite H. destruct (truthy sha); simpl; [|reflexivity].
  unfold this, set_this, ret.
  now destruct (truthy (RealTimeService.lastKnownHash s)
                && negb (strict_eq sha (RealTimeService.lastKnownHash s))).
Qed.

End Polling.

(** C2, as the code has it.  For every poll of the polling loop of
    [RealTimeService] (polling is on), the head of the branch is fetched
    by [getBranchSHA], the poll returns normally, and:

    - when the fetched identifier is a SHA, an identifier is already
      recorded, and the two differ, the record is replaced, then
      [submissions.json] and [agents.json] are fetched in this order and,
      as [announced] says, the callbacks are notified with
      [submissions_updated] and [agents_updated] for each file whose fetch
      gave a truthy content;
    - when nothing is recorded yet (the first poll that fetches a SHA),
      the SHA is recorded, no file is fetched and nobody is notified;
    - when the SHA equals the recorded one, or none could be fetched, no
      file is fetched, nobody is notified and the record holds the
      fetched SHA, or what it held when there is none. *)
Theorem poll_notifies_on_recorded_change :
  forall (env : Environment) (rt : Runtime)
         (s : RealTimeService.t) (w : world),
    RealTimeService.isPolling s = true ->
    exists sha w0 s' w',
      RealTimeService.getBranchSHA s w = (Ok sha, s, w0) /\
      RealTimeService.poll s w = (Ok tt, s', w') /\
      (is_sha sha ->
       truthy (RealTimeService.lastKnownHash s) = true ->
       sha <> RealTimeService.lastKnownHash s ->
       exists w1 s2 w2 w3,
         requests w1 = requests w0 /\ calls w1 = calls w /\
         announced "submissions.json" "submissions_updated"
           (RealTimeService.set_lastKnownHash sha s) w1 s2 w2 /\
         announced "agents.json" "agents_updated" s2 w2 s' w3 /\
         calls w' = calls w3 /\
         RealTimeService.lastKnownHash s' = sha) /\
      (is_sha sha ->
       truthy (RealTimeService.lastKnownHash s) = false
       \/ sha = RealTimeService.lastKnownHash s ->
       RealTimeService.lastKnownHash s' = sha /\
       calls w' = calls w /\
       requests w' = requests w ++ [branch_request s]) /\
      (sha = VNull ->
       RealTimeService.lastKnownHash s' = RealTimeService.lastKnownHash s /\
       calls w' = calls w /\
       requests w' = requests w ++ [branch_request s]).
Proof.
  intros env rt s w Hpoll.
  destruct (rt_getBranchSHA_total s w) as (sha & w0 & Hsha & Hreq & Hsil).
  pose proof (rt_hasRepositoryChanged_spec s w sha w0 Hsha) as Hchg.
  exists sha, w0.
  unfold RealTimeService.poll. unfold bind at 1, this at 1.
  rewrite Hpoll. unfold try_catch.
  cbv beta iota zeta delta [bind this negb].
  rewrite Hchg.
  destruct (truthy sha) eqn:Ht.
  - destruct (truthy (RealTimeService.lastKnownHash s)
              && negb (strict_eq sha (RealTimeService.lastKnownHash s)))
      eqn:Hc.
    + (* a recorded identifier, and a different one fetched *)
      set (sA := RealTimeService.set_lastKnownHash sha s) in *.
      assert (Hlog : exists w1,
                 console_write (S := RealTimeService.t) LOG
                   "Repository changed, fetching updates..." [] sA w0
                 = (Ok tt, sA, w1)
                 /\ requests w1 = requests w0 /\ calls w1 = calls w0)
        by (eexists; split; [reflexivity|simpl; auto]).
      destruct Hlog as (w1 & Hlog & Hr1 & Hc1).
      destruct (announce_block "submissions.json" "submissions_updated"
                  sA w1) as (s2 & w2 & Hb1 & A1).
      destruct (announce_block "agents.json" "agents_updated" s2 w2)
        as (s3 & w3 & Hb2 & A2).
      eexists s3, _. split; [exact Hsha|]. split.
      * cbv beta iota zeta delta [bind this] in Hb1, Hb2.
        rewrite Hlog.
        destruct (RealTimeService.getFile "submissions.json" sA w1)
          as [[[a|e] sa] wa]; [|discriminate].
        rewrite Hb1.
        destruct (RealTimeService.getFile "agents.json" s2 w2)
          as [[[a'|e'] sa'] wa']; [|discriminate].
        rewrite Hb2. reflexivity.
      * split; [|split].
        -- intros _ _ _. exists w1, s2, w2, w3.
           destruct Hsil as [Hcalls _].
           repeat split; try assumption; try congruence.
           destruct A1 as (? & ? & _ & E1 & _).
           destruct A2 as (? & ? & _ & E2 & _).
           rewrite E2, E1. reflexivity.
        -- intros Hs [Hf|He].
           ++ rewrite Hf in Hc. discriminate.
           ++ rewrite <- He, (sha_same _ Hs), andb_false_r in Hc.
              discriminate.
        -- intros ->. discriminate.
    + (* nothing recorded yet, or the recorded identifier again *)
      eexists _, _. split; [exact Hsha|]. split.
      * reflexivity.
      * simpl. destruct Hsil as [Hcalls _].
        split; [|split].
        -- intros Hs Ht' Hne.
           rewrite Ht', (sha_differs _ _ Hs Hne) in Hc. discriminate.
        -- intros _ _. auto.
        -- intros ->. discriminate.
  - (* no identifier could be fetched *)
    eexists _, _. split; [exact Hsha|]. split.
    + reflexivity.
    + simpl. destruct Hsil as [Hcalls _].
      split; [|split].
      * intros Hs. rewrite (is_sha_truthy _ Hs) in Ht. discriminate.
      * intros Hs. rewrite (is_sha_truthy _ Hs) in Ht. discriminate.
      * intros _. auto.
Qed.

(** ** C9: GitHubService.readFile *)

Lemma truthy_field_nullish v k : truthy (field v k) = true -> nullish v = false.
Proof. destruct v; simpl; intros H; try reflexivity; discriminate. Qed.

Section GitHubReads.

Context {env : Environment} {rt : Runtime}.

Lemma require_config_ok s w :
  configured s -> GitHubService.require_config s w = (Ok tt, s, w).
Proof.
  intros (Ht & Ho & Hn).
  unfold GitHubService.require_config, bind, this, prop.
  rewrite (truthy_field_nullish _ _ Ht). unfold ret.
  now rewrite Ht, Ho, Hn.
Qed.

End GitHubReads.

(** C9. [GitHubService.readFile], once its configuration guard has
    passed, issues one read of the file and:
    - on a response that is not ok, returns [null] when the status is 404
      and throws for every other status;
    - on an ok response whose [content] is truthy and decodes from base64
      to [text], returns [JSON.parse(text)] when parsing succeeds and the
      string [text] itself when it does not;
    - on an ok response with no (or empty) [content], returns [null]. *)
Theorem readFile_results :
  forall (env : Environment) (rt : Runtime)
         (s : GitHubService.t) (w : world) (filename : string),
    configured s ->
    exists r w',
      GitHubService.readFile filename s w = (r, s, w') /\
      requests w' = requests w ++ [GitHubService.read_request s filename] /\
      (forall st txt j,
         answer w (GitHubService.read_request s filename)
         = HttpResponse st txt j ->
         ok_status st = false ->
         (st = 404%Z -> r = Ok VNull) /\
         (st <> 404%Z ->
          r = Throw (Error ("File read error: Read failed: " ++ dec st
                            ++ " " ++ txt)%string))) /\
      (forall st txt data,
         answer w (GitHubService.read_request s filename)
         = HttpResponse st txt (Some data) ->
         ok_status st = true ->
         nullish data = false ->
         (truthy (field data "content") = false -> r = Ok VNull) /\
         (truthy (field data "content") = true ->
          forall text,
            atob (to_string (field data "content")) = Some text ->
            (forall v, JSON_parse text = Some v -> r = Ok v) /\
            (JSON_parse text = None -> r = Ok (VStr text)))).
Proof.
  intros env rt s w filename Hcfg.
  unfold answer.
  unfold GitHubService.readFile.
  erewrite bind_Ok by (apply require_config_ok; exact Hcfg).
  unfold try_catch, bind, this, fetch, json, prop, ret, throw, js_atob,
    js_parse, ok. simpl.
  fold (ok_status).
  destruct (server (requests w ++ [GitHubService.read_request s filename]))
    as [msg|st txt [data|]]; simpl;
    try change ((200 <=? st)%Z && (st <=? 299)%Z) with (ok_status st).
  all: repeat match goal with
       | |- context [ok_status ?x] => destruct (ok_status x) eqn:?; simpl
       | |- context [(?x =? 404)%Z] => destruct (Z.eqb_spec x 404); simpl
       end.
  all: crunch.
  all: do 2 eexists; (split; [reflexivity|]); (split; [reflexivity|]).
  all: split; intros ? ? ? E; inversion E; subst; clear E.
  all: try congruence.
  all: intros; repeat split; intros; try congruence.
Qed.

(** ** Writes: C3 and the write half of C6 *)

Lemma is_sha_not_nullish v : is_sha v -> nullish v = false.
Proof. now intros (x & -> & _). Qed.

Lemma is_sha_image v : is_sha v -> json_image v = v.
Proof. now intros (x & -> & _). Qed.

Lemma image_field_other k k' x rest :
  (k' =? k)%string = false ->
  field (json_image (VObj ((k', x) :: rest))) k
  = field (json_image (VObj rest)) k.
Proof.
  intros H. unfold json_image; fold json_image. simpl.
  destruct x; simpl; try rewrite H; reflexivity.
Qed.

Lemma image_field_here k x rest :
  x <> VUndefined ->
  field (json_image (VObj ((k, x) :: rest))) k = json_image x.
Proof.
  intros H. unfold json_image; fold json_image. simpl.
  destruct x; simpl; try rewrite String.eqb_refl; try reflexivity.
  congruence.
Qed.

Lemma image_field_undefined k :
  field (json_image (VObj [(k, VUndefined)])) k = VUndefined.
Proof. reflexivity. Qed.

Lemma image_field_null k rest :
  nullish (field (json_image (VObj ((k, VNull) :: rest))) k) = true.
Proof.
  unfold json_image; fold json_image. simpl.
  now rewrite String.eqb_refl.
Qed.

Lemma null_not_sha : ~ is_sha VNull.
Proof. intros (x & H & _). discriminate. Qed.

Lemma ok_status_404 : ok_status 404 = false.
Proof. reflexivity. Qed.

Ltac use_answer :=
  repeat match goal with
  | H : server ?l = _ |- context [server ?l] => rewrite H
  | H : server (?a ++ [?x]) = _ |- context [server (?a ++ [?x; ?y])] =>
      fail
  | H : server ((?a ++ [?x]) ++ [?y]) = _
    |- context [server (?a ++ [?x; ?y])] =>
      change (a ++ [x; y]) with (a ++ ([x] ++ [y]));
      rewrite (app_assoc a [x] [y]); rewrite H
  end.

Ltac crunch_status :=
  repeat match goal with
  | |- context [((200 <=? ?st)%Z && (?st <=? 299)%Z)] =>
      change ((200 <=? st)%Z && (st <=? 299)%Z) with (ok_status st)
  | |- context [ok_status ?x] => destruct (ok_status x) eqn:?; simpl
  end.

Ltac token_carried Hs :=
  rewrite ?image_field_other by reflexivity;
  rewrite image_field_here
    by (let x := fresh in destruct Hs as (x & -> & _); discriminate);
  apply is_sha_image; exact Hs.

Ltac token_missing :=
  rewrite ?image_field_other by reflexivity;
  first [ apply image_field_null | reflexivity ].

Ltac write_requests :=
  crunch;
  do 2 eexists; (split; [reflexivity|]); simpl;
  (split; [split; [reflexivity|]|]);
  try reflexivity;
  try (eexists; split; [rewrite <- app_assoc; reflexivity|];
       split; [reflexivity|]; split; [reflexivity|];
       unfold version_token; cbn [req_body]; split;
       [let Hs := fresh "Hs" in
        intros ? <- Hs;
        first [ token_carried Hs
              | exfalso; exact (null_not_sha Hs)
              | exfalso; apply is_sha_truthy in Hs; congruence ]
       |let E := fresh "E" in
        intros ? ? E; inversion E; subst;
        first [ token_missing
              | rewrite ok_status_404 in *; discriminate ]]);
  use_answer; simpl; intros; eauto; try congruence; try contradiction.

Section Writes.

Context {env : Environment} {rt : Runtime}.

Lemma ds_saveFileContent_requests filePath content message s w :
  exists r w',
    DataSyncService.saveFileContent filePath content message s w
    = (r, s, w') /\
    guarded_write
      (match encode (JSON_stringify2 content) with
       | Some _ => true | None => false end)
      (requests w) (requests w')
      (DataSyncService.read_request s filePath)
      (DataSyncService.contents_url s filePath) /\
    (failed (server (requests w')) -> exists e, r = Throw e).
Proof.
  unfold DataSyncService.saveFileContent, guarded_write, encode, try_catch,
    bind, this, fetch, json, prop, ret, throw, btoa_utf8, js_btoa,
    console_write, set_world, ok.
  simpl.
  destruct (server (requests w ++ [DataSyncService.read_request s filePath]))
    as [msg|st txt [data|]] eqn:Hget; simpl.
  all: write_requests.
Qed.

Lemma rt_saveFile_requests filePath content message s w :
  exists r s' w',
    RealTimeService.saveFile filePath content message s w = (r, s', w') /\
    guarded_write
      (match encode (JSON_stringify2 content) with
       | Some _ => true | None => false end)
      (requests w) (requests w')
      (RealTimeService.read_request s filePath)
      (RealTimeService.contents_url s filePath) /\
    (failed (server (requests w')) -> exists e, r = Throw e).
Proof.
  unfold RealTimeService.saveFile, guarded_write, encode, try_catch,
    bind, this, set_this, fetch, json, prop, ret, throw, btoa_utf8, js_btoa,
    console_write, set_world, ok.
  simpl.
  destruct (server (requests w ++ [RealTimeService.read_request s filePath]))
    as [msg|st txt [data|]] eqn:Hget; simpl.
  all: crunch.
  all: eexists.
  all: write_requests.
Qed.

Lemma require_config_cases s w :
  (configured s /\ GitHubService.require_config s w = (Ok tt, s, w)) \/
  (~ configured s /\
   exists e, GitHubService.require_config s w = (Throw e, s, w)).
Proof.
  unfold configured, GitHubService.require_config, bind, this, prop, throw,
    ret.
  destruct (nullish (GitHubService.config s)) eqn:Hn.
  - right. split; [|eauto].
    intros (Ht & _). apply truthy_field_nullish in Ht. congruence.
  - destruct (truthy (field (GitHubService.config s) "token")); simpl;
      [|right; split; [intros (? & _); discriminate|eauto]].
    destruct (truthy (field (GitHubService.config s) "repoOwner")); simpl;
      [|right; split; [intros (_ & ? & _); discriminate|eauto]].
    destruct (truthy (field (GitHubService.config s) "repoName")); simpl;
      [|right; split; [intros (_ & _ & ?); discriminate|eauto]].
    left. auto.
Qed.

Lemma gh_uploadFile_requests filename content message s w :
  configured s ->
  exists r w',
    GitHubService.uploadFile filename content message s w = (r, s, w') /\
    guarded_write true (requests w) (requests w')
      (GitHubService.read_request s filename)
      (GitHubService.contents_url s filename) /\
    (failed (server (requests w')) -> exists e, r = Throw e).
Proof.
  intros Hcfg. unfold GitHubService.uploadFile.
  erewrite bind_Ok by (apply require_config_ok; exact Hcfg).
  unfold GitHubService.write_request, guarded_write, try_catch, bind, this,
    fetch, json, prop, ret, throw, ok.
  simpl.
  destruct (server (requests w ++ [GitHubService.read_request s filename]))
    as [msg|st txt [data|]] eqn:Hget; simpl.
  all: write_requests.
Qed.

End Writes.

(** C3. Every write of [DataSyncService.saveFileContent],
    [RealTimeService.saveFile] and [GitHubService.uploadFile] fetches the
    version token of its target just before writing and sends that token.
    As [guarded_write] says: the call first reads the target path; the PUT
    to the target, when the call gets as far as sending it, is the very
    next request, carries the SHA that the read returned, and carries no
    token when the read found no file (status 404).  The two services send
    the PUT whenever the content could be encoded; [uploadFile] sends it
    whenever its configuration guard let the call start, and sends nothing
    at all otherwise. *)
Theorem writes_send_the_token_just_read :
  forall (env : Environment) (rt : Runtime),
    (forall filePath content message (s : DataSyncService.t) (w : world),
       exists r w',
         DataSyncService.saveFileContent filePath content message s w
         = (r, s, w') /\
         guarded_write
           (match encode (JSON_stringify2 content) with
            | Some _ => true | None => false end)
           (requests w) (requests w')
           (DataSyncService.read_request s filePath)
           (DataSyncService.contents_url s filePath))
    /\
    (forall filePath content message (s : RealTimeService.t) (w : world),
       exists r s' w',
         RealTimeService.saveFile filePath content message s w
         = (r, s', w') /\
         guarded_write
           (match encode (JSON_stringify2 content) with
            | Some _ => true | None => false end)
           (requests w) (requests w')
           (RealTimeService.read_request s filePath)
           (RealTimeService.contents_url s filePath))
    /\
    (forall filename content message (s : GitHubService.t) (w : world),
       exists r w',
         GitHubService.uploadFile filename content message s w
         = (r, s, w') /\
         ((configured s /\
           guarded_write true (requests w) (requests w')
             (GitHubService.read_request s filename)
             (GitHubService.contents_url s filename))
          \/
          (~ configured s /\ requests w' = requests w /\
           exists e, r = Throw e))).
Proof.
  intros env rt. split; [|split].
  - intros filePath content message s w.
    destruct (ds_saveFileContent_requests filePath content message s w)
      as (r & w' & H & G & _).
    eauto.
  - intros filePath content message s w.
    destruct (rt_saveFile_requests filePath content message s w)
      as (r & s' & w' & H & G & _).
    eauto.
  - intros filename content message s w.
    destruct (require_config_cases s w) as [[Hcfg _]|[Hno [e He]]].
    + destruct (gh_uploadFile_requests filename content message s w Hcfg)
        as (r & w' & H & G & _).
      exists r, w'. split; [exact H|]. left. auto.
    + exists (Throw e), w. split.
      * unfold GitHubService.uploadFile. erewrite bind_Throw by exact He.
        reflexivity.
      * right. eauto.
Qed.

(** ** C6: which failures reach the caller *)

Section Failures.

Context {env : Environment} {rt : Runtime}.

Lemma rt_getFile_failed filePath s w :
  failed (answer w (RealTimeService.read_request s filePath)) ->
  exists w', RealTimeService.getFile filePath s w = (Ok VNull, s, w').
Proof.
  unfold answer, failed, RealTimeService.getFile, try_catch, bind, this,
    fetch, json, prop, ret, throw, js_atob, js_parse, console_write,
    set_world, ok.
  simpl.
  destruct (server (requests w ++ [RealTimeService.read_request s filePath]))
    as [msg|st txt j]; simpl; intros Hf.
  - eauto.
  - change ((200 <=? st)%Z && (st <=? 299)%Z) with (ok_status st).
    rewrite Hf. simpl. destruct (st =? 404)%Z; simpl; eauto.
Qed.

Lemma ds_getFileContent_failed filePath s w :
  failed (answer w (DataSyncService.read_request s filePath)) ->
  exists w', DataSyncService.getFileContent filePath s w = (Ok VNull, s, w').
Proof.
  unfold answer, failed, DataSyncService.getFileContent, try_catch, bind,
    this, fetch, json, prop, ret, throw, js_atob, js_parse, console_write,
    set_world, ok.
  simpl.
  destruct (server (requests w ++ [DataSyncService.read_request s filePath]))
    as [msg|st txt j]; simpl; intros Hf.
  - eauto.
  - change ((200 <=? st)%Z && (st <=? 299)%Z) with (ok_status st).
    rewrite Hf. simpl. destruct (st =? 404)%Z; simpl; eauto.
Qed.

Lemma rt_list_of_file filePath key label s w :
  exists v w',
    try_catch
      (data <- RealTimeService.getFile filePath ;;
       ret (js_or (field data key) (VArr [])))
      (fun error =>
         console_write ERROR label [LogErr error] ;;
         ret (VArr [])) s w = (Ok v, s, w') /\
    (failed (answer w (RealTimeService.read_request s filePath)) ->
     v = VArr []).
Proof.
  destruct (rt_getFile_total filePath s w) as (content & w' & Hget & _).
  exists (js_or (field content key) (VArr [])), w'. split.
  - apply try_Ok. erewrite bind_Ok by exact Hget. reflexivity.
  - intros Hf. destruct (rt_getFile_failed filePath s w Hf) as (w2 & H2).
    rewrite H2 in Hget. inversion Hget; subst. reflexivity.
Qed.

End Failures.


(** ** C4: saving a submission *)

Section Saving.

Context {env : Environment} {rt : Runtime}.

Lemma gh_readFile_state filename s w :
  exists r w',
    GitHubService.readFile filename s w = (r, s, w') /\
    clock_reads w' = clock_reads w /\
    (configured s ->
     requests w' = requests w ++ [GitHubService.read_request s filename]) /\
    (forall st txt j,
       configured s ->
       answer w (GitHubService.read_request s filename)
       = HttpResponse st txt j ->
       st = 404%Z -> r = Ok VNull).
Proof.
  destruct (require_config_cases s w) as [[Hcfg Hok]|[Hno [e He]]].
  - unfold GitHubService.readFile. erewrite bind_Ok by exact Hok.
    unfold answer, try_catch, bind, this, fetch, json, prop, ret, throw,
      js_atob, js_parse, ok.
    simpl.
    destruct (server (requests w ++ [GitHubService.read_request s filename]))
      as [msg|st txt [data|]]; simpl.
    all: crunch.
    all: do 2 eexists; (split; [reflexivity|]); (split; [reflexivity|]).
    all: (split; [reflexivity|]).
    all: intros ? ? ? _ E ?; inversion E; subst; try reflexivity.
    all: try discriminate.
    all: rewrite ok_status_404 in *; discriminate.
  - exists (Throw e), w. split; [|split; [reflexivity|split]].
    + unfold GitHubService.readFile. erewrite bind_Throw by exact He.
      reflexivity.
    + intros Hcfg. contradiction.
    + intros ? ? ? Hcfg. contradiction.
Qed.

Lemma gh_uploadFile_Ok filename content message s w v s' w' :
  GitHubService.uploadFile filename content message s w = (Ok v, s', w') ->
  configured s /\ s' = s /\
  requests w'
  = requests w
    ++ [GitHubService.read_request s filename;
        GitHubService.write_request s filename content message
          (token_of (answer w (GitHubService.read_request s filename)))].
Proof.
  unfold GitHubService.uploadFile. intros H.
  apply bind_inv_Ok in H as ([] & s1 & w1 & Hcfg & H).
  destruct (require_config_cases s w) as [[Hc Hok]|[_ [e He]]];
    [|congruence].
  split; [exact Hc|].
  rewrite Hok in Hcfg. inversion Hcfg; subst s1 w1. clear Hcfg.
  revert H.
  unfold answer, token_of, try_catch, bind, this, fetch, json, prop, ret,
    throw, ok.
  simpl.
  destruct (server (requests w ++ [GitHubService.read_request s filename]))
    as [msg|st txt [data|]]; simpl.
  all: crunch.
  all: intros H; inversion H; subst.
  all: split; [reflexivity|]; simpl; rewrite <- app_assoc; reflexivity.
Qed.

(** The list with which [saveSubmission] starts. *)
Lemma gh_existing_submissions s w rd w1 :
  GitHubService.readFile "submissions.json" s w = (rd, s, w1) ->
  exists w2,
    try_catch
      (existingData <- GitHubService.readFile "submissions.json" ;;
       if truthy existingData && truthy (field existingData "submissions")
       then ret (field existingData "submissions")
       else ret (VArr []))
      (fun _ =>
         console_write LOG "No existing submissions file, creating new one"
           [] ;;
         ret (VArr [])) s w
    = (Ok (submissions_read rd), s, w2) /\
    requests w2 = requests w1 /\ clock_reads w2 = clock_reads w1.
Proof.
  intros H. unfold try_catch, bind. rewrite H.
  destruct rd as [existing|e]; simpl.
  - destruct (truthy existing && truthy (field existing "submissions"));
      eexists; split; reflexivity || auto.
  - eexists; split; [reflexivity|auto].
Qed.

Lemma gh_saveSubmission_written submissionData s w result s' w' :
  GitHubService.saveSubmission submissionData s w = (Ok result, s', w') ->
  exists rd w1 old id createdAt lastUpdated encoded message put,
    GitHubService.readFile "submissions.json" s w = (rd, s, w1) /\
    submissions_read rd = VArr old /\
    (forall txt j,
       answer w (GitHubService.read_request s "submissions.json")
       = HttpResponse 404 txt j -> old = []) /\
    btoa (JSON_stringify2
            (VObj [("submissions",
                    VArr (old
                          ++ [VObj (assign "createdAt" (VStr createdAt)
                                      (spread submissionData
                                         [("id", VStr id)]))]));
                   ("lastUpdated", VStr lastUpdated);
                   ("totalSubmissions",
                    VNum (Z.of_nat (length old + 1)))]))
    = Some encoded /\
    put = GitHubService.write_request s "submissions.json" (VStr encoded)
            message
            (token_of (answer w1 (GitHubService.read_request s
                                    "submissions.json"))) /\
    requests w'
    = requests w
      ++ [GitHubService.read_request s "submissions.json";
          GitHubService.read_request s "submissions.json"; put].
Proof.
  intros H. unfold GitHubService.saveSubmission in H.
  apply try_rethrow_Ok in H;
    [|intros; do 3 eexists; reflexivity].
  destruct (gh_readFile_state "submissions.json" s w)
    as (rd & w1 & Hrd & Hclock & Hreq & H404).
  destruct (gh_existing_submissions s w rd w1 Hrd) as (w2 & Hex & Hr2 & Hc2).
  bind_step H subs Hsubs.
  rewrite Hex in Hsubs. inversion Hsubs; subst. clear Hsubs.
  bind_step H stamp Hid.
  unfold Date_now in Hid. inversion Hid; subst. clear Hid.
  bind_step H createdAt Hcr.
  unfold now_iso, bind, Date_now, ret in Hcr. simpl in Hcr.
  inversion Hcr; subst. clear Hcr.
  bind_step H subs' Hpush.
  destruct (submissions_read rd) as [| | | | |old|] eqn:Hold;
    try discriminate.
  unfold push, ret in Hpush. inversion Hpush; subst. clear Hpush.
  bind_step H lastUpdated Hlu.
  unfold now_iso, bind, Date_now, ret in Hlu. simpl in Hlu.
  inversion Hlu; subst. clear Hlu.
  bind_step H encoded Henc.
  unfold js_btoa in Henc.
  match type of Henc with
  | context [btoa ?t] => destruct (btoa t) as [b64|] eqn:Hb; [|discriminate]
  end.
  unfold ret in Henc. inversion Henc; subst. clear Henc.
  bind_step H agentInfo Hai.
  prop_step Hai.
  bind_step H fullName Hfn.
  prop_step Hfn.
  bind_step H res Hup.
  apply gh_uploadFile_Ok in Hup as (Hcfg & -> & Hrequests).
  match type of Hrequests with
  | requests ?wa = _ => assert (Hw' : requests w' = requests wa)
  end.
  { bind_step H file Hf.
    prop_step Hf.
    bind_step H url Hu.
    prop_step Hu.
    unfold ret in H. now inversion H. }
  exists rd, w1, old. do 6 eexists.
  split; [exact Hrd|]. split; [exact Hold|]. split.
  { intros txt j Ha.
    specialize (H404 404%Z txt j Hcfg Ha eq_refl). subst rd.
    simpl in Hold. now inversion Hold. }
  split.
  { rewrite length_app in Hb. simpl in Hb. exact Hb. }
  split; [reflexivity|].
  rewrite Hw', Hrequests. simpl. rewrite Hr2, (Hreq Hcfg).
  rewrite <- app_assoc. simpl.
  unfold answer. simpl. rewrite (Hreq Hcfg). reflexivity.
Qed.

Lemma lookup_assign_eq k v l : lookup k (assign k v l) = Some v.
Proof.
  induction l as [|[k' v'] l IH]; simpl.
  - now rewrite String.eqb_refl.
  - destruct (k' =? k)%string eqn:E; simpl; rewrite E; auto.
Qed.

Lemma lookup_assign_neq k k' v l :
  (k' =? k)%string = false -> lookup k (assign k' v l) = lookup k l.
Proof.
  intros Hne. induction l as [|[k0 v0] l IH]; simpl.
  - now rewrite Hne.
  - destruct (k0 =? k')%string eqn:E; simpl.
    + apply String.eqb_eq in E. subst k0. now rewrite Hne.
    + now rewrite IH.
Qed.

Lemma content_field m c b sha :
  field (json_image (VObj [("message", m); ("content", VStr c);
                           ("branch", b); ("sha", sha)])) "content"
  = VStr c.
Proof.
  rewrite image_field_other by reflexivity.
  now rewrite image_field_here by discriminate.
Qed.

Lemma esh_saveToDataFile_written submission tok s w s' w' :
  EnhancedSubmissionHandler.saveToDataFile submission tok s w
  = (Ok tt, s', w') ->
  exists get put lastUpdated encoded document,
    req_method get = GET /\
    req_url get = EnhancedSubmissionHandler.data_json_url /\
    requests w' = requests w ++ [get; put] /\
    req_method put = PUT /\
    req_url put = EnhancedSubmissionHandler.data_json_url /\
    content_sent put = VStr encoded /\
    encode (JSON_stringify2 document) = Some encoded /\
    field document "lastUpdated" = VStr lastUpdated /\
    (forall st txt j,
       answer w get = HttpResponse st txt j -> ok_status st = false ->
       version_token put = VNull /\
       document = VObj [("agents", VArr [submission]);
                        ("lastUpdated", VStr lastUpdated)]) /\
    (forall st txt j,
       answer w get = HttpResponse st txt j -> ok_status st = true ->
       exists data text parsed old,
         j = Some data /\
         atob (to_string (field data "content")) = Some text /\
         JSON_parse text = Some parsed /\
         field parsed "agents" = VArr old /\
         field document "agents" = VArr (old ++ [submission]) /\
         document
         = VObj (assign "lastUpdated" (VStr lastUpdated)
                   (assign "agents" (VArr (old ++ [submission]))
                      (own_properties parsed)))).
Proof.
  intros H. revert H.
  unfold EnhancedSubmissionHandler.saveToDataFile, answer, encode,
    try_catch, bind, this, fetch, json, prop, ret, throw, btoa_utf8, js_btoa,
    js_atob, js_parse, push, now_iso, Date_now, console_write, set_world, ok.
  simpl.
  match goal with
  | |- context [server (requests w ++ [?g])] =>
      set (get := g);
      destruct (server (requests w ++ [get])) as [msg|st txt [data|]]
        eqn:Hget
  end; simpl.
  all: crunch.
  all: try (intros H; discriminate H).
  all: try match goal with
       | |- context [match field ?v "agents" with _ => _ end] =>
           destruct (field v "agents") as [| | | | |old|] eqn:Hagents; simpl
       end.
  all: crunch.
  all: try (intros H; discriminate H).
  all: intros H; inversion H; subst; clear H.
  all: exists get; do 4 eexists.
  all: split; [reflexivity|]; split; [reflexivity|].
  all: split; [simpl; rewrite <- app_assoc; reflexivity|].
  all: split; [reflexivity|]; split; [reflexivity|].
  all: split; [unfold content_sent; cbn [req_body]; apply content_field|].
  all: split; [match goal with
               | H : utf8_bytes _ = Some ?b, H' : btoa ?b = Some _ |- _ =>
                   rewrite H; exact H'
               end|].
  all: split; [first [ reflexivity
                     | unfold field; rewrite lookup_assign_eq; reflexivity ]
              |].
  all: split; intros st' txt' j' E Hok'; rewrite Hget in E;
       inversion E; subst; try congruence.
  all: first
         [ do 4 eexists;
           split; [reflexivity|]; split; [eassumption|];
           split; [eassumption|]; split; [eassumption|];
           split; [|reflexivity];
           unfold field; rewrite lookup_assign_neq by reflexivity;
           now rewrite lookup_assign_eq
         | split; [|reflexivity];
           unfold version_token; cbn [req_body];
           rewrite !image_field_other by reflexivity;
           reflexivity ].
Qed.

End Saving.

(** What a successful save writes.

    For every successful call of [GitHubService.saveSubmission]: the call
    read [submissions.json] (result [rd]), took from it the list [old]
    ([submissions_read]: the list read, and the empty list both when no
    remote file existed and when the read failed), read the file
    a second time for its version token, and sent one PUT whose content is
    the base64 of the JSON text of
    [{submissions: old ++ [record], lastUpdated, totalSubmissions}], where
    [record] is the new submission with its [id] and [createdAt], the old
    records are unchanged and in their order, and [totalSubmissions] is the
    length of the new list.

    For every successful call of [EnhancedSubmissionHandler.saveToDataFile]:
    the call read [data.json] once and sent one PUT whose content is the
    encoded JSON text of [document].  When the read found the file (an ok
    response), [document] is the object parsed from it with [submission]
    pushed at the end of its [agents] and [lastUpdated] set; when no remote
    file existed, [document] holds exactly [submission] in [agents], and the
    PUT carries no version token. *)
Theorem saving_rewrites_the_file_from_its_read :
  forall (env : Environment) (rt : Runtime),
    (forall submissionData (s : GitHubService.t) (w : world) result s' w',
       GitHubService.saveSubmission submissionData s w = (Ok result, s', w') ->
       exists rd w1 old id createdAt lastUpdated encoded message put,
         GitHubService.readFile "submissions.json" s w = (rd, s, w1) /\
         submissions_read rd = VArr old /\
         (forall txt j,
            answer w (GitHubService.read_request s "submissions.json")
            = HttpResponse 404 txt j -> old = []) /\
         (forall e, rd = Throw e -> old = []) /\
         btoa (JSON_stringify2
                 (VObj [("submissions",
                         VArr (old
                               ++ [VObj (assign "createdAt" (VStr createdAt)
                                           (spread submissionData
                                              [("id", VStr id)]))]));
                        ("lastUpdated", VStr lastUpdated);
                        ("totalSubmissions",
                         VNum (Z.of_nat (length old + 1)))]))
         = Some encoded /\
         put = GitHubService.write_request s "submissions.json"
                 (VStr encoded) message
                 (token_of (answer w1 (GitHubService.read_request s
                                         "submissions.json"))) /\
         requests w'
         = requests w
           ++ [GitHubService.read_request s "submissions.json";
               GitHubService.read_request s "submissions.json"; put])
    /\
    (forall submission tok (s : EnhancedSubmissionHandler.t) (w : world)
            s' w',
       EnhancedSubmissionHandler.saveToDataFile submission tok s w
       = (Ok tt, s', w') ->
       exists get put lastUpdated encoded document,
         req_method get = GET /\
         req_url get = EnhancedSubmissionHandler.data_json_url /\
         requests w' = requests w ++ [get; put] /\
         req_method put = PUT /\
         req_url put = EnhancedSubmissionHandler.data_json_url /\
         content_sent put = VStr encoded /\
         encode (JSON_stringify2 document) = Some encoded /\
         field document "lastUpdated" = VStr lastUpdated /\
         (forall st txt j,
            answer w get = HttpResponse st txt j -> ok_status st = false ->
            version_token put = VNull /\
            document = VObj [("agents", VArr [submission]);
                             ("lastUpdated", VStr lastUpdated)]) /\
         (forall st txt j,
            answer w get = HttpResponse st txt j -> ok_status st = true ->
            exists data text parsed old,
              j = Some data /\
              atob (to_string (field data "content")) = Some text /\
              JSON_parse text = Some parsed /\
              field parsed "agents" = VArr old /\
              field document "agents" = VArr (old ++ [submission]) /\
              document
              = VObj (assign "lastUpdated" (VStr lastUpdated)
                        (assign "agents" (VArr (old ++ [submission]))
                           (own_properties parsed))))).
Proof.
  intros env rt. split.
  - intros submissionData s w result s' w' H.
    destruct (gh_saveSubmission_written submissionData s w result s' w' H)
      as (rd & w1 & old & id & createdAt & lastUpdated & encoded & message
          & put & Hread & Hold & Hmissing & Hrest).
    exists rd, w1, old, id, createdAt, lastUpdated, encoded, message, put.
    split; [exact Hread|]. split; [exact Hold|].
    split; [exact Hmissing|]. split; [|exact Hrest].
    intros e ->. cbn [submissions_read] in Hold. now inversion Hold.
  - intros submission tok s w s' w' H.
    exact (esh_saveToDataFile_written submission tok s w s' w' H).
Qed.

(** ** C10: the login of a field agent *)

Section Authentication.

Context {env : Environment} {rt : Runtime}.

Lemma matching_accepts scCode fullName password a s w :
  named a ->
  FieldAgentLoginHandler.matching scCode fullName (VStr password) a s w
  = (Ok (accepts scCode fullName password a), s, w).
Proof.
  intros (code & name & Hc & Hn).
  unfold FieldAgentLoginHandler.matching, accepts, bind, prop.
  assert (Hnull : nullish a = false)
    by (destruct a; try reflexivity; discriminate).
  rewrite Hnull, Hc, Hn. unfold ret, FieldAgentLoginHandler.lower, ret.
  destruct (toLowerCase code =? toLowerCase scCode)%string; simpl;
    [|reflexivity].
  destruct (toLowerCase name =? toLowerCase fullName)%string; reflexivity.
Qed.

Lemma find_first_accepted scCode fullName password agents s w :
  Forall named agents ->
  find (FieldAgentLoginHandler.matching scCode fullName (VStr password))
    agents s w
  = (Ok (first_accepted scCode fullName password agents), s, w).
Proof.
  unfold first_accepted.
  induction 1 as [|a agents Ha _ IH]; simpl; [reflexivity|].
  erewrite bind_Ok by (apply matching_accepts; exact Ha).
  destruct (accepts scCode fullName password a); [reflexivity|exact IH].
Qed.

Lemma loadConfig_total c w :
  exists config c' w',
    ConfigManager.loadConfig c w = (Ok config, c', w').
Proof.
  unfold ConfigManager.loadConfig, try_catch, bind, this, fetch, json, prop,
    ret, throw, js_atob, js_parse, localStorage_setItem,
    localStorage_getItem, the_world, set_world, console_write.
  simpl. crunch; eauto.
  all: destruct (storage_get _ _) as [text|]; simpl; eauto.
  all: crunch; eauto.
Qed.

Lemma first_accepted_spec scCode fullName password agents :
  Forall named agents ->
  let r := first_accepted scCode fullName password agents in
  (In r agents /\ accepts scCode fullName password r = true) \/
  (r = VUndefined /\
   forall a, In a agents -> accepts scCode fullName password a = false).
Proof.
  intros _. unfold first_accepted.
  destruct (List.find (accepts scCode fullName password) agents) as [a|]
    eqn:E.
  - left. apply find_some in E. exact E.
  - right. split; [reflexivity|].
    intros a Ha. exact (find_none _ _ E a Ha).
Qed.

End Authentication.

(** C10, for agent records that carry their names.  Let the configuration
    that [loadConfig] returns be [config].
    - When it has no token, [authenticate] throws.
    - When it has one, let [agentsData] be what [getFileContent] returns
      for [agents.json] with that token.  When [agentsData] is null (the
      file is missing or unreadable) or has no [agents], [authenticate]
      throws [No agents found in system].  When its [agents] is a list
      whose records all carry [scCode] and [fullName] as strings,
      [authenticate] resolves to the first record of the list that
      [accepts] describes, and to [undefined] when there is none: so it
      resolves to an agent record if and only if the list contains an
      accepted one. *)
Theorem authenticate_finds_first_accepted :
  forall (env : Environment) (rt : Runtime)
         (scCode fullName password : string)
         (s : FieldAgentLoginHandler.t) (w : world) config c' w1,
    ConfigManager.loadConfig ConfigManager.constructor w
    = (Ok config, c', w1) ->
    (truthy (field config "token") = false ->
     exists e s' w',
       FieldAgentLoginHandler.authenticate scCode fullName (VStr password)
         s w = (Throw e, s', w'))
    /\
    (truthy (field config "token") = true ->
     forall agentsData d' w2,
       DataSyncService.getFileContent "agents.json"
         (DataSyncService.set_token (field config "token")
            (FieldAgentLoginHandler.dataSync s)) w1
       = (Ok agentsData, d', w2) ->
       (truthy agentsData = false
        \/ truthy (field agentsData "agents") = false ->
        exists s' w',
          FieldAgentLoginHandler.authenticate scCode fullName (VStr password)
            s w = (Throw (Error "No agents found in system"), s', w'))
       /\
       (forall agents,
          field agentsData "agents" = VArr agents ->
          Forall named agents ->
          let r := first_accepted scCode fullName password agents in
          (exists s' w',
             FieldAgentLoginHandler.authenticate scCode fullName
               (VStr password) s w = (Ok r, s', w'))
          /\
          ((In r agents /\ accepts scCode fullName password r = true) \/
           (r = VUndefined /\
            forall a, In a agents ->
                      accepts scCode fullName password a = false)))).
Proof.
  intros env rt scCode fullName password s w config c' w1 Hcfg.
  remember (FieldAgentLoginHandler.authenticate scCode fullName
              (VStr password) s w) as call eqn:Hcall.
  unfold FieldAgentLoginHandler.authenticate, try_catch in Hcall.
  unfold bind at 1 in Hcall. unfold on_new in Hcall. rewrite Hcfg in Hcall.
  unfold bind at 1, prop at 1 in Hcall.
  split.
  - intros Hno.
    destruct (nullish config); simpl in Hcall.
    + subst call. unfold throw, console_write, set_world, bind. simpl. eauto.
    + unfold ret in Hcall. rewrite Hno in Hcall. simpl in Hcall.
      subst call. unfold throw, console_write, set_world, bind. simpl. eauto.
  - intros Htok agentsData d' w2 Hget.
    assert (Hnull : nullish config = false)
      by (eapply truthy_field_nullish; exact Htok).
    rewrite Hnull in Hcall. unfold ret at 1 in Hcall.
    rewrite Htok in Hcall. change (negb true) with false in Hcall.
    cbv beta iota in Hcall.
    unfold bind at 1, within at 1, DataSyncService.init in Hcall.
    rewrite Htok in Hcall.
    unfold bind at 1, set_this at 1, ret at 1 in Hcall.
    cbn [FieldAgentLoginHandler.dataSync
           FieldAgentLoginHandler.set_dataSync] in Hcall.
    unfold bind at 1, within at 1 in Hcall.
    cbn [FieldAgentLoginHandler.dataSync
           FieldAgentLoginHandler.set_dataSync] in Hcall.
    rewrite Hget in Hcall.
    split.
    + intros Hnone.
      assert (Hc : negb (truthy agentsData)
                   || negb (truthy (field agentsData "agents")) = true)
        by (destruct Hnone as [-> | ->]; simpl;
            [reflexivity|apply orb_true_r]).
      rewrite Hc in Hcall. subst call.
      unfold throw, bind, console_write, set_world. simpl. eauto.
    + intros agents Hagents Hnamed r. split.
      * assert (Ht : truthy agentsData = true)
          by (destruct agentsData; simpl in *; try discriminate;
              reflexivity).
        rewrite Ht, Hagents in Hcall. simpl in Hcall.
        rewrite find_first_accepted in Hcall by exact Hnamed.
        subst call. eauto.
      * apply first_accepted_spec. exact Hnamed.
Qed.

(** ** C7: a submission is several independent writes *)

Lemma nr_bind {S A B} (m : M S A) (k : A -> M S B) :
  no_rollback m -> (forall a, no_rollback (k a)) -> no_rollback (bind m k).
Proof.
  intros Hm Hk s w r s' w' H. unfold bind in H.
  destruct (m s w) as [[[a|e] s1] w1] eqn:E.
  - destruct (Hm _ _ _ _ _ E) as (sent1 & R1 & F1).
    destruct (Hk a _ _ _ _ _ H) as (sent2 & R2 & F2).
    exists (sent1 ++ sent2). split.
    + now rewrite R2, R1, app_assoc.
    + apply Forall_app. auto.
  - inversion H; subst. exact (Hm _ _ _ _ _ E).
Qed.

Lemma nr_try {S A} (m : M S A) (h : exn -> M S A) :
  no_rollback m -> (forall e, no_rollback (h e)) ->
  no_rollback (try_catch m h).
Proof.
  intros Hm Hh s w r s' w' H. unfold try_catch in H.
  destruct (m s w) as [[[a|e] s1] w1] eqn:E.
  - inversion H; subst. exact (Hm _ _ _ _ _ E).
  - destruct (Hm _ _ _ _ _ E) as (sent1 & R1 & F1).
    destruct (Hh e _ _ _ _ _ H) as (sent2 & R2 & F2).
    exists (sent1 ++ sent2). split.
    + now rewrite R2, R1, app_assoc.
    + apply Forall_app. auto.
Qed.

Lemma nr_offline {S A} (m : M S A) :
  (forall s w, requests (snd (m s w)) = requests w) -> no_rollback m.
Proof.
  intros Hm s w r s' w' H. exists []. rewrite app_nil_r.
  specialize (Hm s w). rewrite H in Hm. auto.
Qed.

Lemma nr_fetch {env : Environment} {S} (q : request) :
  req_method q <> DELETE -> no_rollback (fetch (S := S) q).
Proof.
  intros Hq s w r s' w' H. unfold fetch in H. exists [q].
  destruct (server _); inversion H; subst; simpl; auto.
Qed.

Lemma nr_within {S T A} (get : S -> T) (set : T -> S -> S) (m : M T A) :
  no_rollback m -> no_rollback (within get set m).
Proof.
  intros Hm s w r s' w' H. unfold within in H.
  destruct (m (get s) w) as [[r1 t1] w1] eqn:E. inversion H; subst.
  exact (Hm _ _ _ _ _ E).
Qed.

Lemma nr_on_new {S T A} (fresh : T) (m : M T A) :
  no_rollback m -> no_rollback (on_new (S := S) fresh m).
Proof.
  intros Hm s w r s' w' H. unfold on_new in H.
  destruct (m fresh w) as [[r1 t1] w1] eqn:E. inversion H; subst.
  exact (Hm _ _ _ _ _ E).
Qed.

Lemma nr_forEach {S A} (xs : list A) (body : A -> M S unit) :
  (forall x, no_rollback (body x)) -> no_rollback (forEach xs body).
Proof.
  intros Hb. induction xs as [|x xs IH]; simpl.
  - apply nr_offline. reflexivity.
  - apply nr_bind; auto.
Qed.

Lemma nr_for_of {S A B} (xs : list A) (body : A -> B -> M S B) :
  (forall x acc, no_rollback (body x acc)) ->
  forall acc, no_rollback (for_of xs acc body).
Proof.
  intros Hb. induction xs as [|x xs IH]; intros acc; simpl.
  - apply nr_offline. reflexivity.
  - apply nr_bind; auto.
Qed.

Lemma nr_btoa_utf8 {rt : Runtime} {S} (text : string) :
  no_rollback (btoa_utf8 (S := S) text).
Proof.
  apply nr_offline. intros s w. unfold btoa_utf8, js_btoa.
  destruct (utf8_bytes text) as [bytes|]; [|reflexivity].
  destruct (btoa bytes); reflexivity.
Qed.

Lemma nr_js_atob {rt : Runtime} {S} (v : value) :
  no_rollback (js_atob (S := S) v).
Proof.
  apply nr_offline. intros s w. unfold js_atob.
  destruct (atob (to_string v)); reflexivity.
Qed.

Lemma nr_js_parse {rt : Runtime} {S} (text : string) :
  no_rollback (js_parse (S := S) text).
Proof.
  apply nr_offline. intros s w. unfold js_parse.
  destruct (JSON_parse text); reflexivity.
Qed.

(** Steps that do not reach the network. *)
Ltac nr_offline :=
  apply nr_offline; intros;
  unfold now_iso, localStorage_getItem, localStorage_setItem, console_write,
    EnhancedSubmissionHandler.fileToBase64,
    EnhancedSubmissionHandler.random_suffix, file_entries,
    bind, Date_now, prop, json, push, this, set_this, the_world, set_world,
    ret, throw;
  repeat match goal with
  | |- context [match ?x with _ => _ end] => destruct x
  end;
  reflexivity.

Ltac nr_step :=
  first
    [ apply nr_bind; [|intros]
    | apply nr_try; [|intros]
    | apply nr_fetch; discriminate
    | apply nr_btoa_utf8
    | apply nr_js_atob
    | apply nr_js_parse
    | apply nr_forEach; intros
    | apply nr_for_of; intros
    | apply nr_within
    | apply nr_on_new
    | match goal with
      | |- no_rollback (if ?b then _ else _) => destruct b
      | |- no_rollback (match ?x with _ => _ end) => destruct x
      end
    | nr_offline ].

Section NoRollback.

Context {env : Environment} {rt : Runtime}.

Lemma nr_loadConfig : no_rollback ConfigManager.loadConfig.
Proof. unfold ConfigManager.loadConfig. repeat nr_step. Qed.

Lemma nr_init tok : no_rollback (DataSyncService.init tok).
Proof.
  unfold DataSyncService.init. destruct (truthy tok).
  - repeat nr_step.
  - apply nr_bind; [apply nr_on_new, nr_loadConfig|intros].
    repeat nr_step.
Qed.

Lemma nr_validateFormData formData :
  no_rollback (EnhancedSubmissionHandler.validateFormData formData).
Proof. unfold EnhancedSubmissionHandler.validateFormData. repeat nr_step. Qed.

Lemma nr_uploadImages submissionId imageFiles tok :
  no_rollback
    (EnhancedSubmissionHandler.uploadImages submissionId imageFiles tok).
Proof. unfold EnhancedSubmissionHandler.uploadImages. repeat nr_step. Qed.

Lemma nr_saveToDataFile submission tok :
  no_rollback (EnhancedSubmissionHandler.saveToDataFile submission tok).
Proof. unfold EnhancedSubmissionHandler.saveToDataFile. repeat nr_step. Qed.

Lemma nr_handleSubmission formData imageFiles :
  no_rollback (EnhancedSubmissionHandler.handleSubmission formData imageFiles).
Proof.
  unfold EnhancedSubmissionHandler.handleSubmission.
  apply nr_try; [|intros; repeat nr_step].
  apply nr_bind; [apply nr_on_new, nr_loadConfig|intros config].
  apply nr_bind; [nr_offline|intros tok].
  destruct (negb (truthy tok)); [nr_offline|].
  apply nr_bind; [apply nr_within, nr_init|intros _].
  apply nr_bind; [apply nr_validateFormData|intros _].
  apply nr_bind; [nr_offline|intros stamp].
  apply nr_bind; [nr_offline|intros suffix].
  apply nr_bind; [nr_offline|intros submissionDate].
  apply nr_bind; [nr_offline|intros _].
  apply nr_bind; [apply nr_uploadImages|intros imageUrls].
  apply nr_bind; [nr_offline|intros _].
  apply nr_bind; [apply nr_saveToDataFile|intros _].
  nr_offline.
Qed.

End NoRollback.

Lemma sends_offline {S A} (m : M S A) :
  (forall s w, requests (snd (m s w)) = requests w) -> sends (eq []) m.
Proof.
  intros Hm s w r s' w' H. exists []. rewrite app_nil_r.
  specialize (Hm s w). rewrite H in Hm. auto.
Qed.

Lemma sends_weaken {S A} (P Q : list request -> Prop) (m : M S A) :
  (forall l, P l -> Q l) -> sends P m -> sends Q m.
Proof.
  intros HPQ Hm s w r s' w' H.
  destruct (Hm _ _ _ _ _ H) as (sent & R & HP). eauto.
Qed.

(** Sequencing: the requests of [m], then those of what follows. *)
Lemma sends_bind {S A B} (P Q : list request -> Prop)
  (m : M S A) (k : A -> M S B) :
  sends P m -> (forall a, sends Q (k a)) -> Q [] ->
  sends (fun l => exists a b, l = a ++ b /\ P a /\ Q b) (bind m k).
Proof.
  intros Hm Hk Hnil s w r s' w' H. unfold bind in H.
  destruct (m s w) as [[[a|e] s1] w1] eqn:E.
  - destruct (Hm _ _ _ _ _ E) as (sent1 & R1 & P1).
    destruct (Hk a _ _ _ _ _ H) as (sent2 & R2 & Q2).
    exists (sent1 ++ sent2). split; [now rewrite R2, R1, app_assoc|].
    eauto.
  - inversion H; subst.
    destruct (Hm _ _ _ _ _ E) as (sent1 & R1 & P1).
    exists sent1. split; [exact R1|].
    exists sent1, []. rewrite app_nil_r. auto.
Qed.

(** A step that sends nothing, before or after others. *)
Lemma sends_after {S A B} (P : list request -> Prop)
  (m : M S A) (k : A -> M S B) :
  sends (eq []) m -> (forall a, sends P (k a)) -> P [] ->
  sends P (bind m k).
Proof.
  intros Hm Hk Hnil.
  eapply sends_weaken; [|apply (sends_bind (eq []) P); eassumption].
  intros l (a & b & -> & <- & Hb). exact Hb.
Qed.

Lemma sends_try_rethrow {S A} (P : list request -> Prop)
  (m : M S A) (h : exn -> M S A) :
  sends P m -> (forall e, sends (eq []) (h e)) -> sends P (try_catch m h).
Proof.
  intros Hm Hh s w r s' w' H. unfold try_catch in H.
  destruct (m s w) as [[[a|e] s1] w1] eqn:E.
  - inversion H; subst. exact (Hm _ _ _ _ _ E).
  - destruct (Hm _ _ _ _ _ E) as (sent1 & R1 & P1).
    destruct (Hh e _ _ _ _ _ H) as (sent2 & R2 & <-).
    exists sent1. rewrite R2, R1, app_nil_r. auto.
Qed.

Lemma sends_within {S T A} P (get : S -> T) (set : T -> S -> S) (m : M T A) :
  sends P m -> sends P (within get set m).
Proof.
  intros Hm s w r s' w' H. unfold within in H.
  destruct (m (get s) w) as [[r1 t1] w1] eqn:E. inversion H; subst.
  exact (Hm _ _ _ _ _ E).
Qed.

Lemma sends_on_new {S T A} P (fresh : T) (m : M T A) :
  sends P m -> sends P (on_new (S := S) fresh m).
Proof.
  intros Hm s w r s' w' H. unfold on_new in H.
  destruct (m fresh w) as [[r1 t1] w1] eqn:E. inversion H; subst.
  exact (Hm _ _ _ _ _ E).
Qed.

(** A loop whose every turn sends requests of one kind. *)
Lemma sends_for_of {S A B} (P : request -> Prop) (xs : list A)
  (body : A -> B -> M S B) :
  (forall x acc, sends (Forall P) (body x acc)) ->
  forall acc, sends (Forall P) (for_of xs acc body).
Proof.
  intros Hb. induction xs as [|x xs IH]; intros acc; simpl.
  - eapply sends_weaken; [|apply sends_offline; reflexivity].
    intros l <-. constructor.
  - eapply sends_weaken;
      [|apply (sends_bind (Forall P) (Forall P)); [apply Hb|apply IH|]].
    + intros l (a & b & -> & Ha & Hb'). apply Forall_app. auto.
    + constructor.
Qed.

Lemma sends_forEach_offline {S A} (xs : list A) (body : A -> M S unit) :
  (forall x, sends (eq []) (body x)) -> sends (eq []) (forEach xs body).
Proof.
  intros Hb. induction xs as [|x xs IH]; simpl.
  - apply sends_offline. reflexivity.
  - apply sends_after; auto.
Qed.

Ltac offline :=
  apply sends_offline; intros;
  unfold now_iso, localStorage_getItem, localStorage_setItem, console_write,
    EnhancedSubmissionHandler.fileToBase64,
    EnhancedSubmissionHandler.random_suffix, file_entries,
    bind, Date_now, prop, json, push, this, set_this, the_world, set_world,
    ret, throw;
  repeat match goal with
  | |- context [match ?x with _ => _ end] => destruct x
  end;
  reflexivity.

Section Shape.

Context {env : Environment} {rt : Runtime}.

Lemma sends_loadConfig :
  sends (fun l => exists config, l = [config] /\ req_method config = GET)
    ConfigManager.loadConfig.
Proof.
  intros s w r s' w'.
  unfold ConfigManager.loadConfig, try_catch, bind, this, fetch, json, prop,
    ret, throw, js_atob, js_parse, localStorage_setItem,
    localStorage_getItem, the_world, set_world, console_write.
  simpl. crunch.
  all: try (destruct (storage_get _ _) as [text|]; simpl; crunch).
  all: intros H; inversion H; subst; simpl.
  all: eexists; split; [reflexivity|]; eexists; split; reflexivity.
Qed.

Lemma sends_init tok :
  truthy tok = true -> sends (eq []) (DataSyncService.init tok).
Proof.
  intros Ht. unfold DataSyncService.init. rewrite Ht.
  apply sends_offline. reflexivity.
Qed.

Lemma sends_validateFormData formData :
  sends (eq []) (EnhancedSubmissionHandler.validateFormData formData).
Proof.
  unfold EnhancedSubmissionHandler.validateFormData.
  apply sends_after; [|intros; apply sends_after; [offline|intros|]|];
    try reflexivity.
  - apply sends_forEach_offline. intros name.
    apply sends_after; [offline|intros v|reflexivity].
    destruct (negb (truthy v)); offline.
  - destruct (negb _); offline.
Qed.

Lemma sends_uploadImages submissionId imageFiles tok :
  sends (Forall image_write)
    (EnhancedSubmissionHandler.uploadImages submissionId imageFiles tok).
Proof.
  unfold EnhancedSubmissionHandler.uploadImages.
  apply sends_after; [offline|intros timestamp|constructor].
  apply sends_after; [offline|intros entries|constructor].
  eapply sends_weaken;
    [|apply (sends_bind (Forall image_write) (eq []))].
  - intros l (a & b & -> & Ha & <-). now rewrite app_nil_r.
  - apply sends_for_of. intros [key [file|]] acc; simpl.
    + intros s w r s' w'.
      unfold try_catch, bind, EnhancedSubmissionHandler.fileToBase64, fetch,
        json, ret, throw, console_write, set_world.
      destruct (dataURL file) as [url|]; simpl.
      * crunch.
        all: intros H; inversion H; subst; simpl.
        all: eexists; split; [reflexivity|].
        all: constructor; [split; [reflexivity|]|constructor].
        all: unfold EnhancedSubmissionHandler.contents_api; simpl.
        all: now destruct (submissionId ++ _)%string.
      * intros H; inversion H; subst; simpl.
        exists []. rewrite app_nil_r. split; [reflexivity|constructor].
    + eapply sends_weaken; [|apply sends_offline; reflexivity].
      intros l <-. constructor.
  - intros a. offline.
  - reflexivity.
Qed.

Lemma sends_saveToDataFile submission tok :
  sends metadata_requests
    (EnhancedSubmissionHandler.saveToDataFile submission tok).
Proof.
  intros s w r s' w'.
  unfold EnhancedSubmissionHandler.saveToDataFile, try_catch, bind, this,
    fetch, json, prop, ret, throw, btoa_utf8, js_btoa, js_atob, js_parse,
    push, now_iso, Date_now, console_write, set_world, ok.
  simpl. crunch.
  all: try match goal with
       | |- context [match field ?v "agents" with _ => _ end] =>
           destruct (field v "agents") as [| | | | |old|] eqn:Hagents; simpl
       end.
  all: crunch.
  all: intros H; inversion H; subst; simpl.
  all: try rewrite <- app_assoc; simpl.
  all: eexists; split; [reflexivity|].
  all: right; do 2 eexists; do 3 (split; [reflexivity|]).
  all: first [ left; reflexivity
             | right; eexists; split; [reflexivity|]; split; reflexivity ].
Qed.

Lemma sends_handleSubmission formData imageFiles :
  sends submission_requests
    (EnhancedSubmissionHandler.handleSubmission formData imageFiles).
Proof.
  unfold EnhancedSubmissionHandler.handleSubmission.
  apply sends_try_rethrow; [|intros e; offline].
  set (after := fun l : list request =>
         exists images metadata,
           l = images ++ metadata /\
           Forall image_write images /\ metadata_requests metadata).
  assert (Hnil : after []).
  { exists [], []. repeat split; [constructor|now left]. }
  eapply sends_weaken;
    [|apply (sends_bind
               (fun l => exists config, l = [config] /\ req_method config = GET)
               after);
      [apply sends_on_new, sends_loadConfig| |exact Hnil]].
  { intros l (a & b & -> & (config & -> & Hget) & images & metadata
              & -> & Himg & Hmeta).
    exists config, images, metadata. auto. }
  intros config.
  apply sends_after; [offline|intros tok|exact Hnil].
  destruct (truthy tok) eqn:Htok; simpl.
  2: { eapply sends_weaken; [|apply sends_offline; reflexivity].
       now intros l <-. }
  apply sends_after;
    [apply sends_within, sends_init, Htok|intros _|exact Hnil].
  apply sends_after; [apply sends_validateFormData|intros _|exact Hnil].
  apply sends_after; [offline|intros stamp|exact Hnil].
  apply sends_after; [offline|intros suffix|exact Hnil].
  apply sends_after; [offline|intros submissionDate|exact Hnil].
  apply sends_after; [offline|intros _|exact Hnil].
  eapply sends_weaken;
    [|apply (sends_bind (Forall image_write) metadata_requests);
      [apply sends_uploadImages| |now left]].
  { intros l (a & b & -> & Ha & Hb). exists a, b. auto. }
  intros imageUrls.
  apply sends_after; [offline|intros _|now left].
  eapply sends_weaken;
    [|apply (sends_bind metadata_requests (eq []));
      [apply sends_saveToDataFile|intros; offline|reflexivity]].
  intros l (a & b & -> & Ha & <-). now rewrite app_nil_r.
Qed.

End Shape.

(** C7. A form submission is not transactional.
    - Whatever happens, the requests of [handleSubmission] are the read
      of the configuration, then one PUT per image written, then the
      read of [data.json] and at most one PUT to it; and it never sends
      a DELETE: nothing that it wrote is taken back.
    - There is an execution in which the two images are written (status
      201), each by a request of its own, before [data.json] is read and
      its write is refused (status 409): [handleSubmission] throws, the
      images stay committed, and no record of the submission was
      written.
    - There is an execution in which the upload of the first image fails
      (status 500) and [handleSubmission] still succeeds: the record
      written to [data.json] has the empty string as [idFrontUrl]. *)
Theorem submission_is_not_transactional :
  (forall (env : Environment) (rt : Runtime) formData imageFiles,
     sends submission_requests
       (EnhancedSubmissionHandler.handleSubmission formData imageFiles) /\
     no_rollback
       (EnhancedSubmissionHandler.handleSubmission formData imageFiles))
  /\
  (exists (env : Environment) formData imageFiles e s' w',
     EnhancedSubmissionHandler.handleSubmission (rt := browser)
       formData imageFiles EnhancedSubmissionHandler.constructor
       initial_world = (Throw e, s', w') /\
     map line (requests w')
     = [(GET, Examples.repo ++ "/contents/gitconfig.json");
        (PUT, Examples.repo ++ "/contents/images/"
              ++ "AGENT-1700000000000-k3x_idFront_1700000000002.jpg");
        (PUT, Examples.repo ++ "/contents/images/"
              ++ "AGENT-1700000000000-k3x_idBack_1700000000002.jpg");
        (GET, Examples.repo ++ "/contents/data.json");
        (PUT, Examples.repo ++ "/contents/data.json")]%string /\
     map status_of (replies [] (requests w')) = [200; 201; 201; 200; 409]%Z)
  /\
  (exists (env : Environment) formData imageFiles result s' w'
          put document record,
     EnhancedSubmissionHandler.handleSubmission (rt := browser)
       formData imageFiles EnhancedSubmissionHandler.constructor
       initial_world = (Ok result, s', w') /\
     map line (requests w')
     = [(GET, Examples.repo ++ "/contents/gitconfig.json");
        (PUT, Examples.repo ++ "/contents/images/"
              ++ "AGENT-1700000000000-k3x_idFront_1700000000002.jpg");
        (PUT, Examples.repo ++ "/contents/images/"
              ++ "AGENT-1700000000000-k3x_idBack_1700000000002.jpg");
        (GET, Examples.repo ++ "/contents/data.json");
        (PUT, Examples.repo ++ "/contents/data.json")]%string /\
     map status_of (replies [] (requests w')) = [200; 500; 201; 404; 201]%Z /\
     last_request (requests w') = Some put /\
     document_sent (rt := browser) put = Some document /\
     field document "agents" = VArr [record] /\
     field record "idFrontUrl" = VStr "" /\
     field record "idBackUrl"
     = VStr (EnhancedSubmissionHandler.raw_base ++ "images/"
             ++ "AGENT-1700000000000-k3x_idBack_1700000000002.jpg")%string).
Proof.
  split.
  { intros. split; [apply sends_handleSubmission|apply nr_handleSubmission]. }
  split.
  - exists Examples.metadata_rejected, Examples.form, Examples.photos.
    do 3 eexists.
    split; [vm_compute; reflexivity|].
    split; vm_compute; reflexivity.
  - exists Examples.image_rejected, Examples.form, Examples.photos.
    do 6 eexists.
    split; [vm_compute; reflexivity|].
    split; [vm_compute; reflexivity|].
    split; [vm_compute; reflexivity|].
    split; [vm_compute; reflexivity|].
    split; [vm_compute; reflexivity|].
    split; [vm_compute; reflexivity|].
    split; vm_compute; reflexivity.
Qed.

(** ** The theorems at work *)

(** C2, where the claim fails: the first poll.  Nothing is recorded yet,
    two callbacks are registered, and the poll fetches the head
    [5ha2] of the branch: it records it, fetches no file and calls
    nobody. *)
Lemma first_poll_notifies_nobody :
  let run :=
    RealTimeService.poll (env := Examples.moved) (rt := browser)
      (Examples.polling VNull) initial_world in
  RealTimeService.subscribers (Examples.polling VNull) = [1; 2] /\
  RealTimeService.lastKnownHash (Examples.polling VNull) = VNull /\
  fst (fst (RealTimeService.getBranchSHA (env := Examples.moved)
              (Examples.polling VNull) initial_world))
  = Ok (VStr "5ha2") /\
  fst (fst run) = Ok tt /\
  RealTimeService.lastKnownHash (snd (fst run)) = VStr "5ha2" /\
  map line (requests (snd run))
  = [(GET, Examples.repo ++ "/git/refs/heads/main")%string] /\
  invoked (calls (snd run)) = [].
Proof. vm_compute. repeat split; reflexivity. Qed.

(** C2 at work: the head moved from the recorded [0ld] to [5ha2]; both
    files are fetched and both callbacks are told of each. *)
Lemma poll_after_change :
  RealTimeService.isPolling (Examples.polling (VStr "0ld")) = true /\
  exists s' w',
    RealTimeService.poll (env := Examples.moved) (rt := browser)
      (Examples.polling (VStr "0ld")) initial_world = (Ok tt, s', w') /\
    RealTimeService.lastKnownHash s' = VStr "5ha2" /\
    map (fun i => (fst (fst i), snd i)) (invoked (calls w'))
    = [(1, "submissions_updated"); (2, "submissions_updated");
       (1, "agents_updated"); (2, "agents_updated")]%string.
Proof.
  split; [reflexivity|].
  destruct (poll_notifies_on_recorded_change Examples.moved browser
              (Examples.polling (VStr "0ld")) initial_world eq_refl)
    as (sha & w0 & s' & w' & Hsha & Hpoll & Hchanged & _).
  exists s', w'. split; [exact Hpoll|].
  vm_compute in Hsha. inversion Hsha; subst sha w0.
  destruct Hchanged as (w1 & s2 & w2 & w3 & _ & _ & _ & _ & _ & Hrec).
  - exists "5ha2"%string. split; [reflexivity|discriminate].
  - reflexivity.
  - discriminate.
  - split; [exact Hrec|].
    vm_compute in Hpoll. inversion Hpoll. reflexivity.
Defined.


(** C9 at work: [submissions.json] exists and holds JSON, the read returns
    the parsed object. *)
Lemma readFile_of_a_json_file :
  configured Examples.github /\
  exists w',
    GitHubService.readFile (env := Examples.moved) (rt := browser)
      "submissions.json" Examples.github initial_world
    = (Ok (VObj [("submissions",
                  VArr [VObj [("id", VStr "1");
                              ("agentInfo",
                               VObj [("fullName", VStr "Ann")])]]);
                 ("lastUpdated", VStr "2024-01-01T00:00:00.000Z");
                 ("totalSubmissions", VNum 1)]),
       Examples.github, w').
Proof.
  assert (Hcfg : configured Examples.github)
    by (repeat split; reflexivity).
  split; [exact Hcfg|].
  destruct (readFile_results Examples.moved browser Examples.github
              initial_world "submissions.json" Hcfg)
    as (r & w' & Hrun & _ & _ & Hok).
  exists w'. rewrite Hrun. f_equal. f_equal.
  edestruct (Hok 200%Z) as [_ Hcontent];
    [vm_compute; reflexivity|reflexivity|reflexivity|].
  edestruct Hcontent as [Hparsed _];
    [reflexivity|vm_compute; reflexivity|].
  apply Hparsed. vm_compute. reflexivity.
Defined.

(** C10, where the claim fails: the stored list holds one record, which
    has no [scCode].  No record is accepted, yet the login does not
    resolve to [undefined]: it throws. *)
Lemma authenticate_throws_on_nameless_record :
  let d :=
    DataSyncService.set_token (VStr "ghp_example")
      DataSyncService.revised_constructor in
  let record :=
    VObj [("fullName", VStr "Jane Doe"); ("password", VStr "pw");
          ("status", VStr "active")] in
  fst (fst (DataSyncService.getFileContent (env := Examples.nameless)
              (rt := browser) "agents.json" d initial_world))
  = Ok (VObj [("agents", VArr [record])]) /\
  accepts (rt := browser) "SC001" "Jane Doe" "pw" record = false /\
  fst (fst (FieldAgentLoginHandler.authenticate (env := Examples.nameless)
              (rt := browser) "SC001" "Jane Doe" (VStr "pw")
              FieldAgentLoginHandler.constructor initial_world))
  = Throw (TypeError "toLowerCase is not a function").
Proof. vm_compute. repeat split; reflexivity. Qed.

(** C10 at work: of the two stored records, the second is accepted for
    these credentials, up to the case of the code and the name. *)
Lemma authenticate_john :
  exists s' w',
    FieldAgentLoginHandler.authenticate (env := Examples.moved)
      (rt := browser) "SC002" "john roe" (VStr "secret")
      FieldAgentLoginHandler.constructor initial_world
    = (Ok (VObj [("scCode", VStr "sc002"); ("fullName", VStr "John Roe");
                 ("password", VStr "secret"); ("status", VStr "active")]),
       s', w').
Proof.
  edestruct (authenticate_finds_first_accepted Examples.moved browser
               "SC002" "john roe" "secret"
               FieldAgentLoginHandler.constructor initial_world)
    as [_ Htoken]; [vm_compute; reflexivity|].
  edestruct Htoken as [_ Hagents];
    [reflexivity|vm_compute; reflexivity|].
  edestruct Hagents as [Hrun _]; [reflexivity| |exact Hrun].
  repeat constructor; do 2 eexists; split; reflexivity.
Defined.

(** C8 at work: the first of two callbacks throws; the second is still
    called, and the notification returns. *)
Lemma throwing_callback_does_not_stop_the_next :
  let run :=
    RealTimeService.notifySubscribers (env := Examples.moved_throwing)
      VNull "agents_updated" (Examples.polling VNull) initial_world in
  fst (fst run) = Ok tt /\
  nth_error (calls (snd run)) 1 = Some (CbExit 1 (Some (Error "boom"))) /\
  nth_error (calls (snd run)) 2 = Some (CbEnter 2 VNull "agents_updated").
Proof.
  cbv zeta.
  split; [vm_compute; reflexivity|]. split; [vm_compute; reflexivity|].
  destruct (notifySubscribers_isolates_throwing_callbacks
              Examples.moved_throwing VNull "agents_updated")
    as (_ & Hlater & _).
  set (run := RealTimeService.notifySubscribers
                (env := Examples.moved_throwing) VNull "agents_updated"
                (Examples.polling VNull) initial_world).
  apply (Hlater (Examples.polling VNull) initial_world
           (fst (fst run)) (snd (fst run)) (snd run) (calls (snd run))
           0 1 (Error "boom") 1 2).
  - change (run = (fst (fst run), snd (fst run), snd run)).
    clearbody run. now destruct run as [[r s'] w'].
  - reflexivity.
  - reflexivity.
  - vm_compute. reflexivity.
  - lia.
  - reflexivity.
Defined.


(** C3 at work: [data.json] exists with SHA [da7a]; the write reads it and
    sends a PUT with that SHA. *)
Lemma saveFileContent_sends_the_sha :
  exists r w' put,
    DataSyncService.saveFileContent (env := Examples.moved) (rt := browser)
      "data.json" (VObj [("agents", VArr [])]) (VStr "Reset")
      Examples.syncing initial_world = (r, Examples.syncing, w') /\
    requests w'
    = [DataSyncService.read_request Examples.syncing "data.json"; put] /\
    req_method put = PUT /\
    version_token put = VStr "da7a".
Proof.
  destruct (writes_send_the_token_just_read Examples.moved browser)
    as (Hsave & _).
  destruct (Hsave "data.json"%string (VObj [("agents", VArr [])])
              (VStr "Reset") Examples.syncing initial_world)
    as (r & w' & Hrun & _ & Hwrite).
  match type of Hwrite with
  | if ?c then _ else _ =>
      assert (Hready : c = true) by (vm_compute; reflexivity);
      rewrite Hready in Hwrite
  end.
  destruct Hwrite as (put & Hreq & Hput & _ & Htoken & _).
  exists r, w', put. split; [exact Hrun|]. split; [exact Hreq|].
  split; [exact Hput|].
  apply Htoken; [vm_compute; reflexivity|].
  exists "da7a"%string. split; [reflexivity|discriminate].
Defined.

(** A save whose read succeeds: [submissions.json] holds one submission;
    saving a second one writes back both, the old one first, and counts
    two. *)
Lemma saveSubmission_appends_to_one :
  exists result s' w' old,
    GitHubService.saveSubmission (env := Examples.moved) (rt := browser)
      (VObj [("agentInfo", VObj [("fullName", VStr "Bob")])])
      Examples.github initial_world = (Ok result, s', w') /\
    old = [VObj [("id", VStr "1");
                 ("agentInfo", VObj [("fullName", VStr "Ann")])]] /\
    option_map (fun put => document_sent (rt := browser) put)
      (last_request (requests w'))
    = Some
        (Some
           (VObj
              [("submissions",
                VArr (old
                      ++ [VObj [("id", VStr "1700000000000");
                                ("agentInfo",
                                 VObj [("fullName", VStr "Bob")]);
                                ("createdAt",
                                 VStr "2023-11-14T22:13:20.001Z")]]));
               ("lastUpdated", VStr "2023-11-14T22:13:20.002Z");
               ("totalSubmissions", VNum 2)])).
Proof.
  destruct (GitHubService.saveSubmission (env := Examples.moved)
              (rt := browser)
              (VObj [("agentInfo", VObj [("fullName", VStr "Bob")])])
              Examples.github initial_world)
    as [[[result|e] s'] w'] eqn:Hrun;
    [|vm_compute in Hrun; discriminate Hrun].
  destruct (saving_rewrites_the_file_from_its_read Examples.moved browser)
    as (Hsave & _).
  destruct (Hsave _ _ _ _ _ _ Hrun)
    as (rd & w1 & old & _ & _ & _ & _ & _ & _ & Hread & Hold & _).
  exists result, s', w', old. split; [reflexivity|].
  vm_compute in Hread. inversion Hread; subst rd w1. clear Hread.
  vm_compute in Hold. inversion Hold; subst old. clear Hold.
  split; [reflexivity|].
  vm_compute in Hrun. inversion Hrun. vm_compute. reflexivity.
Defined.

(** C4, where the code departs from it.  [submissions.json] holds one
    submission, and the server answers 500 to the first read of it.
    [readFile] throws, and [saveSubmission] takes that for a missing file
    (it logs [No existing submissions file, creating new one]) and starts
    from the empty list.  The call still succeeds: the read that
    [uploadFile] makes for the version finds the file, and the PUT, sent
    with that version, replaces the stored list by the new record
    alone. *)
Lemma saveSubmission_loses_the_list_after_a_failed_read :
  let read := GitHubService.read_request Examples.github "submissions.json" in
  let stored :=
    VObj [("id", VStr "1"); ("agentInfo", VObj [("fullName", VStr "Ann")])] in
  let run :=
    GitHubService.saveSubmission (env := Examples.hiccup) (rt := browser)
      (VObj [("agentInfo", VObj [("fullName", VStr "Bob")])])
      Examples.github initial_world in
  @server Examples.hiccup [read] = Examples.server_error /\
  @server Examples.hiccup [read; read]
  = Examples.file "b10b" Examples.submissions_json /\
  fst (fst (GitHubService.readFile (env := Examples.hiccup) (rt := browser)
              "submissions.json" Examples.github
              (record_request read initial_world)))
  = Ok (VObj [("submissions", VArr [stored]);
              ("lastUpdated", VStr "2024-01-01T00:00:00.000Z");
              ("totalSubmissions", VNum 1)]) /\
  fst (fst run)
  = Ok (VObj [("success", VBool true);
              ("submissionId", VStr "1700000000000");
              ("downloadUrl",
               VStr (Examples.repo ++ "/contents/submissions.json"))]) /\
  map req_method (requests (snd run)) = [GET; GET; PUT] /\
  firstn 2 (requests (snd run)) = [read; read] /\
  option_map version_token (last_request (requests (snd run)))
  = Some (VStr "b10b") /\
  option_map (fun put => document_sent (rt := browser) put)
    (last_request (requests (snd run)))
  = Some
      (Some
         (VObj
            [("submissions",
              VArr [VObj [("id", VStr "1700000000000");
                          ("agentInfo", VObj [("fullName", VStr "Bob")]);
                          ("createdAt", VStr "2023-11-14T22:13:20.001Z")]]);
             ("lastUpdated", VStr "2023-11-14T22:13:20.002Z");
             ("totalSubmissions", VNum 1)])) /\
  map log_text (console (snd run))
  = ["No existing submissions file, creating new one"].
Proof. vm_compute. repeat split; reflexivity. Qed.

(** * Further properties of the code *)

(** ** The pattern of the e-mail address *)

Lemma append_empty (a b : string) : (a ++ b)%string = "" -> a = "" /\ b = "".
Proof. destruct a; simpl; [auto|discriminate]. Qed.

Lemma append_cons (a b : string) c s :
  (a ++ b)%string = String c s ->
  (a = "" /\ b = String c s) \/
  (exists a', a = String c a' /\ s = (a' ++ b)%string).
Proof.
  destruct a as [|c' a']; simpl; intros H; [left; auto|].
  inversion H; subst. right. eauto.
Qed.

Lemma nullable_lang r : nullable r = true <-> lang r "".
Proof.
  split.
  - induction r; simpl; intros H; try discriminate.
    + constructor.
    + apply andb_prop in H as [H1 H2].
      change (lang (Seq r1 r2) ("" ++ "")). constructor; auto.
    + apply orb_prop in H as [H|H]; [apply LAltL|apply LAltR]; auto.
    + constructor.
  - intros H. remember ""%string as e eqn:He.
    induction H; simpl; try discriminate; auto.
    + apply append_empty in He as [-> ->].
      rewrite IHlang1, IHlang2; auto.
    + rewrite IHlang; auto.
    + rewrite IHlang; auto. apply orb_true_r.
Qed.

Lemma derivative_sound c r :
  forall s, lang (derivative c r) s -> lang r (String c s).
Proof.
  induction r; simpl; intros s H.
  - inversion H.
  - inversion H.
  - destruct (p c) eqn:Hp; inversion H; subst. now constructor.
  - assert (Hseq : forall x, lang (Seq (derivative c r1) r2) x ->
                             lang (Seq r1 r2) (String c x)).
    { intros x Hx. inversion Hx; subst.
      change (lang (Seq r1 r2) (String c s1 ++ s2)). constructor; auto. }
    destruct (nullable r1) eqn:Hn; [|auto].
    inversion H; subst; [auto|].
    change (lang (Seq r1 r2) ("" ++ String c s)).
    constructor; [now apply nullable_lang|auto].
  - inversion H; subst; [apply LAltL|apply LAltR]; auto.
  - inversion H; subst.
    change (lang (Star r) (String c s1 ++ s2)). constructor; auto.
Qed.

Lemma derivative_complete c r x :
  lang r x -> forall s, x = String c s -> lang (derivative c r) s.
Proof.
  induction 1; intros s0 He; simpl; try discriminate.
  - inversion He; subst. rewrite H. constructor.
  - apply append_cons in He as [[-> ->]|(a' & -> & ->)].
    + apply nullable_lang in H. rewrite H. apply LAltR. auto.
    + destruct (nullable r1); [apply LAltL|]; constructor; auto.
  - apply LAltL. auto.
  - apply LAltR. auto.
  - apply append_cons in He as [[-> ->]|(a' & -> & ->)].
    + apply IHlang2. reflexivity.
    + constructor; auto.
Qed.

Lemma matches_lang s : forall r, matches r s = true <-> lang r s.
Proof.
  induction s as [|c s IH]; intros r; simpl.
  - apply nullable_lang.
  - rewrite IH. split; [apply derivative_sound|].
    intros H. eapply derivative_complete; eauto.
Qed.

Lemma lang_seq r1 r2 s :
  lang (Seq r1 r2) s <->
  exists s1 s2, s = (s1 ++ s2)%string /\ lang r1 s1 /\ lang r2 s2.
Proof.
  split.
  - intros H. inversion H; subst. eauto.
  - intros (s1 & s2 & -> & H1 & H2). now constructor.
Qed.

Lemma lang_char c s : lang (Char c) s <-> s = String c "".
Proof.
  unfold Char. split.
  - intros H. inversion H; subst.
    match goal with E : Ascii.eqb _ _ = true |- _ =>
      apply Ascii.eqb_eq in E; now subst end.
  - intros ->. constructor. apply Ascii.eqb_refl.
Qed.

Lemma lang_star_class p s :
  lang (Star (Class p)) s <-> forallb p (list_ascii_of_string s) = true.
Proof.
  split.
  - intros H. remember (Star (Class p)) as r eqn:Hr.
    induction H; try discriminate; [reflexivity|].
    inversion Hr; subst. inversion H; subst. simpl.
    match goal with E : p _ = true |- _ => rewrite E end. auto.
  - induction s as [|c s IH]; simpl; intros H; [constructor|].
    apply andb_prop in H as [Hc Hs].
    change (lang (Star (Class p)) (String c "" ++ s)).
    constructor; [now constructor|auto].
Qed.

Lemma lang_plus_class p s :
  lang (Plus (Class p)) s <->
  negb (s =? "") && forallb p (list_ascii_of_string s) = true.
Proof.
  unfold Plus. rewrite lang_seq. split.
  - intros (s1 & s2 & -> & H1 & H2). inversion H1; subst. simpl.
    apply lang_star_class in H2.
    match goal with E : p _ = true |- _ => rewrite E end. auto.
  - destruct s as [|c s]; simpl; [discriminate|]. intros H.
    apply andb_prop in H as [Hc Hs].
    exists (String c ""), s. split; [reflexivity|].
    split; [now constructor|now apply lang_star_class].
Qed.

Lemma emailRegex_shape s : matches emailRegex s = true <-> email_shape s.
Proof.
  rewrite matches_lang. unfold emailRegex, email_shape, email_part.
  cbv zeta. rewrite lang_seq. split.
  - intros (a & r1 & -> & Ha & H1).
    apply lang_seq in H1 as (at_ & r2 & -> & Hat & H2).
    apply lang_seq in H2 as (b & r3 & -> & Hb & H3).
    apply lang_seq in H3 as (dot & c & -> & Hdot & Hc).
    apply lang_char in Hat, Hdot. subst.
    apply lang_plus_class in Ha, Hb, Hc.
    exists a, b, c. auto.
  - intros (a & b & c & -> & Ha & Hb & Hc).
    apply lang_plus_class in Ha, Hb, Hc.
    exists a, ("@" ++ b ++ "." ++ c)%string. split; [reflexivity|].
    split; [exact Ha|].
    apply lang_seq. exists "@"%string, (b ++ "." ++ c)%string.
    split; [reflexivity|]. split; [now apply lang_char|].
    apply lang_seq. exists b, ("." ++ c)%string.
    split; [reflexivity|]. split; [exact Hb|].
    apply lang_seq. exists "."%string, c.
    split; [reflexivity|]. split; [now apply lang_char|exact Hc].
Qed.

(** ** The validation of the form *)

Section Validation.

Context {env : Environment} {rt : Runtime}.

Lemma required_loop {S} formData (names : list string) (s : S) w :
  nullish formData = false ->
  forEach (S := S) names (fun name =>
    v <- prop formData name ;;
    if negb (truthy v)
    then throw (Error ("Please fill in " ++ toLowerCase (space_capitals name)))
    else ret tt) s w
  = match first_missing formData names with
    | None => (Ok tt, s, w)
    | Some name =>
        (Throw (Error ("Please fill in "
                       ++ toLowerCase (space_capitals name))), s, w)
    end.
Proof.
  intros Hn. set (body := fun name : string => _).
  induction names as [|name names IH]; simpl; [reflexivity|].
  unfold bind at 1. unfold body at 1. unfold prop, bind. rewrite Hn.
  unfold ret at 1.
  destruct (truthy (field formData name)); simpl; [exact IH|reflexivity].
Qed.

Lemma first_missing_none formData names :
  first_missing formData names = None <->
  Forall (fun name => truthy (field formData name) = true) names.
Proof.
  induction names as [|name names IH]; simpl.
  - split; [constructor|reflexivity].
  - destruct (truthy (field formData name)) eqn:E.
    + rewrite IH. split; [now constructor|now inversion 1].
    + split; [discriminate|]. inversion 1; congruence.
Qed.

Lemma valid_form_not_nullish formData :
  valid_form formData -> nullish formData = false.
Proof.
  intros [H _]. inversion H; subst.
  now destruct formData.
Qed.

Lemma validateFormData_result formData s w :
  nullish formData = false ->
  EnhancedSubmissionHandler.validateFormData formData s w
  = match first_missing formData EnhancedSubmissionHandler.required with
    | Some name =>
        (Throw (Error ("Please fill in "
                       ++ toLowerCase (space_capitals name))), s, w)
    | None =>
        if matches emailRegex (to_string (field formData "email"))
        then (Ok tt, s, w)
        else (Throw (Error "Please enter a valid email address"), s, w)
    end.
Proof.
  intros Hn. unfold EnhancedSubmissionHandler.validateFormData.
  unfold bind at 1. rewrite (required_loop formData _ s w Hn).
  destruct (first_missing formData EnhancedSubmissionHandler.required);
    [reflexivity|].
  unfold bind, prop. rewrite Hn. unfold ret at 1.
  now destruct (matches emailRegex (to_string (field formData "email"))).
Qed.

Lemma validateFormData_nullish formData s w :
  nullish formData = true ->
  exists e,
    EnhancedSubmissionHandler.validateFormData formData s w = (Throw e, s, w).
Proof.
  intros Hn. unfold EnhancedSubmissionHandler.validateFormData.
  unfold EnhancedSubmissionHandler.required. simpl.
  unfold bind, prop. rewrite Hn. eexists. reflexivity.
Qed.

End Validation.

(** X1. [validateFormData] lets a form through exactly when each of the
    eleven required fields is filled and the e-mail address reads
    [local@domain.rest], three parts that are not empty and hold neither
    white space nor [@].  It reports the first required field left empty,
    in the order of the list, under the name [toLowerCase] gives it once
    its capitals are set apart; a form whose fields are all filled and
    whose address has another shape is refused for its address.  It
    touches neither the handler nor the world. *)
Theorem validateFormData_accepts_filled_forms :
  forall (env : Environment) (rt : Runtime) (formData : value)
         (s : EnhancedSubmissionHandler.t) (w : world),
    (valid_form formData <->
     EnhancedSubmissionHandler.validateFormData formData s w = (Ok tt, s, w))
    /\
    (exists r, EnhancedSubmissionHandler.validateFormData formData s w
               = (r, s, w))
    /\
    (forall name,
       nullish formData = false ->
       first_missing formData EnhancedSubmissionHandler.required
       = Some name ->
       EnhancedSubmissionHandler.validateFormData formData s w
       = (Throw (Error ("Please fill in "
                        ++ toLowerCase (space_capitals name))), s, w))
    /\
    (first_missing formData EnhancedSubmissionHandler.required = None ->
     ~ email_shape (to_string (field formData "email")) ->
     EnhancedSubmissionHandler.validateFormData formData s w
     = (Throw (Error "Please enter a valid email address"), s, w)).
Proof.
  intros env rt formData s w.
  destruct (nullish formData) eqn:Hn.
  { destruct (validateFormData_nullish formData s w Hn) as [e He].
    rewrite He. split; [|split; [eexists; reflexivity|split]].
    - split; [|discriminate].
      intros Hv. apply valid_form_not_nullish in Hv. congruence.
    - discriminate.
    - intros Hnone _. exfalso.
      unfold EnhancedSubmissionHandler.required in Hnone. simpl in Hnone.
      destruct formData; discriminate. }
  rewrite (validateFormData_result formData s w Hn).
  destruct (first_missing formData EnhancedSubmissionHandler.required)
    as [name|] eqn:Hfirst.
  - split; [|split; [eexists; reflexivity|split]].
    + split; [|discriminate].
      intros [Hall _]. apply first_missing_none in Hall. congruence.
    + intros name' _ E. inversion E; subst. reflexivity.
    + discriminate.
  - destruct (matches emailRegex (to_string (field formData "email")))
      eqn:Hm.
    + apply emailRegex_shape in Hm.
      split; [|split; [eexists; reflexivity|split]].
      * split; [reflexivity|]. intros _. split; [|exact Hm].
        now apply first_missing_none.
      * discriminate.
      * intros _ Hno. contradiction.
    + split; [|split; [eexists; reflexivity|split]].
      * split; [|discriminate]. intros [_ Hshape].
        apply emailRegex_shape in Hshape. congruence.
      * discriminate.
      * reflexivity.
Qed.

Section Rejection.

Context {env : Environment} {rt : Runtime}.

Lemma validateFormData_refuses formData s w :
  ~ valid_form formData ->
  exists e,
    EnhancedSubmissionHandler.validateFormData formData s w = (Throw e, s, w).
Proof.
  intros Hno. destruct (nullish formData) eqn:Hn.
  - now apply validateFormData_nullish.
  - rewrite (validateFormData_result formData s w Hn).
    destruct (first_missing formData EnhancedSubmissionHandler.required)
      eqn:Hfirst; [eauto|].
    destruct (matches emailRegex (to_string (field formData "email")))
      eqn:Hm; [|eauto].
    exfalso. apply Hno. split.
    + now apply first_missing_none.
    + now apply emailRegex_shape.
Qed.

Lemma loadConfig_request c w config c' w' :
  ConfigManager.loadConfig c w = (Ok config, c', w') ->
  requests w' = requests w ++ [{| req_method := GET;
                                  req_url := ConfigManager.config_url c;
                                  req_headers :=
                                    [("Accept",
                                      "application/vnd.github.v3+json")];
                                  req_body := None |}].
Proof.
  unfold ConfigManager.loadConfig, ConfigManager.config_url, try_catch, bind,
    this, fetch, json, prop, ret, throw, js_atob, js_parse,
    localStorage_setItem, localStorage_getItem, the_world, set_world,
    console_write.
  simpl. crunch.
  all: try (destruct (storage_get _ _) as [text|]; simpl; crunch).
  all: intros H; inversion H; subst; reflexivity.
Qed.

End Rejection.

(** X2. A form that [validateFormData] refuses is never written: when a
    required field is empty or the address has not the shape of one,
    [handleSubmission] throws, and the read of the configuration is the
    only request it has sent: no image was uploaded and [data.json] was
    neither read nor written. *)
Theorem handleSubmission_refuses_before_writing :
  forall (env : Environment) (rt : Runtime) (formData : value)
         (imageFiles : option (list (string * option File)))
         (s : EnhancedSubmissionHandler.t) (w : world),
    ~ valid_form formData ->
    exists e s' w',
      EnhancedSubmissionHandler.handleSubmission formData imageFiles s w
      = (Throw e, s', w') /\
      requests w'
      = requests w
        ++ [{| req_method := GET;
               req_url :=
                 ConfigManager.config_url ConfigManager.constructor;
               req_headers := [("Accept", "application/vnd.github.v3+json")];
               req_body := None |}].
Proof.
  intros env rt formData imageFiles s w Hno.
  unfold EnhancedSubmissionHandler.handleSubmission.
  destruct (loadConfig_total ConfigManager.constructor w)
    as (config & c' & w1 & Hl).
  pose proof (loadConfig_request _ _ _ _ _ Hl) as Hreq.
  assert (Hon : on_new (S := EnhancedSubmissionHandler.t)
                  ConfigManager.constructor ConfigManager.loadConfig s w
                = (Ok config, s, w1)).
  { unfold on_new. now rewrite Hl. }
  match goal with
  | |- exists e s' w', try_catch ?m ?h s w = _ /\ _ =>
      assert (Hin : exists e s2 w2,
                      m s w = (Throw e, s2, w2) /\ requests w2 = requests w1)
  end.
  { erewrite bind_Ok by exact Hon.
    unfold prop at 1. destruct (nullish config).
    { unfold bind, throw. eauto. }
    unfold bind at 1, ret at 1.
    destruct (truthy (field config "token")) eqn:Htok; simpl.
    2: { unfold throw. eauto. }
    unfold bind at 1, within, DataSyncService.init. rewrite Htok.
    unfold bind at 1, set_this at 1, ret at 1.
    destruct (validateFormData_refuses formData
                (EnhancedSubmissionHandler.set_dataSync
                   (DataSyncService.set_token (field config "token")
                      (EnhancedSubmissionHandler.dataSync s)) s) w1 Hno)
      as [e He].
    erewrite bind_Throw by exact He. eauto. }
  destruct Hin as (e & s2 & w2 & Hm & Hw).
  erewrite try_Throw by exact Hm.
  unfold bind, console_write, set_world, throw. simpl.
  do 3 eexists. split; [reflexivity|]. simpl. now rewrite Hw, Hreq.
Qed.

(** ** The upload of the photographs *)

Lemma lookup_assign k k' v l :
  lookup k (assign k' v l) = if k' =? k then Some v else lookup k l.
Proof.
  destruct (k' =? k)%string eqn:E.
  - apply String.eqb_eq in E. subst. apply lookup_assign_eq.
  - now apply lookup_assign_neq.
Qed.

Section Uploads.

Context {env : Environment} {rt : Runtime}.

Local Open Scope string_scope.

Variables (submissionId : string) (tok : value) (timestamp : Z).
Variable allowed : string -> Prop.

Let address (key : string) : value :=
  VStr (EnhancedSubmissionHandler.raw_base ++ "images/" ++ submissionId
        ++ "_" ++ key ++ "_" ++ dec timestamp ++ ".jpg").

Let addressed (urls : list (string * value)) : Prop :=
  forall key url, lookup key urls = Some url -> allowed key /\ url = address key.

Lemma uploadImages_loop (files : list (string * option File)) :
  (forall key file, In (key, Some file) files -> allowed key) ->
  forall urls s w,
    addressed urls ->
    exists urls' w',
      for_of files urls
        (fun entry imageUrls =>
           let key := fst entry in
           match snd entry with
           | None => ret imageUrls
           | Some file =>
               try_catch
                 (base64Data <- EnhancedSubmissionHandler.fileToBase64 file ;;
                  let cleanBase64 := split_comma_second base64Data in
                  let filename :=
                    "images/" ++ submissionId ++ "_" ++ key ++ "_"
                    ++ dec timestamp ++ ".jpg" in
                  response <- fetch
                    {| req_method := PUT;
                       req_url := EnhancedSubmissionHandler.contents_api
                                  ++ filename;
                       req_headers :=
                         EnhancedSubmissionHandler.write_headers tok;
                       req_body :=
                         Some (json_image
                                 (VObj [("message",
                                         VStr ("Upload " ++ key
                                               ++ " for submission "
                                               ++ submissionId));
                                        ("content", cleanBase64);
                                        ("branch", VStr "main")])) |} ;;
                  if ok response then
                    _ <- json response ;;
                    let url :=
                      VStr (EnhancedSubmissionHandler.raw_base ++ filename) in
                    console_write LOG ("Uploaded " ++ key ++ ":")
                      [LogVal url] ;;
                    ret (assign key url imageUrls)
                  else
                    error <- json response ;;
                    console_write ERROR ("Failed to upload " ++ key ++ ":")
                      [LogVal error] ;;
                    ret imageUrls)
                 (fun error =>
                    console_write ERROR ("Error uploading " ++ key ++ ":")
                      [LogErr error] ;;
                    ret imageUrls)
           end) s w
      = (Ok urls', s, w') /\
      addressed urls' /\
      exists sent,
        requests w' = (requests w ++ sent)%list /\
        Forall blind_write sent /\
        (length sent <= length files)%nat.
Proof.
  induction files as [|[key [file|]] files IH]; intros Hall urls s w Hurls.
  - exists urls, w. simpl. split; [reflexivity|]. split; [exact Hurls|].
    exists []. rewrite app_nil_r. auto.
  - assert (Hstep : exists urls1 w1,
              try_catch
                 (base64Data <- EnhancedSubmissionHandler.fileToBase64 file ;;
                  let cleanBase64 := split_comma_second base64Data in
                  let filename :=
                    "images/" ++ submissionId ++ "_" ++ key ++ "_"
                    ++ dec timestamp ++ ".jpg" in
                  response <- fetch
                    {| req_method := PUT;
                       req_url := EnhancedSubmissionHandler.contents_api
                                  ++ filename;
                       req_headers :=
                         EnhancedSubmissionHandler.write_headers tok;
                       req_body :=
                         Some (json_image
                                 (VObj [("message",
                                         VStr ("Upload " ++ key
                                               ++ " for submission "
                                               ++ submissionId));
                                        ("content", cleanBase64);
                                        ("branch", VStr "main")])) |} ;;
                  if ok response then
                    _ <- json response ;;
                    let url :=
                      VStr (EnhancedSubmissionHandler.raw_base ++ filename) in
                    console_write LOG ("Uploaded " ++ key ++ ":")
                      [LogVal url] ;;
                    ret (assign key url urls)
                  else
                    error <- json response ;;
                    console_write ERROR ("Failed to upload " ++ key ++ ":")
                      [LogVal error] ;;
                    ret urls)
                 (fun error =>
                    console_write ERROR ("Error uploading " ++ key ++ ":")
                      [LogErr error] ;;
                    ret urls) s w
              = (Ok urls1, s, w1) /\
              addressed urls1 /\
              exists sent,
                requests w1 = (requests w ++ sent)%list /\
                Forall blind_write sent /\
                (length sent <= 1)%nat).
    { assert (Hnew : addressed (assign key (address key) urls)).
      { intros k u. rewrite lookup_assign.
        destruct (key =? k)%string eqn:E.
        - apply String.eqb_eq in E. subst k. intros Hu. inversion Hu; subst.
          split; [|reflexivity]. eapply Hall. left. reflexivity.
        - apply Hurls. }
      unfold try_catch, bind, EnhancedSubmissionHandler.fileToBase64, fetch,
        json, ret, throw, console_write, set_world.
      destruct (dataURL file) as [url|]; simpl.
      - crunch.
        all: do 2 eexists; split; [reflexivity|]; simpl.
        all: split; [first [exact Hurls|exact Hnew]|].
        all: eexists; split; [reflexivity|].
        all: split; [|simpl; lia].
        all: constructor; [|constructor].
        all: split; [reflexivity|].
        all: unfold version_token; cbn [req_body].
        all: rewrite !image_field_other by reflexivity; reflexivity.
      - do 2 eexists. split; [reflexivity|]. split; [exact Hurls|].
        exists []. simpl. rewrite app_nil_r. auto. }
    destruct Hstep as (urls1 & w1 & H1 & A1 & sent1 & R1 & F1 & L1).
    destruct (IH (fun k f Hin => Hall k f (or_intror Hin)) urls1 s w1 A1)
      as (urls2 & w2 & H2 & A2 & sent2 & R2 & F2 & L2).
    exists urls2, w2. split; [|split; [exact A2|]].
    + simpl. erewrite bind_Ok by exact H1. exact H2.
    + exists (sent1 ++ sent2)%list.
      split; [now rewrite R2, R1, app_assoc|].
      split; [now apply Forall_app|].
      rewrite length_app. simpl. lia.
  - destruct (IH (fun k f Hin => Hall k f (or_intror Hin)) urls s w Hurls)
      as (urls2 & w2 & H2 & A2 & sent2 & R2 & F2 & L2).
    exists urls2, w2. split; [|split; [exact A2|]].
    + simpl. unfold bind at 1, ret at 1. exact H2.
    + exists sent2. split; [exact R2|]. split; [exact F2|simpl; lia].
Qed.

End Uploads.

Section UploadsResult.

Context {env : Environment} {rt : Runtime}.

Lemma uploadImages_result (submissionId : string)
  (imageFiles : list (string * option File)) (tok : value)
  (s : EnhancedSubmissionHandler.t) (w : world) :
  exists urls w',
    EnhancedSubmissionHandler.uploadImages submissionId (Some imageFiles)
      tok s w
    = (Ok (VObj urls), s, w') /\
    (forall key url,
       lookup key urls = Some url ->
       (exists file, In (key, Some file) imageFiles) /\
       url = VStr (EnhancedSubmissionHandler.raw_base ++ "images/"
                   ++ submissionId ++ "_" ++ key ++ "_"
                   ++ dec (clock (clock_reads w)) ++ ".jpg")%string) /\
    exists sent,
      requests w' = requests w ++ sent /\
      Forall blind_write sent /\
      (length sent <= length imageFiles)%nat.
Proof.
  unfold EnhancedSubmissionHandler.uploadImages.
  unfold bind at 1, Date_now at 1. cbv beta iota.
  unfold bind at 1, file_entries, ret at 1. cbv beta iota.
  match goal with
  | |- context [bind (for_of imageFiles [] _) _ s ?w1] =>
      destruct (uploadImages_loop submissionId tok (clock (clock_reads w))
                  (fun key => exists file, In (key, Some file) imageFiles)
                  imageFiles (fun key file Hin => ex_intro _ file Hin)
                  [] s w1)
        as (urls & w' & Hloop & Hurls & Hlen)
  end.
  { intros key url. discriminate. }
  exists urls, w'. split; [|split; [exact Hurls|exact Hlen]].
  erewrite bind_Ok by exact Hloop. reflexivity.
Qed.

Lemma uploadImages_without_files (submissionId : string) (tok : value)
  (s : EnhancedSubmissionHandler.t) (w : world) :
  exists w',
    EnhancedSubmissionHandler.uploadImages submissionId None tok s w
    = (Throw (TypeError "cannot convert to object"), s, w') /\
    requests w' = requests w.
Proof.
  unfold EnhancedSubmissionHandler.uploadImages.
  unfold bind, Date_now, file_entries, throw. eexists.
  split; reflexivity.
Qed.

End UploadsResult.

(** X3. [uploadImages] throws only when it is given no object.  For
    [imageFiles] that is [null] or [undefined] it throws before any
    request is sent: [Object.entries] is outside the [try] of the loop.
    For every object it returns, whatever the server answers and
    whichever file cannot be read.  A key has an address in the object
    returned only if a file was chosen under it, and the address is the
    raw address of [images/<id>_<key>_<time>.jpg], with the time read
    once when the call starts.  At most one request is sent for each
    entry of [imageFiles], and each is a PUT that carries no [sha]: an
    image is written without a read of its target, so the upload can
    create a file but names no version to replace. *)
Theorem uploadImages_throws_only_without_files :
  forall (env : Environment) (rt : Runtime) (submissionId : string)
         (imageFiles : option (list (string * option File))) (tok : value)
         (s : EnhancedSubmissionHandler.t) (w : world),
    match imageFiles with
    | None =>
        exists e w',
          EnhancedSubmissionHandler.uploadImages submissionId None tok s w
          = (Throw e, s, w') /\
          requests w' = requests w
    | Some entries =>
        exists urls w',
          EnhancedSubmissionHandler.uploadImages submissionId (Some entries)
            tok s w
          = (Ok (VObj urls), s, w') /\
          (forall key url,
             lookup key urls = Some url ->
             (exists file, In (key, Some file) entries) /\
             url = VStr (EnhancedSubmissionHandler.raw_base ++ "images/"
                         ++ submissionId ++ "_" ++ key ++ "_"
                         ++ dec (clock (clock_reads w)) ++ ".jpg")%string) /\
          exists sent,
            requests w' = requests w ++ sent /\
            Forall blind_write sent /\
            (length sent <= length entries)%nat
    end.
Proof.
  intros env rt submissionId [entries|] tok s w.
  - apply uploadImages_result.
  - destruct (uploadImages_without_files submissionId tok s w)
      as (w' & Hrun & Hsent).
    exists (TypeError "cannot convert to object"), w'. split; assumption.
Qed.

(** ** A submission that went through *)

Section SubmissionWritten.

Context {env : Environment} {rt : Runtime}.

Lemma esh_saveToDataFile_appends submission tok s w s' w' :
  EnhancedSubmissionHandler.saveToDataFile submission tok s w
  = (Ok tt, s', w') ->
  exists get put encoded document old,
    s' = s /\
    requests w' = requests w ++ [get; put] /\
    req_method put = PUT /\
    req_url put = EnhancedSubmissionHandler.data_json_url /\
    content_sent put = VStr encoded /\
    encode (JSON_stringify2 document) = Some encoded /\
    field document "agents" = VArr (old ++ [submission]).
Proof.
  intros H. revert H.
  unfold EnhancedSubmissionHandler.saveToDataFile, encode,
    try_catch, bind, this, fetch, json, prop, ret, throw, btoa_utf8, js_btoa,
    js_atob, js_parse, push, now_iso, Date_now, console_write, set_world, ok.
  simpl.
  match goal with
  | |- context [server (requests w ++ [?g])] =>
      set (get := g);
      destruct (server (requests w ++ [get])) as [msg|st txt [data|]]
  end; simpl.
  all: crunch.
  all: try (intros H; discriminate H).
  all: try match goal with
       | |- context [match field ?v "agents" with _ => _ end] =>
           destruct (field v "agents") as [| | | | |old|] eqn:Hagents; simpl
       end.
  all: crunch.
  all: try (intros H; discriminate H).
  all: intros H; inversion H; subst; clear H.
  all: exists get; do 2 eexists.
  all: first [ eexists; exists old | eexists; exists (@nil value) ].
  all: split; [reflexivity|].
  all: split; [simpl; rewrite <- app_assoc; reflexivity|].
  all: split; [reflexivity|]; split; [reflexivity|].
  all: split; [unfold content_sent; cbn [req_body]; apply content_field|].
  all: split; [match goal with
               | H : utf8_bytes _ = Some ?b, H' : btoa ?b = Some _ |- _ =>
                   rewrite H; exact H'
               end|].
  all: first [ reflexivity
             | unfold field; rewrite lookup_assign_neq by reflexivity;
               now rewrite lookup_assign_eq ].
Qed.

End SubmissionWritten.

(** X17. What a successful [handleSubmission] has written.  The call
    returns only for a form that [validateFormData] lets through.  Its
    last request is then the PUT of [data.json], whose document ends, in
    [agents], with the record of this submission: the eleven fields of
    the form as given, the identifier that the call returns,
    [tradingName] made of [SC] and the personal number, the status
    [pending] and both verification marks [false].  Each of its three
    image addresses is either empty or the address of a raw file. *)
Theorem handleSubmission_writes_the_record_it_reports :
  forall (env : Environment) (rt : Runtime) (formData : value)
         (imageFiles : option (list (string * option File)))
         (s : EnhancedSubmissionHandler.t) (w : world) (result : value)
         (s' : EnhancedSubmissionHandler.t) (w' : world),
    EnhancedSubmissionHandler.handleSubmission formData imageFiles s w
    = (Ok result, s', w') ->
    valid_form formData /\
    exists put encoded document old record,
      last_request (requests w') = Some put /\
      req_method put = PUT /\
      req_url put = EnhancedSubmissionHandler.data_json_url /\
      content_sent put = VStr encoded /\
      encode (JSON_stringify2 document) = Some encoded /\
      field document "agents" = VArr (old ++ [record]) /\
      result = VObj [("success", VBool true);
                     ("submissionId", field record "id")] /\
      (forall name,
         In name EnhancedSubmissionHandler.required ->
         field record name = field formData name) /\
      field record "tradingName"
      = VStr ("SC" ++ to_string (field formData "personalNumber")) /\
      field record "status" = VStr "pending" /\
      field record "emailVerified" = VBool false /\
      field record "adminVerified" = VBool false /\
      (forall name,
         In name ["idFrontUrl"; "idBackUrl"; "agentPhotoUrl"]%string ->
         exists address,
           field record name = VStr address /\
           (address = ""%string \/
            prefix EnhancedSubmissionHandler.raw_base address = true)).
Proof.
  intros env rt formData imageFiles s w result s' w' H.
  unfold EnhancedSubmissionHandler.handleSubmission in H.
  apply try_rethrow_Ok in H.
  2: { intros e s1 w1. do 3 eexists. reflexivity. }
  apply bind_inv_Ok in H as (config & sa & wa & H0 & H).
  apply bind_inv_Ok in H as (tok & sb & wb & H1 & H).
  destruct (truthy tok) eqn:Htok; [|discriminate H]. cbn [negb] in H.
  apply bind_inv_Ok in H as (inited & sc & wc & H2 & H).
  apply bind_inv_Ok in H as (u0 & sd & wd & H3 & H).
  assert (Hvalid : valid_form formData /\ sd = sc /\ wd = wc).
  { destruct (nullish formData) eqn:Hn.
    - destruct (validateFormData_nullish formData sc wc Hn) as [e He].
      congruence.
    - rewrite (validateFormData_result formData sc wc Hn) in H3.
      destruct (first_missing formData EnhancedSubmissionHandler.required)
        eqn:Hfirst; [discriminate|].
      destruct (matches emailRegex (to_string (field formData "email")))
        eqn:Hm; [|discriminate].
      inversion H3; subst. split; [|auto]. split.
      + now apply first_missing_none.
      + now apply emailRegex_shape. }
  destruct Hvalid as (Hvalid & -> & ->). split; [exact Hvalid|].
  apply bind_inv_Ok in H as (stamp & se & we & H4 & H).
  apply bind_inv_Ok in H as (suffix & sf & wf & H5 & H).
  apply bind_inv_Ok in H as (submissionDate & sg & wg & H6 & H).
  apply bind_inv_Ok in H as (u1 & sh & wh & H7 & H).
  apply bind_inv_Ok in H as (imageUrls & si & wi & H8 & H).
  apply bind_inv_Ok in H as (u2 & sj & wj & H9 & H).
  apply bind_inv_Ok in H as (u3 & sk & wk & H10 & H).
  unfold ret in H. inversion H; subst result s' w'. clear H.
  destruct u3.
  destruct (esh_saveToDataFile_appends _ _ _ _ _ _ H10)
    as (get & put & encoded & document & old & -> & Rq & Pm & Pu & Pc & Pe
        & Pa).
  match type of Pa with
  | _ = VArr (_ ++ [?r]) => set (record := r) in *
  end.
  destruct imageFiles as [imageFiles|].
  2: { destruct (uploadImages_without_files
                   ("AGENT-" ++ dec stamp ++ "-" ++ suffix)%string
                   tok sh wh) as (wu & Hup & _).
       rewrite Hup in H8. discriminate H8. }
  destruct (uploadImages_result
              ("AGENT-" ++ dec stamp ++ "-" ++ suffix)%string
              imageFiles tok sh wh)
    as (urls & wu & Hup & Hurls & _).
  rewrite Hup in H8. inversion H8; subst imageUrls si wi. clear H8.
  exists put, encoded, document, old, record.
  split.
  { rewrite Rq. clear. induction (requests wj) as [|q l IH]; [reflexivity|].
    simpl. destruct (l ++ [get; put]) eqn:E; [|exact IH].
    destruct l; discriminate. }
  split; [exact Pm|]. split; [exact Pu|]. split; [exact Pc|].
  split; [exact Pe|]. split; [exact Pa|].
  split; [reflexivity|].
  split.
  { intros name Hin. unfold EnhancedSubmissionHandler.required in Hin.
    simpl in Hin.
    repeat (destruct Hin as [<-|Hin]; [reflexivity|]). contradiction. }
  split; [reflexivity|]. split; [reflexivity|].
  split; [reflexivity|]. split; [reflexivity|].
  assert (Haddr : forall key,
            exists address,
              js_or (field (VObj urls) key) (VStr "") = VStr address /\
              (address = ""%string \/
               prefix EnhancedSubmissionHandler.raw_base address = true)).
  { intros key. unfold js_or, field.
    destruct (lookup key urls) as [url|] eqn:Hl.
    - destruct (Hurls key url Hl) as [_ ->]. simpl.
      eexists. split; [reflexivity|]. right.
      unfold EnhancedSubmissionHandler.raw_base. simpl.
      now destruct (_ ++ _)%string.
    - simpl. exists ""%string. auto. }
  intros name Hin. simpl in Hin.
  destruct Hin as [<-|[<-|[<-|[]]]].
  - destruct (Haddr "idFront"%string) as (a & Ha & Hp).
    exists a. split; [|exact Hp]. unfold record. simpl. exact Ha.
  - destruct (Haddr "idBack"%string) as (a & Ha & Hp).
    exists a. split; [|exact Hp]. unfold record. simpl. exact Ha.
  - destruct (Haddr "agentPhoto"%string) as (a & Ha & Hp).
    exists a. split; [|exact Hp]. unfold record. simpl. exact Ha.
Qed.

(** ** Computations that always return *)

Section Returns.

Context {S : Type}.
Variable P : S -> S -> Prop.
Variable Q : world -> world -> Prop.
Hypothesis P_refl : forall s, P s s.
Hypothesis P_trans : forall a b c, P a b -> P b c -> P a c.
Hypothesis Q_refl : forall w, Q w w.
Hypothesis Q_trans : forall a b c, Q a b -> Q b c -> Q a c.

Lemma returns_ret {A} (a : A) : returns_with P Q (ret a).
Proof. intros s w. exists a, s, w. auto. Qed.

Lemma returns_bind {A B} (m : M S A) (k : A -> M S B) :
  returns_with P Q m -> (forall a, returns_with P Q (k a)) ->
  returns_with P Q (bind m k).
Proof.
  intros Hm Hk s w.
  destruct (Hm s w) as (a & s1 & w1 & H1 & P1 & Q1).
  destruct (Hk a s1 w1) as (b & s2 & w2 & H2 & P2 & Q2).
  exists b, s2, w2. split; [|eauto].
  erewrite bind_Ok by exact H1. exact H2.
Qed.

Lemma returns_try {A} (m : M S A) (h : exn -> M S A) :
  returns_with P Q m -> returns_with P Q (try_catch m h).
Proof.
  intros Hm s w. destruct (Hm s w) as (a & s1 & w1 & H1 & P1 & Q1).
  exists a, s1, w1. split; [|auto]. now apply try_Ok.
Qed.

Lemma returns_this : returns_with P Q this.
Proof. intros s w. exists s, s, w. auto. Qed.

End Returns.

Lemma rt_polling_refl s : rt_polling s s.
Proof. split; reflexivity. Qed.

Lemma rt_polling_trans a b c : rt_polling a b -> rt_polling b c -> rt_polling a c.
Proof. unfold rt_polling. intuition congruence. Qed.

Lemma ds_polling_refl s : ds_polling s s.
Proof. repeat split; reflexivity. Qed.

Lemma ds_polling_trans a b c : ds_polling a b -> ds_polling b c -> ds_polling a c.
Proof. unfold ds_polling. intuition congruence. Qed.

Lemma same_timers_refl w : same_timers w w.
Proof. reflexivity. Qed.

Lemma same_timers_trans a b c :
  same_timers a b -> same_timers b c -> same_timers a c.
Proof. unfold same_timers. congruence. Qed.

Create HintDb polling.

#[local] Hint Resolve rt_polling_refl rt_polling_trans ds_polling_refl
  ds_polling_trans same_timers_refl same_timers_trans : polling.

Section PollingChains.

Context {env : Environment} {rt : Runtime}.

Lemma rt_console_returns l text args :
  returns_with rt_polling same_timers
    (console_write (S := RealTimeService.t) l text args).
Proof.
  intros s w. do 3 eexists. split; [reflexivity|].
  split; [apply rt_polling_refl|unfold same_timers; reflexivity].
Qed.

Lemma ds_console_returns l text args :
  returns_with ds_polling same_timers
    (console_write (S := DataSyncService.t) l text args).
Proof.
  intros s w. do 3 eexists. split; [reflexivity|].
  split; [unfold ds_polling; simpl; auto|unfold same_timers; reflexivity].
Qed.

Lemma rt_getFile_returns filePath :
  returns_with rt_polling same_timers (RealTimeService.getFile filePath).
Proof.
  intros s w. destruct (rt_getFile_total filePath s w) as (c & w' & H & Hs).
  exists c, s, w'. split; [exact H|]. split; [apply rt_polling_refl|apply Hs].
Qed.

Lemma rt_notify_returns data type :
  returns_with rt_polling same_timers
    (RealTimeService.notifySubscribers data type).
Proof.
  intros s w.
  destruct (rt_notifySubscribers_trace data type s w)
    as (s' & w' & outs & H & [l ->] & Hq & _).
  exists tt, (RealTimeService.set_subscribers l s), w'.
  split; [exact H|]. split; [unfold rt_polling; simpl; auto|apply Hq].
Qed.

Lemma rt_hasRepositoryChanged_returns :
  returns_with rt_polling same_timers RealTimeService.hasRepositoryChanged.
Proof.
  intros s w.
  destruct (rt_getBranchSHA_total s w) as (sha & w0 & H & _ & Hs).
  rewrite (rt_hasRepositoryChanged_spec s w sha w0 H).
  destruct (truthy sha); do 3 eexists; (split; [reflexivity|]);
    (split; [unfold rt_polling; simpl; auto|apply Hs]).
Qed.

Lemma rt_poll_rearms s w :
  RealTimeService.isPolling s = true ->
  exists s' w',
    RealTimeService.poll s w = (Ok tt, s', w') /\
    rt_polling s s' /\
    timers w' = timers w ++ [RealTimeService.pollingInterval s].
Proof.
  intros Hp. unfold RealTimeService.poll.
  unfold bind at 1, this at 1. rewrite Hp. simpl.
  match goal with
  | |- context [bind (try_catch ?m ?h) _ s w] =>
      assert (Hbody : returns_with rt_polling same_timers (try_catch m h))
  end.
  { apply returns_try.
    apply returns_bind; eauto with polling.
    - apply rt_hasRepositoryChanged_returns.
    - intros [|]; [|apply returns_ret; eauto with polling].
      apply returns_bind; eauto with polling;
        [apply rt_console_returns|intros _].
      apply returns_bind; eauto with polling;
        [apply rt_getFile_returns|intros submissions].
      apply returns_bind; eauto with polling.
      + destruct (truthy submissions);
          [apply rt_notify_returns|apply returns_ret; eauto with polling].
      + intros _. apply returns_bind; eauto with polling;
          [apply rt_getFile_returns|intros agents].
        destruct (truthy agents);
          [apply rt_notify_returns|apply returns_ret; eauto with polling]. }
  destruct (Hbody s w) as (u & s1 & w1 & H1 & P1 & Q1).
  destruct u.
  erewrite bind_Ok by exact H1.
  unfold bind, this, setTimeout, set_world. simpl.
  do 2 eexists. split; [reflexivity|]. split; [exact P1|].
  simpl. pose proof P1 as [_ Hi]. rewrite Hi. now rewrite Q1.
Qed.

Lemma ds_getFileSHA_returns filePath :
  returns_with ds_polling same_timers (DataSyncService.getFileSHA filePath).
Proof.
  intros s w.
  destruct (ds_getFileSHA_total filePath s w) as (sha & H).
  do 3 eexists. split; [exact H|].
  split; [apply ds_polling_refl|reflexivity].
Qed.

Lemma ds_getFileContent_returns filePath :
  returns_with ds_polling same_timers
    (DataSyncService.getFileContent filePath).
Proof.
  intros s w.
  destruct (ds_getFileContent_total filePath s w) as (c & w' & H & _ & Hs).
  exists c, s, w'. split; [exact H|].
  split; [apply ds_polling_refl|apply Hs].
Qed.

Lemma ds_notify_returns data type :
  returns_with ds_polling same_timers
    (DataSyncService.notifySubscribers data type).
Proof.
  intros s w.
  destruct (ds_notifySubscribers_trace data type s w)
    as (s' & w' & outs & H & [l ->] & Hq & _).
  exists tt, (DataSyncService.set_subscribers l s), w'.
  split; [exact H|]. split; [unfold ds_polling; simpl; auto|apply Hq].
Qed.

Lemma ds_checkForChanges_returns :
  returns_with ds_polling same_timers DataSyncService.checkForChanges.
Proof.
  unfold DataSyncService.checkForChanges. apply returns_try.
  apply returns_bind; eauto with polling;
    [apply ds_getFileSHA_returns|intros dataSHA].
  apply returns_bind; eauto with polling;
    [apply returns_this; eauto with polling|intros s1].
  apply returns_bind; eauto with polling.
  - destruct (_ && _); [|apply returns_ret; eauto with polling].
    apply returns_bind; eauto with polling.
    + intros s w. do 3 eexists. split; [reflexivity|].
      split; [unfold ds_polling; simpl; auto|unfold same_timers; reflexivity].
    + intros _. apply returns_bind; eauto with polling;
        [apply ds_getFileContent_returns|intros data].
      apply ds_notify_returns.
  - intros _.
    apply returns_bind; eauto with polling;
      [apply ds_getFileSHA_returns|intros agentsSHA].
    apply returns_bind; eauto with polling;
      [apply returns_this; eauto with polling|intros s2].
    destruct (_ && _); [|apply returns_ret; eauto with polling].
    apply returns_bind; eauto with polling.
    + intros s w. do 3 eexists. split; [reflexivity|].
      split; [unfold ds_polling; simpl; auto|unfold same_timers; reflexivity].
    + intros _. apply returns_bind; eauto with polling;
        [apply ds_getFileContent_returns|intros data].
      apply ds_notify_returns.
Qed.

Lemma ds_poll_rearms s w :
  DataSyncService.isPolling s = true ->
  exists s' w',
    DataSyncService.poll s w = (Ok tt, s', w') /\
    ds_polling s s' /\
    timers w' = timers w ++ [DataSyncService.pollingInterval s].
Proof.
  intros Hp. unfold DataSyncService.poll.
  unfold bind at 1, this at 1. rewrite Hp. simpl.
  destruct (ds_checkForChanges_returns s w) as (u & s1 & w1 & H1 & P1 & Q1).
  destruct u.
  erewrite bind_Ok by exact H1.
  unfold bind, this, setTimeout, set_world. simpl.
  do 2 eexists. split; [reflexivity|]. split; [exact P1|].
  simpl. pose proof P1 as (_ & Hi & _). rewrite Hi. now rewrite Q1.
Qed.

End PollingChains.

Section Restart.

Context {env : Environment} {rt : Runtime}.

Lemma rt_start s w :
  RealTimeService.isPolling s = false ->
  exists s' w',
    RealTimeService.startRealTimePolling s w = (Ok tt, s', w') /\
    RealTimeService.isPolling s' = true /\
    RealTimeService.pollingInterval s' = RealTimeService.pollingInterval s /\
    timers w' = timers w ++ [RealTimeService.pollingInterval s].
Proof.
  intros Hp. unfold RealTimeService.startRealTimePolling.
  unfold bind at 1, this at 1. rewrite Hp.
  unfold bind at 1, set_this at 1. unfold bind at 1, console_write, set_world.
  match goal with
  | |- context [RealTimeService.poll ?s1 ?w1] =>
      destruct (rt_poll_rearms s1 w1 eq_refl) as (s' & w' & H & [Hi Hd] & Ht)
  end.
  exists s', w'. split; [exact H|]. simpl in *. rewrite Hi, Hd, Ht. auto.
Qed.

Lemma ds_start s w :
  DataSyncService.isPolling s = false ->
  truthy (DataSyncService.token s) = true ->
  exists s' w',
    DataSyncService.startPolling s w = (Ok tt, s', w') /\
    DataSyncService.isPolling s' = true /\
    DataSyncService.pollingInterval s' = DataSyncService.pollingInterval s /\
    DataSyncService.token s' = DataSyncService.token s /\
    timers w' = timers w ++ [DataSyncService.pollingInterval s].
Proof.
  intros Hp Ht. unfold DataSyncService.startPolling.
  unfold bind at 1, this at 1. rewrite Hp, Ht. simpl.
  unfold bind at 1, set_this at 1. unfold bind at 1, console_write, set_world.
  match goal with
  | |- context [DataSyncService.poll ?s1 ?w1] =>
      destruct (ds_poll_rearms s1 w1 eq_refl)
        as (s' & w' & H & (Hi & Hd & Hk) & Htm)
  end.
  exists s', w'. split; [exact H|]. simpl in *. rewrite Hi, Hd, Hk, Htm. auto.
Qed.

End Restart.

(** X4. The life of a polling chain, for [RealTimeService] and for
    [DataSyncService].
    - A poll that fires on a service that is polling always returns,
      leaves the service polling and arms exactly one timer, for the next
      poll: a chain never ends by itself.
    - A poll that fires once polling was stopped does nothing and arms
      nothing: the chain ends there.
    - Stopping and starting again before the pending poll has fired
      leaves the service polling with two timers armed: the poll of the
      first chain finds the service polling when it fires, so from then
      on two chains poll side by side.  ([DataSyncService.startPolling]
      starts only a service that has a token.) *)
Theorem restarting_before_the_poll_fires_doubles_the_chain :
  forall (env : Environment) (rt : Runtime),
    (forall (s : RealTimeService.t) (w : world),
       (RealTimeService.isPolling s = true ->
        exists s' w',
          RealTimeService.poll s w = (Ok tt, s', w') /\
          RealTimeService.isPolling s' = true /\
          timers w' = timers w ++ [RealTimeService.pollingInterval s]) /\
       (RealTimeService.isPolling s = false ->
        RealTimeService.poll s w = (Ok tt, s, w) /\
        exists s' w',
          (RealTimeService.startRealTimePolling ;;
           RealTimeService.stopRealTimePolling ;;
           RealTimeService.startRealTimePolling) s w = (Ok tt, s', w') /\
          RealTimeService.isPolling s' = true /\
          timers w' = timers w ++ [RealTimeService.pollingInterval s;
                                   RealTimeService.pollingInterval s]))
    /\
    (forall (s : DataSyncService.t) (w : world),
       (DataSyncService.isPolling s = true ->
        exists s' w',
          DataSyncService.poll s w = (Ok tt, s', w') /\
          DataSyncService.isPolling s' = true /\
          timers w' = timers w ++ [DataSyncService.pollingInterval s]) /\
       (DataSyncService.isPolling s = false ->
        DataSyncService.poll s w = (Ok tt, s, w) /\
        (truthy (DataSyncService.token s) = true ->
         exists s' w',
           (DataSyncService.startPolling ;;
            DataSyncService.stopPolling ;;
            DataSyncService.startPolling) s w = (Ok tt, s', w') /\
           DataSyncService.isPolling s' = true /\
           timers w' = timers w ++ [DataSyncService.pollingInterval s;
                                    DataSyncService.pollingInterval s]))).
Proof.
  intros env rt. split; intros s w; split.
  - intros Hp.
    destruct (rt_poll_rearms s w Hp) as (s' & w' & H & [Hi _] & Ht).
    exists s', w'. rewrite Hi. auto.
  - intros Hp. split.
    { unfold RealTimeService.poll, bind, this. now rewrite Hp. }
    destruct (rt_start s w Hp) as (s1 & w1 & H1 & P1 & I1 & T1).
    erewrite bind_Ok by exact H1.
    unfold bind at 1, RealTimeService.stopRealTimePolling.
    unfold bind at 1, set_this at 1, console_write, set_world.
    match goal with
    | |- context [RealTimeService.startRealTimePolling ?s2 ?w2] =>
        destruct (rt_start s2 w2 eq_refl) as (s3 & w3 & H3 & P3 & I3 & T3)
    end.
    exists s3, w3. split; [exact H3|]. split; [exact P3|].
    rewrite T3. simpl. rewrite T1, I1, <- app_assoc. reflexivity.
  - intros Hp.
    destruct (ds_poll_rearms s w Hp) as (s' & w' & H & (Hi & _) & Ht).
    exists s', w'. rewrite Hi. auto.
  - intros Hp. split.
    { unfold DataSyncService.poll, bind, this. now rewrite Hp. }
    intros Htok.
    destruct (ds_start s w Hp Htok) as (s1 & w1 & H1 & P1 & I1 & K1 & T1).
    erewrite bind_Ok by exact H1.
    unfold bind at 1, DataSyncService.stopPolling, set_this at 1.
    match goal with
    | |- context [DataSyncService.startPolling ?s2 ?w2] =>
        destruct (ds_start s2 w2 eq_refl) as (s3 & w3 & H3 & P3 & I3 & _ & T3)
    end.
    { simpl. rewrite K1. exact Htok. }
    exists s3, w3. split; [exact H3|]. split; [exact P3|].
    rewrite T3. simpl. rewrite T1, I1, <- app_assoc. reflexivity.
Qed.

(** ** Leaving the list of subscribers *)

(** X5. The closure that [subscribe(c)] returns removes every
    registration of [c], not only the one it was returned for: once it
    has run, whatever callbacks were registered and however often [c] was
    among them, [notifySubscribers] returns normally and calls the other
    registered callbacks, each as often as it was registered and in
    registration order, and does not call [c].  This holds for
    [RealTimeService] and for [DataSyncService]. *)
Theorem unsubscribe_removes_every_registration :
  forall (env : Environment) (callbacks : list cbid) (c : cbid)
         (data : value) (type : string) (w : world),
    (forall s0 : RealTimeService.t,
       exists s s' w',
         (forEach callbacks RealTimeService.subscribe ;;
          RealTimeService.unsubscribe c) s0 w = (Ok tt, s, w) /\
         RealTimeService.notifySubscribers data type s w = (Ok tt, s', w') /\
         invoked (calls w')
         = invoked (calls w)
           ++ notify_all
                (others c (RealTimeService.subscribers s0 ++ callbacks))
                data type /\
         ~ In c (others c (RealTimeService.subscribers s0 ++ callbacks)))
    /\
    (forall s0 : DataSyncService.t,
       exists s s' w',
         (forEach callbacks DataSyncService.subscribe ;;
          DataSyncService.unsubscribe c) s0 w = (Ok tt, s, w) /\
         DataSyncService.notifySubscribers data type s w = (Ok tt, s', w') /\
         invoked (calls w')
         = invoked (calls w)
           ++ notify_all
                (others c (DataSyncService.subscribers s0 ++ callbacks))
                data type /\
         ~ In c (others c (DataSyncService.subscribers s0 ++ callbacks))).
Proof.
  intros env callbacks c data type w.
  assert (Hout : forall l, ~ In c (others c l)).
  { intros l Hin. apply filter_In in Hin as [_ Hc].
    now rewrite Nat.eqb_refl in Hc. }
  split; intros s0.
  - destruct (rt_subscribe_all callbacks s0 w) as (s1 & H1 & E1).
    set (s := RealTimeService.set_subscribers
                (others c (RealTimeService.subscribers s1)) s1).
    destruct (rt_notifySubscribers_trace data type s w)
      as (s' & w' & outs & Hn & _ & _ & Hl & Hc).
    exists s, s', w'. split; [|split; [exact Hn|split; [|apply Hout]]].
    + erewrite bind_Ok by exact H1. reflexivity.
    + rewrite Hc, invoked_app, invoked_notification, map_fst_combine
        by exact Hl.
      unfold s. simpl. now rewrite E1.
  - destruct (ds_subscribe_all callbacks s0 w) as (s1 & H1 & E1).
    set (s := DataSyncService.set_subscribers
                (others c (DataSyncService.subscribers s1)) s1).
    destruct (ds_notifySubscribers_trace data type s w)
      as (s' & w' & outs & Hn & _ & _ & Hl & Hc).
    exists s, s', w'. split; [|split; [exact Hn|split; [|apply Hout]]].
    + erewrite bind_Ok by exact H1. reflexivity.
    + rewrite Hc, invoked_app, invoked_notification, map_fst_combine
        by exact Hl.
      unfold s. simpl. now rewrite E1.
Qed.

(** ** Writes of [RealTimeService] *)

Section RealTimeWrites.

Context {env : Environment} {rt : Runtime}.

(** What a successful [saveFile] has done. *)
Lemma rt_saveFile_Ok filePath content message s w v s' w' :
  RealTimeService.saveFile filePath content message s w = (Ok v, s', w') ->
  s' = RealTimeService.set_lastKnownHash (field v "sha") s /\
  field v "success" = VBool true /\
  silent w w' /\ console w' = console w /\
  exists put text,
    requests w'
    = requests w ++ [RealTimeService.read_request s filePath; put] /\
    req_method put = PUT /\
    req_url put = RealTimeService.contents_url s filePath /\
    encode (JSON_stringify2 content) = Some text /\
    content_sent put = VStr text /\
    field (match req_body put with Some b => b | None => VNull end) "message"
    = VStr message.
Proof.
  unfold RealTimeService.saveFile, encode, try_catch,
    bind, this, set_this, fetch, json, prop, ret, throw, btoa_utf8, js_btoa,
    console_write, set_world, ok, content_sent, silent.
  simpl.
  destruct (server (requests w ++ [RealTimeService.read_request s filePath]))
    as [msg|st txt [data|]] eqn:Hget; simpl.
  all: crunch.
  all: intros H; inversion H; subst; clear H; simpl.
  all: rewrite <- ?app_assoc; simpl.
  all: split; [reflexivity|]; split; [reflexivity|].
  all: split; [auto 10|]; split; [reflexivity|].
  all: do 2 eexists; split; [reflexivity|]; simpl.
  all: auto 10.
Qed.

End RealTimeWrites.

(** X6. A [RealTimeService] does not announce its own writes.  A
    successful [saveFile] records the commit that the server reports for
    the write ([data.commit.sha], returned as [sha]); when that is a
    SHA, a later poll that finds the head of the branch at that commit
    returns normally after
    the one request for the head: it fetches no file, calls no
    subscriber, and the record stays. *)
Theorem saveFile_records_its_commit :
  forall (env : Environment) (rt : Runtime) (filePath : string)
         (content : value) (message : string)
         (s : RealTimeService.t) (w : world) (v : value)
         (s1 : RealTimeService.t) (w1 : world),
    RealTimeService.saveFile filePath content message s w = (Ok v, s1, w1) ->
    RealTimeService.lastKnownHash s1 = field v "sha" /\
    forall w2 w0,
      RealTimeService.isPolling s1 = true ->
      is_sha (field v "sha") ->
      RealTimeService.getBranchSHA s1 w2 = (Ok (field v "sha"), s1, w0) ->
      exists s' w',
        RealTimeService.poll s1 w2 = (Ok tt, s', w') /\
        requests w' = requests w2 ++ [branch_request s1] /\
        calls w' = calls w2 /\
        RealTimeService.lastKnownHash s' = field v "sha".
Proof.
  intros env rt filePath content message s w v s1 w1 Hsave.
  destruct (rt_saveFile_Ok _ _ _ _ _ _ _ _ Hsave) as (-> & _).
  split; [reflexivity|]. intros w2 w0 Hp Hsha Hhead.
  pose proof (rt_hasRepositoryChanged_spec _ _ _ _ Hhead) as Hchg.
  destruct (rt_getBranchSHA_total
              (RealTimeService.set_lastKnownHash (field v "sha") s) w2)
    as (sha & wa & Hget & Hreq & Hsil).
  rewrite Hhead in Hget. inversion Hget; subst sha wa. clear Hget.
  unfold RealTimeService.poll.
  unfold bind at 1, this at 1. rewrite Hp.
  change (negb true) with false. cbv iota.
  simpl RealTimeService.lastKnownHash in Hchg.
  rewrite (is_sha_truthy _ Hsha), (sha_same _ Hsha) in Hchg.
  simpl in Hchg.
  unfold try_catch, bind. cbv beta. rewrite Hchg.
  unfold ret, this, setTimeout, set_world. simpl.
  do 2 eexists. split; [reflexivity|]. simpl.
  split; [exact Hreq|]. split; [apply Hsil|reflexivity].
Qed.

(** ** Computations that keep their object *)

Section Keeps.

Context {S : Type}.
Variable Q : S -> world -> world -> Prop.
Hypothesis Q_refl : forall s w, Q s w w.
Hypothesis Q_trans : forall s a b c, Q s a b -> Q s b c -> Q s a c.

Lemma keeps_ret {A} (a : A) : keeps Q (ret a).
Proof. intros s w. exists (Ok a), w. auto. Qed.

Lemma keeps_throw {A} (e : exn) : keeps Q (throw (A := A) e).
Proof. intros s w. exists (Throw e), w. auto. Qed.

Lemma fails_throw {A} (e : exn) : fails Q (throw (A := A) e).
Proof. intros s w. exists e, w. auto. Qed.

Lemma keeps_bind {A B} (m : M S A) (k : A -> M S B) :
  keeps Q m -> (forall a, keeps Q (k a)) -> keeps Q (bind m k).
Proof.
  intros Hm Hk s w. destruct (Hm s w) as ([a|e] & w1 & H1 & Q1).
  - destruct (Hk a s w1) as (r & w2 & H2 & Q2).
    exists r, w2. split; [|eauto]. erewrite bind_Ok by exact H1. exact H2.
  - exists (Throw e), w1. split; [|exact Q1]. now apply bind_Throw.
Qed.

Lemma keeps_try {A} (m : M S A) (h : exn -> M S A) :
  keeps Q m -> (forall e, keeps Q (h e)) -> keeps Q (try_catch m h).
Proof.
  intros Hm Hh s w. destruct (Hm s w) as ([a|e] & w1 & H1 & Q1).
  - exists (Ok a), w1. split; [|exact Q1]. now apply try_Ok.
  - destruct (Hh e s w1) as (r & w2 & H2 & Q2).
    exists r, w2. split; [|eauto]. erewrite try_Throw by exact H1. exact H2.
Qed.

Lemma fails_bind {A B} (m : M S A) (k : A -> M S B) :
  keeps Q m -> (forall a, fails Q (k a)) -> fails Q (bind m k).
Proof.
  intros Hm Hk s w. destruct (Hm s w) as ([a|e] & w1 & H1 & Q1).
  - destruct (Hk a s w1) as (e & w2 & H2 & Q2).
    exists e, w2. split; [|eauto]. erewrite bind_Ok by exact H1. exact H2.
  - exists e, w1. split; [|exact Q1]. now apply bind_Throw.
Qed.

Lemma fails_first {A B} (m : M S A) (k : A -> M S B) :
  fails Q m -> fails Q (bind m k).
Proof.
  intros Hm s w. destruct (Hm s w) as (e & w1 & H1 & Q1).
  exists e, w1. split; [|exact Q1]. now apply bind_Throw.
Qed.

Lemma fails_try {A} (m : M S A) (h : exn -> M S A) :
  fails Q m -> (forall e, fails Q (h e)) -> fails Q (try_catch m h).
Proof.
  intros Hm Hh s w. destruct (Hm s w) as (e & w1 & H1 & Q1).
  destruct (Hh e s w1) as (e' & w2 & H2 & Q2).
  exists e', w2. split; [|eauto]. erewrite try_Throw by exact H1. exact H2.
Qed.

End Keeps.

Lemma uploads_only_refl s w : uploads_only s w w.
Proof.
  split; [reflexivity|]. split; [reflexivity|].
  exists []. now rewrite app_nil_r.
Qed.

Lemma uploads_only_trans s a b c :
  uploads_only s a b -> uploads_only s b c -> uploads_only s a c.
Proof.
  intros (C1 & T1 & l1 & R1 & F1) (C2 & T2 & l2 & R2 & F2).
  split; [congruence|]. split; [congruence|].
  exists (l1 ++ l2). split; [now rewrite R2, R1, app_assoc|].
  now apply Forall_app.
Qed.

Create HintDb uploads.

#[local] Hint Resolve uploads_only_refl uploads_only_trans : uploads.

Section SubmitAgentData.

Context {env : Environment} {rt : Runtime}.

Lemma rt_console_keeps l text args :
  keeps uploads_only (console_write (S := RealTimeService.t) l text args).
Proof.
  intros s w. do 2 eexists. split; [reflexivity|].
  split; [reflexivity|]. split; [reflexivity|].
  exists []. simpl. now rewrite app_nil_r.
Qed.

Lemma rt_prop_keeps v k :
  keeps uploads_only (prop (S := RealTimeService.t) v k).
Proof.
  unfold prop. destruct (nullish v);
    [apply keeps_throw|apply keeps_ret]; eauto with uploads.
Qed.

Lemma rt_now_iso_keeps :
  keeps uploads_only (now_iso (S := RealTimeService.t)).
Proof.
  intros s w. do 2 eexists. split; [reflexivity|].
  split; [reflexivity|]. split; [reflexivity|].
  exists []. simpl. now rewrite app_nil_r.
Qed.

Lemma rt_Date_now_keeps :
  keeps uploads_only (Date_now (S := RealTimeService.t)).
Proof.
  intros s w. do 2 eexists. split; [reflexivity|].
  split; [reflexivity|]. split; [reflexivity|].
  exists []. simpl. now rewrite app_nil_r.
Qed.

Lemma rt_uploadImage_keeps imageData fileName :
  keeps uploads_only (RealTimeService.uploadImage imageData fileName "images").
Proof.
  intros s w.
  unfold RealTimeService.uploadImage, try_catch, bind, this, split_second,
    fetch, json, prop, ret, throw, console_write, set_world, uploads_only.
  destruct imageData; simpl.
  all: crunch.
  all: do 2 eexists; split; [reflexivity|]; simpl.
  all: split; [reflexivity|]; split; [reflexivity|].
  all: first [ exists []; split; [now rewrite app_nil_r|constructor]
             | eexists; split; [reflexivity|];
               constructor; [|constructor];
               split; [reflexivity|]; eexists; reflexivity ].
Qed.

Lemma rt_upload_one_keeps images key name timestamp urls :
  keeps uploads_only
    (RealTimeService.upload_one images key name timestamp urls).
Proof.
  unfold RealTimeService.upload_one.
  destruct (truthy (field images key)).
  - apply keeps_bind; eauto with uploads.
    + apply rt_uploadImage_keeps.
    + intros a. apply keeps_ret; eauto with uploads.
  - apply keeps_ret; eauto with uploads.
Qed.

(** The part of [submitAgentData] that uploads the images. *)
Lemma rt_uploads_keep images :
  keeps uploads_only
    (if truthy images then
       timestamp <- Date_now ;;
       urls <- RealTimeService.upload_one images "idFront" "id-front-"
                 timestamp [] ;;
       urls <- RealTimeService.upload_one images "idBack" "id-back-"
                 timestamp urls ;;
       RealTimeService.upload_one images "agentPhoto" "agent-photo-"
         timestamp urls
     else ret []).
Proof.
  destruct (truthy images); [|apply keeps_ret; eauto with uploads].
  apply keeps_bind; eauto with uploads; [apply rt_Date_now_keeps|intros t].
  apply keeps_bind; eauto with uploads; [apply rt_upload_one_keeps|intros u1].
  apply keeps_bind; eauto with uploads; [apply rt_upload_one_keeps|intros u2].
  apply rt_upload_one_keeps.
Qed.

End SubmitAgentData.

(** X7. [submitAgentData] cannot give a submission an identifier.  The
    fallback [SUB-<timestamp>] reads a constant that is declared inside
    the block of [if (submission.images)] and is out of scope where it
    is read: for every submission whose [id] is empty or missing the call
    throws, whatever the server answers.  By then the images have been
    uploaded: every request sent is the PUT of an image, [submissions.json]
    was neither read nor written, and no subscriber was called. *)
Theorem submitAgentData_needs_an_id :
  forall (env : Environment) (rt : Runtime) (submission : value)
         (s : RealTimeService.t) (w : world),
    truthy (field submission "id") = false ->
    exists e w' sent,
      RealTimeService.submitAgentData submission s w = (Throw e, s, w') /\
      requests w' = requests w ++ sent /\
      Forall (rt_image_write s) sent /\
      calls w' = calls w.
Proof.
  intros env rt submission s w Hid.
  assert (H : fails uploads_only (RealTimeService.submitAgentData submission)).
  { unfold RealTimeService.submitAgentData. rewrite Hid.
    apply fails_try; eauto with uploads.
    - apply fails_bind; eauto with uploads; [apply rt_console_keeps|intros _].
      apply fails_bind; eauto with uploads; [apply rt_prop_keeps|intros images].
      apply fails_bind; eauto with uploads; [apply rt_uploads_keep|intros urls].
      apply fails_bind; eauto with uploads; [apply rt_now_iso_keeps|intros t].
      apply fails_first. apply fails_throw; eauto with uploads.
    - intros e. apply fails_bind; eauto with uploads;
        [apply rt_console_keeps|intros _].
      apply fails_throw; eauto with uploads. }
  destruct (H s w) as (e & w' & Hrun & Hc & _ & sent & Hreq & Hsent).
  exists e, w', sent. auto.
Qed.

Lemma keeps_Ok {S A} (Q : S -> world -> world -> Prop) (m : M S A)
  s w a s' w' :
  keeps Q m -> m s w = (Ok a, s', w') -> s' = s /\ Q s w w'.
Proof.
  intros Hm H. destruct (Hm s w) as (r & w1 & H1 & Q1).
  rewrite H in H1. inversion H1; subst. auto.
Qed.

Section SubmitAgentDataOk.

Context {env : Environment} {rt : Runtime}.

Lemma rt_getFile_request filePath s w r s' w' :
  RealTimeService.getFile filePath s w = (r, s', w') ->
  requests w' = requests w ++ [RealTimeService.read_request s filePath] /\
  silent w w'.
Proof.
  unfold RealTimeService.getFile, try_catch, bind, this, fetch, json,
    prop, ret, throw, js_atob, js_parse, console_write, set_world, silent.
  crunch.
  all: intros H; inversion H; subst; simpl; auto 10.
Qed.

Lemma rt_id_keeps submission :
  keeps uploads_only
    (if truthy (field submission "id")
     then ret (S := RealTimeService.t) (field submission "id")
     else throw (ReferenceError "timestamp")).
Proof.
  destruct (truthy (field submission "id"));
    [apply keeps_ret|apply keeps_throw]; auto with uploads.
Qed.

End SubmitAgentDataOk.

(** X8. What a successful [submitAgentData] has written.  After the
    uploads of the images, [submissions.json] is read by [getFile]; the
    document then written to it by [saveFile] is what [getFile] returned
    with the new submission appended to its [submissions], and the new
    submission alone when [getFile] returned nothing.  [getFile] returns
    nothing not only for a missing file but for every failure of the read
    (no connection, any status that is not ok): the submissions that the
    file holds are then replaced by the new one.  The subscribers are
    called once the write went through, with the new submission and the
    tag [new_submission].  The new submission is the one given, with the
    addresses of its images, the time of the call and its [id]. *)
Theorem submitAgentData_appends_to_what_getFile_returned :
  forall (env : Environment) (rt : Runtime) (submission : value)
         (s : RealTimeService.t) (w : world) (v : value)
         (s' : RealTimeService.t) (w' : world),
    RealTimeService.submitAgentData submission s w = (Ok v, s', w') ->
    exists w1 got w2 final put text,
      uploads_only s w w1 /\
      RealTimeService.getFile "submissions.json" s w1 = (Ok got, s, w2) /\
      (failed (answer w1 (RealTimeService.read_request s "submissions.json"))
       -> got = VNull) /\
      (exists urls stamp,
         final = VObj (assign "id" (field submission "id")
                         (assign "submittedAt" (VStr stamp)
                            (assign "images" (VObj urls)
                               (spread submission []))))) /\
      field v "submissionId" = field submission "id" /\
      requests w'
      = requests w2
        ++ [RealTimeService.read_request s "submissions.json"; put] /\
      req_method put = PUT /\
      req_url put = RealTimeService.contents_url s "submissions.json" /\
      content_sent put = VStr text /\
      (truthy got = false ->
       encode (JSON_stringify2 (VObj [("submissions", VArr [final])]))
       = Some text) /\
      (forall fields old,
         got = VObj fields -> lookup "submissions" fields = Some (VArr old) ->
         encode (JSON_stringify2
                   (VObj (assign "submissions" (VArr (old ++ [final]))
                            fields)))
         = Some text) /\
      invoked (calls w')
      = invoked (calls w)
        ++ notify_all (RealTimeService.subscribers s) final "new_submission".
Proof.
  intros env rt submission s w v s' w' H.
  unfold RealTimeService.submitAgentData in H.
  apply try_rethrow_Ok in H.
  2: { intros e s1 w1. do 3 eexists. reflexivity. }
  apply bind_inv_Ok in H as (u0 & sa & wa & H0 & H).
  apply (keeps_Ok uploads_only) in H0 as [-> Q0];
    [|apply rt_console_keeps].
  apply bind_inv_Ok in H as (images & sb & wb & H1 & H).
  apply (keeps_Ok uploads_only) in H1 as [-> Q1]; [|apply rt_prop_keeps].
  apply bind_inv_Ok in H as (urls & sc & wc & H2 & H).
  apply (keeps_Ok uploads_only) in H2 as [-> Q2]; [|apply rt_uploads_keep].
  apply bind_inv_Ok in H as (submittedAt & sd & wd & H3 & H).
  apply (keeps_Ok uploads_only) in H3 as [-> Q3]; [|apply rt_now_iso_keeps].
  apply bind_inv_Ok in H as (ident & se & we & H4 & H).
  assert (Hid : ident = field submission "id").
  { destruct (truthy (field submission "id")); inversion H4. reflexivity. }
  apply (keeps_Ok uploads_only) in H4 as [-> Q4]; [|apply rt_id_keeps].
  subst ident.
  match type of H with
  | context [push _ ?f] => set (final := f) in *
  end.
  apply bind_inv_Ok in H as (got & sf & wf & H5 & H).
  destruct (rt_getFile_total "submissions.json" s we) as (got' & wg & Hg & _).
  rewrite Hg in H5. inversion H5; subst got' sf wg. clear H5.
  destruct (rt_getFile_request _ _ _ _ _ _ Hg) as (Rg & Sg).
  apply bind_inv_Ok in H as (list & sg & wg & H6 & H).
  apply bind_inv_Ok in H as (submissions & sh & wh & H7 & H).
  assert (Hpure : sg = s /\ wg = wf /\ sh = s /\ wh = wf).
  { unfold push in H6. unfold set_property in H7.
    destruct (field _ "submissions"); try discriminate.
    inversion H6; subst.
    destruct (js_or got _); try discriminate; inversion H7; subst; auto. }
  destruct Hpure as (-> & -> & -> & ->).
  apply bind_inv_Ok in H as (saved & si & wi & H8 & H).
  destruct (rt_saveFile_Ok _ _ _ _ _ _ _ _ H8)
    as (-> & _ & Ss & _ & put & text & Rs & Pm & Pu & Pe & Pc & _).
  apply bind_inv_Ok in H as (u1 & sj & wj & H9 & H).
  match type of H9 with
  | RealTimeService.notifySubscribers _ _ ?s8 _ = _ =>
      destruct (rt_notifySubscribers_trace final "new_submission" s8 wi)
        as (sn & wn & outs & Hn & _ & Qn & Ln & Cn)
  end.
  rewrite Hn in H9. inversion H9; subst sj wj. clear H9.
  unfold ret in H. inversion H; subst v s' w'. clear H.
  assert (Qall : uploads_only s w we) by eauto 6 with uploads.
  exists we, got, wf, final, put, text.
  split; [exact Qall|]. split; [exact Hg|].
  split.
  { intros Hf. destruct (rt_getFile_failed _ _ _ Hf) as (wx & Hgf).
    rewrite Hgf in Hg. now inversion Hg. }
  split; [do 2 eexists; reflexivity|].
  split; [unfold final; simpl; now rewrite lookup_assign_eq|].
  split.
  { destruct Qn as (Rq & _). rewrite Rq. exact Rs. }
  split; [exact Pm|]. split; [exact Pu|]. split; [exact Pc|].
  split.
  { intros Hgot. unfold js_or in H6, H7. rewrite Hgot in H6, H7.
    simpl in H6. unfold push, ret in H6. inversion H6; subst list.
    simpl in H7. unfold ret in H7. inversion H7; subst submissions.
    exact Pe. }
  split.
  { intros fields old -> Hold. unfold js_or in H6, H7.
    simpl in H6, H7. rewrite Hold in H6.
    unfold push, ret in H6. inversion H6; subst list.
    unfold ret in H7. inversion H7; subst submissions. exact Pe. }
  rewrite Cn, invoked_app, invoked_notification, map_fst_combine by exact Ln.
  simpl. destruct Ss as (Cs & _). rewrite Cs.
  destruct Sg as (Cg & _). rewrite Cg.
  destruct Qall as (Ca & _). now rewrite Ca.
Qed.

Section RealTimeMisc.

Context {env : Environment} {rt : Runtime}.

Lemma rt_saveFile_calls filePath content message s w r s' w' :
  RealTimeService.saveFile filePath content message s w = (r, s', w') ->
  calls w' = calls w /\
  RealTimeService.subscribers s' = RealTimeService.subscribers s.
Proof.
  unfold RealTimeService.saveFile, try_catch, bind, this, set_this, fetch,
    json, prop, ret, throw, btoa_utf8, js_btoa, console_write, set_world.
  simpl.
  destruct (server (requests w ++ [RealTimeService.read_request s filePath]))
    as [msg|st txt [data|]]; simpl.
  all: crunch.
  all: intros H; inversion H; subst; simpl; auto.
Qed.

End RealTimeMisc.

(** X9. [RealTimeService.saveAgents] tells the subscribers about the new
    list only once it is saved.  When [saveFile] went through, every
    subscriber is called with [{agents}] and the tag [agents_updated] and
    the call returns [{success: true}]; when [saveFile] threw, the call
    throws the same error and no subscriber is called. *)
Theorem saveAgents_notifies_after_the_write :
  forall (env : Environment) (rt : Runtime) (agents : value)
         (s : RealTimeService.t) (w : world),
    let data := VObj [("agents", agents)] in
    exists saved s1 w1 r s' w',
      RealTimeService.saveFile "agents.json" data "Update agents list" s w
      = (saved, s1, w1) /\
      RealTimeService.saveAgents agents s w = (r, s', w') /\
      match saved with
      | Ok _ =>
          r = Ok (VObj [("success", VBool true)]) /\
          invoked (calls w')
          = invoked (calls w)
            ++ notify_all (RealTimeService.subscribers s) data
                 "agents_updated"
      | Throw e =>
          r = Throw e /\ calls w' = calls w
      end.
Proof.
  intros env rt agents s w data.
  destruct (RealTimeService.saveFile "agents.json" data "Update agents list"
              s w) as [[saved s1] w1] eqn:Hsave.
  destruct (rt_saveFile_calls _ _ _ _ _ _ _ _ Hsave) as [Hc Hsubs].
  unfold RealTimeService.saveAgents. fold data.
  destruct saved as [v|e].
  - destruct (rt_notifySubscribers_trace data "agents_updated" s1 w1)
      as (sn & wn & outs & Hn & _ & _ & Ln & Cn).
    exists (Ok v), s1, w1, (Ok (VObj [("success", VBool true)])), sn, wn.
    split; [reflexivity|]. split.
    + apply try_Ok. erewrite bind_Ok by exact Hsave.
      erewrite bind_Ok by exact Hn. reflexivity.
    + split; [reflexivity|].
      rewrite Cn, invoked_app, invoked_notification, map_fst_combine
        by exact Ln.
      now rewrite Hc, Hsubs.
  - do 6 eexists. split; [reflexivity|]. split.
    + erewrite try_Throw by (erewrite bind_Throw by exact Hsave; reflexivity).
      reflexivity.
    + split; [reflexivity|exact Hc].
Qed.

(** ** The start of a [RealTimeService] *)

(** X10. [RealTimeService.init] takes the token from [localStorage]
    alone.  It sends no request; the token it stores and the answer it
    gives (whether a token was found) are the same whatever
    [githubConfig] it is given, so a token passed in [githubConfig] is
    not used; and when nothing is stored under [ezeeAdminConfig], on a
    runtime that reads the text of the empty object as the empty object,
    it stores no token and answers [false]. *)
Theorem init_reads_the_token_from_localStorage :
  forall (env : Environment) (rt : Runtime) (githubConfig other : value)
         (s : RealTimeService.t) (w : world),
    exists r s' w' s2 w2,
      RealTimeService.init githubConfig s w = (r, s', w') /\
      RealTimeService.init other s w = (r, s2, w2) /\
      requests w' = requests w /\
      RealTimeService.token s2 = RealTimeService.token s' /\
      (forall b, r = Ok b -> b = truthy (RealTimeService.token s')) /\
      (storage_get "ezeeAdminConfig" (localStorage w) = None ->
       JSON_parse "{}" = Some (VObj []) ->
       r = Ok false /\ RealTimeService.token s' = VUndefined).
Proof.
  intros env rt githubConfig other s w.
  unfold RealTimeService.init, bind, set_this, localStorage_getItem,
    the_world, js_parse, prop, ret, throw, console_write, set_world.
  destruct (truthy githubConfig), (truthy other); simpl.
  all: destruct (storage_get "ezeeAdminConfig" (localStorage w)) as [text|];
    simpl.
  all: destruct (JSON_parse _) as [adminConfig|] eqn:Hparse; simpl.
  all: try (destruct (nullish adminConfig) eqn:Hnull; simpl).
  all: try (destruct (truthy (field (field adminConfig "github") "token"))
              eqn:Htok; simpl).
  all: do 5 eexists.
  all: split; [reflexivity|]; split; [reflexivity|]; simpl.
  all: split; [reflexivity|]; split; [reflexivity|].
  all: split; [intros b Hb; inversion Hb; subst; simpl; congruence|].
  all: try (intros Hnone; discriminate Hnone).
  all: intros _ Hempty; inversion Hempty.
  all: subst adminConfig; simpl in *; try discriminate; auto.
Qed.

(** ** The lists of [GitHubService] *)

(** X11. The getters of [GitHubService] report a failed read, unlike
    those of [RealTimeService].  With a complete configuration,
    [getSubmissions] and [getAgents] send the read of their file; when
    the server says the file is missing (404) they return the empty
    list; when there is no connection, or the status is any other that
    is not ok, they throw, and the message says which list could not be
    had and why. *)
Theorem getSubmissions_raises_on_a_failed_read :
  forall (env : Environment) (rt : Runtime)
         (s : GitHubService.t) (w : world),
    configured s ->
    (let get := GitHubService.read_request s "submissions.json" in
     (forall msg,
        answer w get = NetworkError msg ->
        GitHubService.getSubmissions s w
        = (Throw (Error ("Failed to get submissions: File read error: "
                         ++ msg)%string),
           s, record_request get w)) /\
     (forall st txt j,
        answer w get = HttpResponse st txt j -> ok_status st = false ->
        GitHubService.getSubmissions s w
        = (if (st =? 404)%Z then Ok (VArr [])
           else Throw (Error ("Failed to get submissions: File read error: "
                              ++ "Read failed: " ++ dec st ++ " " ++ txt)%string),
           s, record_request get w)))
    /\
    (let get := GitHubService.read_request s "agents.json" in
     (forall msg,
        answer w get = NetworkError msg ->
        GitHubService.getAgents s w
        = (Throw (Error ("Failed to get agents: File read error: "
                         ++ msg)%string),
           s, record_request get w)) /\
     (forall st txt j,
        answer w get = HttpResponse st txt j -> ok_status st = false ->
        GitHubService.getAgents s w
        = (if (st =? 404)%Z then Ok (VArr [])
           else Throw (Error ("Failed to get agents: File read error: "
                              ++ "Read failed: " ++ dec st ++ " " ++ txt)%string),
           s, record_request get w))).
Proof.
  intros env rt s w Hcfg.
  unfold GitHubService.getSubmissions, GitHubService.getAgents,
    GitHubService.readFile.
  split; cbv zeta; split.
  all: unfold try_catch at 1, bind at 1.
  all: erewrite bind_Ok by (apply require_config_ok; exact Hcfg).
  all: unfold answer, try_catch, bind, this, fetch, json, prop, ret, throw.
  all: cbn [requests record_request].
  - intros msg ->. reflexivity.
  - intros st txt j -> Hst. unfold ok. cbn [status].
    change ((200 <=? st)%Z && (st <=? 299)%Z) with (ok_status st).
    rewrite Hst. cbn [negb]. now destruct (st =? 404)%Z.
  - intros msg ->. reflexivity.
  - intros st txt j -> Hst. unfold ok. cbn [status].
    change ((200 <=? st)%Z && (st <=? 299)%Z) with (ok_status st).
    rewrite Hst. cbn [negb]. now destruct (st =? 404)%Z.
Qed.

(** X12. [deleteFile] deletes only what it has just read.  With a
    complete configuration it first reads the file; a DELETE follows only
    when that read was answered with an ok status and a JSON body, it is
    the only other request, it goes to the address of the file, and it
    carries the SHA of that body.  When the read fails nothing is
    deleted; and the call throws whenever its last request failed. *)
Theorem deleteFile_deletes_what_it_read :
  forall (env : Environment) (rt : Runtime) (filename message : string)
         (s : GitHubService.t) (w : world),
    configured s ->
    let get := GitHubService.read_request s filename in
    exists r w' rest,
      GitHubService.deleteFile filename message s w = (r, s, w') /\
      requests w' = requests w ++ get :: rest /\
      (rest = [] \/
       exists del st txt data,
         rest = [del] /\ req_method del = DELETE /\
         req_url del = GitHubService.contents_url s filename /\
         answer w get = HttpResponse st txt (Some data) /\
         ok_status st = true /\
         (is_sha (field data "sha") -> version_token del = field data "sha")) /\
      (failed (answer w get) -> rest = []) /\
      (failed (server (requests w')) -> exists e, r = Throw e).
Proof.
  intros env rt filename message s w Hcfg get.
  unfold GitHubService.deleteFile.
  erewrite bind_Ok by (apply require_config_ok; exact Hcfg).
  unfold answer, failed, version_token, try_catch, bind, this, fetch, json,
    prop, ret, throw, ok.
  fold get. simpl.
  destruct (server (requests w ++ [get])) as [msg|st txt [data|]] eqn:Hget;
    simpl.
  all: crunch.
  all: do 3 eexists; split; [reflexivity|]; simpl.
  all: rewrite <- ?app_assoc; simpl.
  all: split; [reflexivity|].
  all: split;
    [ first [ left; reflexivity
            | right; do 4 eexists; split; [reflexivity|];
              split; [reflexivity|]; split; [reflexivity|];
              split; [reflexivity|]; split; [assumption|];
              intros Hs; cbn [req_body];
              rewrite image_field_other by reflexivity;
              rewrite image_field_here
                by (destruct Hs as (x & -> & _); discriminate);
              now apply is_sha_image ] |].
  all: split; [first [reflexivity | intros; congruence | intros []]|].
  all: try (intros; eexists; reflexivity).
  all: repeat match goal with
       | H : server ((_ ++ _) ++ _) = _ |- _ =>
           rewrite <- app_assoc in H; simpl in H
       end.
  all: repeat match goal with
       | H : server ?x = _ |- context [server ?x] => rewrite H
       end; simpl; try congruence.
Qed.

(** ** The report of [uploadSubmissionImages] *)

Section Report.

Context {env : Environment} {rt : Runtime}.

Lemma gh_uploadFile_state filename content message s w :
  exists r w', GitHubService.uploadFile filename content message s w = (r, s, w').
Proof.
  destruct (require_config_cases s w) as [[Hcfg _]|[_ [e He]]].
  - destruct (gh_uploadFile_requests filename content message s w Hcfg)
      as (r & w' & H & _). eauto.
  - exists (Throw e), w. unfold GitHubService.uploadFile.
    now erewrite bind_Throw by exact He.
Qed.

Lemma gh_uploadImage_state filename base64Data message s w :
  exists r w',
    GitHubService.uploadImage filename base64Data message s w = (r, s, w').
Proof.
  unfold GitHubService.uploadImage, GitHubService.without_prefix.
  destruct base64Data as [| | | |text|xs|]; try (do 2 eexists; reflexivity).
  - destruct (includes_comma text).
    + destruct (gh_uploadFile_state filename (split_comma_second text)
                  message s w) as (r & w' & H).
      exists r, w'. unfold bind, ret. exact H.
    + destruct (gh_uploadFile_state filename (VStr text) message s w)
        as (r & w' & H).
      exists r, w'. unfold bind, ret. exact H.
  - destruct (existsb _ xs); [do 2 eexists; reflexivity|].
    destruct (gh_uploadFile_state filename (VArr xs) message s w)
      as (r & w' & H).
    exists r, w'. unfold bind, ret. exact H.
Qed.

Lemma report_entry submissionId key imageData results s w :
  exists entry w',
    try_catch
      (stamp <- Date_now ;;
       let filename :=
         (("images/submissions/" ++ submissionId) ++ "/" ++ key ++ "_"
          ++ dec stamp ++ ".jpg")%string in
       result <- GitHubService.uploadImage filename imageData
                   ("Upload " ++ key ++ " for submission " ++ submissionId) ;;
       file <- prop result "content" ;;
       download_url <- prop file "download_url" ;;
       ret (assign key
              (VObj [("success", VBool true);
                     ("filename", VStr filename);
                     ("downloadUrl", download_url)])
              results))
      (fun error =>
         ret (assign key
                (VObj [("success", VBool false);
                       ("error", VStr (error_message error))])
                results)) s w
    = (Ok (assign key entry results), s, w') /\
    reported entry.
Proof.
  unfold try_catch. unfold bind at 1, Date_now at 1. cbv beta iota zeta.
  match goal with
  | |- context [bind (GitHubService.uploadImage ?f ?d ?m) _ s ?w1] =>
      destruct (gh_uploadImage_state f d m s w1) as (r & w2 & Hup)
  end.
  unfold bind at 1. rewrite Hup.
  assert (Hfail : forall e,
            reported (VObj [("success", VBool false);
                            ("error", VStr (error_message e))])).
  { intros e. right. split; [reflexivity|]. eexists. reflexivity. }
  destruct r as [result|e]; [|do 2 eexists; split; [reflexivity|apply Hfail]].
  unfold bind, prop, ret, throw.
  destruct (nullish result);
    [do 2 eexists; split; [reflexivity|apply Hfail]|].
  destruct (nullish (field result "content"));
    [do 2 eexists; split; [reflexivity|apply Hfail]|].
  do 2 eexists. split; [reflexivity|].
  left. split; [reflexivity|]. eexists. reflexivity.
Qed.

End Report.

Lemma report_loop {S} (body : string * value -> list (string * value)
                              -> M S (list (string * value))) :
  (forall key data acc s w,
     exists entry w',
       body (key, data) acc s w = (Ok (assign key entry acc), s, w') /\
       reported entry) ->
  forall entries acc s w,
    (forall k e, lookup k acc = Some e -> reported e) ->
    exists acc' w',
      for_of entries acc body s w = (Ok acc', s, w') /\
      (forall k e, lookup k acc' = Some e -> reported e) /\
      (forall k, (exists e, lookup k acc' = Some e) <->
                 (exists e, lookup k acc = Some e) \/ In k (map fst entries)).
Proof.
  intros Hbody. induction entries as [|[key data] entries IH];
    intros acc s w Hacc; simpl.
  - exists acc, w. split; [reflexivity|]. split; [exact Hacc|].
    intros k. tauto.
  - destruct (Hbody key data acc s w) as (entry & w1 & H1 & R1).
    destruct (IH (assign key entry acc) s w1) as (acc' & w' & H2 & R2 & K2).
    { intros k e. rewrite lookup_assign.
      destruct (key =? k)%string; [|apply Hacc].
      intros E. inversion E; subst. exact R1. }
    exists acc', w'. split; [|split; [exact R2|]].
    + erewrite bind_Ok by exact H1. exact H2.
    + intros k. rewrite K2, lookup_assign.
      destruct (key =? k)%string eqn:E.
      * apply String.eqb_eq in E. subst k. split; [auto|]. intros _. eauto.
      * apply String.eqb_neq in E. split.
        -- intros [H|H]; auto.
        -- intros [H|[H|H]]; auto. contradiction.
Qed.

(** X13. [uploadSubmissionImages] never throws once it is given an
    object: it returns a report with one entry for each key of [images]
    and no other, and every entry says either that the upload succeeded,
    with the name of the file, or that it failed, with the message of the
    error.  An incomplete configuration, a refused upload and data that
    is not text all end up as failed entries.  The service itself is left
    as it was. *)
Theorem uploadSubmissionImages_reports_every_image :
  forall (env : Environment) (rt : Runtime) (submissionId : string)
         (images : value) (s : GitHubService.t) (w : world),
    nullish images = false ->
    exists results w',
      GitHubService.uploadSubmissionImages submissionId images s w
      = (Ok (VObj results), s, w') /\
      (forall key,
         (exists entry, lookup key results = Some entry) <->
         In key (map fst (own_properties images))) /\
      (forall key entry, lookup key results = Some entry -> reported entry).
Proof.
  intros env rt submissionId images s w Hn.
  unfold GitHubService.uploadSubmissionImages, Object_entries.
  rewrite Hn. cbv zeta. unfold bind at 1, ret at 1.
  match goal with
  | |- context [for_of _ [] ?body] =>
      destruct (report_loop body) with
        (entries := own_properties images) (acc := @nil (string * value))
        (s := s) (w := w)
        as (results & w' & Hloop & Hrep & Hkeys)
  end.
  { intros key data acc s0 w0. apply report_entry. }
  { intros k e. discriminate. }
  exists results, w'. split; [|split; [|exact Hrep]].
  - erewrite bind_Ok by exact Hloop. reflexivity.
  - intros key. rewrite Hkeys. split; [|auto].
    intros [[e He]|H]; [discriminate|exact H].
Qed.

(** ** Configurations kept in [localStorage] *)

Lemma image_field_assign k v l :
  v <> VUndefined ->
  field (json_image (VObj (assign k v l))) k = json_image v.
Proof.
  intros Hv. induction l as [|[k' v'] l IH]; cbn [assign].
  - now apply image_field_here.
  - destruct (k' =? k)%string eqn:E.
    + apply String.eqb_eq in E. subst k'. now apply image_field_here.
    + rewrite image_field_other by exact E. exact IH.
Qed.

Lemma image_field_assign_other k k' v l :
  (k' =? k)%string = false ->
  field (json_image (VObj (assign k' v l))) k = field (json_image (VObj l)) k.
Proof.
  intros Hk. induction l as [|[k0 v0] l IH]; cbn [assign].
  - now rewrite image_field_other by exact Hk.
  - destruct (k0 =? k')%string eqn:E.
    + apply String.eqb_eq in E. subst k0.
      now rewrite !image_field_other by exact Hk.
    + destruct (k0 =? k)%string eqn:E2.
      * apply String.eqb_eq in E2. subst k0.
        destruct v0; try (rewrite !image_field_here by discriminate;
                          reflexivity).
        unfold json_image; fold json_image. simpl.
        exact IH.
      * rewrite !image_field_other by exact E2. exact IH.
Qed.

Lemma gh_loadConfig_stored {rt : Runtime} {S} (s : S) w text doc :
  storage_get "ezeeAdminConfig" (localStorage w) = Some text ->
  text <> ""%string ->
  JSON_parse text = Some doc ->
  nullish doc = false ->
  GitHubService.loadConfig s w
  = (Ok (js_or (field doc "github") (VObj [])), s, w).
Proof.
  intros Hst Hne Hp Hn.
  unfold GitHubService.loadConfig, localStorage_getItem, js_parse, prop.
  unfold bind, the_world, ret. cbv beta iota.
  rewrite Hst. apply String.eqb_neq in Hne. rewrite Hne, Hp.
  cbv beta iota. now rewrite Hn.
Qed.


(** X15. [ConfigManager.saveConfig] caches a configuration only once the
    server has taken it.  The call changes [localStorage] in one way at
    most: it puts [{github: config}] under [ezeeAdminConfig].  It has
    done so whenever it returns; and when its last request failed (no
    connection, or a status that is not ok) it throws and [localStorage]
    is as it was.  The manager itself is left as it was. *)
Theorem saveConfig_caches_what_was_written :
  forall (env : Environment) (rt : Runtime) (config : value)
         (c : ConfigManager.t) (w : world),
    let cached :=
      ("ezeeAdminConfig", JSON_stringify (VObj [("github", config)]))
      :: localStorage w in
    exists r w',
      ConfigManager.saveConfig config c w = (r, c, w') /\
      (localStorage w' = localStorage w \/ localStorage w' = cached) /\
      (forall v, r = Ok v -> localStorage w' = cached) /\
      (requests w' <> requests w -> failed (server (requests w')) ->
       localStorage w' = localStorage w /\ exists e, r = Throw e).
Proof.
  intros env rt config c w cached. unfold cached.
  unfold ConfigManager.saveConfig, failed, try_catch, bind, this, fetch,
    json, prop, ret, throw, btoa_utf8, js_btoa, console_write,
    localStorage_setItem, set_world, ok.
  simpl.
  destruct (nullish config); simpl.
  - crunch.
    all: do 2 eexists; split; [reflexivity|]; simpl.
    all: split; [left; reflexivity|].
    all: split; [discriminate|].
    all: intros; split; [reflexivity|eexists; reflexivity].
  - crunch.
    all: do 2 eexists; split; [reflexivity|]; simpl.
    all: split; [first [left; reflexivity|right; reflexivity]|].
    all: split; [first [discriminate|reflexivity|intros ? ?; reflexivity]|].
    all: try (intros; split; [reflexivity|eexists; reflexivity]).
    all: intros _.
    all: repeat match goal with
         | H : server ((_ ++ _) ++ _) = _ |- _ =>
             rewrite <- app_assoc in H; simpl in H
         end.
    all: rewrite <- ?app_assoc; simpl.
    all: repeat match goal with
         | H : server ?x = _ |- context [server ?x] => rewrite H
         end; simpl; try congruence.
Qed.

(** X16. What [ConfigManager.loadConfig] falls back on.  With a
    configuration cached in [localStorage], a read of [gitconfig.json]
    that the server refuses (any status that is not ok) returns the
    cached [github] entry; a read that does not reach the server returns
    the default configuration, whose token is empty: the cache is not
    consulted when there is no connection.  Either way the call returns
    and does not throw. *)
Theorem loadConfig_uses_the_cache_on_a_refusal_only :
  forall (env : Environment) (rt : Runtime)
         (c : ConfigManager.t) (w : world) (text : string) (cached : value),
    storage_get "ezeeAdminConfig" (localStorage w) = Some text ->
    text <> ""%string ->
    JSON_parse text = Some cached ->
    nullish cached = false ->
    let get := {| req_method := GET;
                  req_url := ConfigManager.config_url c;
                  req_headers := [("Accept", "application/vnd.github.v3+json")];
                  req_body := None |} in
    (forall msg,
       answer w get = NetworkError msg ->
       exists w',
         ConfigManager.loadConfig c w
         = (Ok ConfigManager.default_config, c, w') /\
         field ConfigManager.default_config "token" = VStr "") /\
    (forall st txt j,
       answer w get = HttpResponse st txt j -> ok_status st = false ->
       ConfigManager.loadConfig c w
       = (Ok (js_or (field cached "github") (VObj [])), c,
          record_request get w)).
Proof.
  intros env rt c w text cached Hst Hne Hp Hn get.
  unfold answer, ConfigManager.loadConfig, ConfigManager.config_url in *.
  unfold try_catch, this, fetch, json, prop, localStorage_getItem,
    js_parse, console_write, set_world.
  unfold bind, the_world, ret, throw. cbv beta.
  cbn [requests record_request]. fold get. split.
  - intros msg ->. eexists. split; reflexivity.
  - intros st txt j -> Hst'. unfold ok. cbn [status].
    change ((200 <=? st)%Z && (st <=? 299)%Z) with (ok_status st).
    rewrite Hst'. cbn [localStorage record_request]. rewrite Hst.
    apply String.eqb_neq in Hne. rewrite Hne, Hp. cbv beta iota.
    now rewrite Hn.
Qed.

(** ** The configuration guard of [GitHubService] *)

Section Guard.

Context {env : Environment}.

Lemma require_config_refuses s w :
  nullish (GitHubService.config s) = false ->
  ~ configured s ->
  GitHubService.require_config s w
  = (Throw (Error "GitHub configuration is incomplete"), s, w).
Proof.
  intros Hn Hno.
  unfold GitHubService.require_config, bind, this, prop. rewrite Hn.
  unfold ret, throw.
  destruct (truthy (field (GitHubService.config s) "token")) eqn:Ht;
    [|reflexivity].
  destruct (truthy (field (GitHubService.config s) "repoOwner")) eqn:Ho;
    [|reflexivity].
  destruct (truthy (field (GitHubService.config s) "repoName")) eqn:Hr;
    [|reflexivity].
  exfalso. apply Hno. repeat split; assumption.
Qed.

End Guard.

(** X18. With an incomplete configuration (no token, no owner or no
    repository name) [uploadFile], [readFile], [deleteFile] and
    [testConnection] send nothing: each throws
    [GitHub configuration is incomplete] and leaves the world as it was.
    [getRepoInfo] has no such guard: it sends its request all the
    same. *)
Theorem incomplete_configuration_sends_nothing :
  forall (env : Environment) (rt : Runtime)
         (s : GitHubService.t) (w : world),
    nullish (GitHubService.config s) = false ->
    ~ configured s ->
    let refused :=
      (Throw (A := value) (Error "GitHub configuration is incomplete"), s, w) in
    (forall filename content message,
       GitHubService.uploadFile filename content message s w = refused) /\
    (forall filename, GitHubService.readFile filename s w = refused) /\
    (forall filename message,
       GitHubService.deleteFile filename message s w = refused) /\
    GitHubService.testConnection s w = refused /\
    exists r w',
      GitHubService.getRepoInfo s w = (r, s, w') /\
      requests w'
      = requests w
        ++ [{| req_method := GET; req_url := GitHubService.repo_url s;
               req_headers := GitHubService.headers s; req_body := None |}].
Proof.
  intros env rt s w Hn Hno refused.
  pose proof (require_config_refuses s w Hn Hno) as Hg.
  split; [|split; [|split; [|split]]].
  - intros. unfold GitHubService.uploadFile.
    now erewrite bind_Throw by exact Hg.
  - intros. unfold GitHubService.readFile.
    now erewrite bind_Throw by exact Hg.
  - intros. unfold GitHubService.deleteFile.
    now erewrite bind_Throw by exact Hg.
  - unfold GitHubService.testConnection.
    now erewrite bind_Throw by exact Hg.
  - unfold GitHubService.getRepoInfo, try_catch, bind, this, prop, fetch,
      json, ret, throw.
    rewrite Hn. simpl. crunch.
    all: do 2 eexists; split; reflexivity.
Qed.

(** ** Data URLs *)

Lemma includes_comma_append a b :
  includes_comma (a ++ b) = includes_comma a || includes_comma b.
Proof.
  induction a as [|c a IH]; simpl; [reflexivity|].
  now rewrite IH, orb_assoc.
Qed.

Lemma until_comma_plain b : includes_comma b = false -> until_comma b = b.
Proof.
  induction b as [|c b IH]; simpl; [reflexivity|].
  destruct (Ascii.eqb c ","); simpl; [discriminate|].
  intros H. now rewrite IH.
Qed.

Lemma split_comma_second_append a b :
  includes_comma a = false ->
  split_comma_second (a ++ String "," b) = VStr (until_comma b).
Proof.
  induction a as [|c a IH]; simpl.
  - reflexivity.
  - destruct (Ascii.eqb c ","); simpl; [discriminate|exact IH].
Qed.

(** X19. [GitHubService.uploadImage] uploads the payload of an image
    whether it is given with the prefix of a data URL or without it:
    for a prefix and a payload that hold no comma, the call on
    [prefix,payload] and the call on [payload] alone both do what
    [uploadFile] does on [payload].  Of data with more commas, only what
    stands between the first and the second is uploaded. *)
Theorem uploadImage_strips_the_prefix :
  forall (env : Environment) (filename message : string)
         (before payload rest : string)
         (s : GitHubService.t) (w : world),
    includes_comma before = false ->
    includes_comma payload = false ->
    GitHubService.uploadImage filename
      (VStr (before ++ "," ++ payload)) message s w
    = GitHubService.uploadFile filename (VStr payload) message s w /\
    GitHubService.uploadImage filename (VStr payload) message s w
    = GitHubService.uploadFile filename (VStr payload) message s w /\
    GitHubService.uploadImage filename
      (VStr (before ++ "," ++ payload ++ "," ++ rest)) message s w
    = GitHubService.uploadFile filename (VStr payload) message s w.
Proof.
  intros env filename message before payload rest s w Hb Hp.
  unfold GitHubService.uploadImage, GitHubService.without_prefix.
  assert (Hcut : until_comma (payload ++ String "," rest) = payload).
  { clear -Hp. induction payload as [|c p IH]; simpl; [reflexivity|].
    simpl in Hp. destruct (Ascii.eqb c ","); simpl in *; [discriminate|].
    now rewrite IH. }
  split; [|split].
  - rewrite includes_comma_append. simpl. rewrite orb_true_r.
    change ("," ++ payload)%string with (String "," payload).
    rewrite (split_comma_second_append _ _ Hb), (until_comma_plain _ Hp).
    reflexivity.
  - rewrite Hp. reflexivity.
  - rewrite includes_comma_append. simpl. rewrite orb_true_r.
    change ("," ++ payload ++ "," ++ rest)%string
      with (String "," (payload ++ String "," rest)).
    rewrite (split_comma_second_append _ _ Hb), Hcut. reflexivity.
Qed.

(** ** The list of agents *)

(** X20. [GitHubService.saveAgents] replaces the whole file by the list
    it is given.  When it returns for an array, its last two requests are
    the read of [agents.json] and the PUT of a document that holds this
    array as [agents], the time of the call as [lastUpdated] and the
    length of the array as [totalAgents]; nothing of what the file held
    is kept. *)
Theorem saveAgents_writes_the_list_with_its_length :
  forall (env : Environment) (rt : Runtime) (agents : list value)
         (s : GitHubService.t) (w : world) (v : value)
         (s' : GitHubService.t) (w' : world),
    GitHubService.saveAgents (VArr agents) s w = (Ok v, s', w') ->
    exists put encoded,
      requests w'
      = requests w ++ [GitHubService.read_request s "agents.json"; put] /\
      req_method put = PUT /\
      req_url put = GitHubService.contents_url s "agents.json" /\
      content_sent put = VStr encoded /\
      btoa (JSON_stringify2
              (VObj [("agents", VArr agents);
                     ("lastUpdated",
                      VStr (toISOString (clock (clock_reads w))));
                     ("totalAgents", VNum (Z.of_nat (length agents)))]))
      = Some encoded.
Proof.
  intros env rt agents s w v s' w' H.
  unfold GitHubService.saveAgents in H.
  apply try_rethrow_Ok in H.
  2: { intros e s1 w1. do 3 eexists. reflexivity. }
  apply bind_inv_Ok in H as (lastUpdated & sa & wa & H0 & H).
  unfold now_iso, bind, Date_now, ret in H0. inversion H0; subst. clear H0.
  apply bind_inv_Ok in H as (total & sb & wb & H1 & H).
  unfold js_length, ret in H1. inversion H1; subst. clear H1.
  apply bind_inv_Ok in H as (encoded & sc & wc & H2 & H).
  unfold js_btoa in H2.
  destruct (btoa _) as [b|] eqn:Hb; [|discriminate].
  unfold ret in H2. inversion H2; subst. clear H2.
  apply bind_inv_Ok in H as (result & sd & wd & H3 & H).
  destruct (gh_uploadFile_Ok _ _ _ _ _ _ _ _ H3) as (_ & -> & Hreq).
  assert (Hend : s' = sc /\ w' = wd).
  { revert H. unfold bind, prop, ret, throw.
    destruct (nullish result); [discriminate|].
    destruct (nullish (field result "content")); [discriminate|].
    intros H. inversion H. auto. }
  destruct Hend as [-> ->]. simpl in Hreq.
  eexists. exists encoded. split; [exact Hreq|].
  split; [reflexivity|]. split; [reflexivity|].
  split; [|reflexivity].
  unfold content_sent, GitHubService.write_request. cbn [req_body].
  rewrite image_field_other by reflexivity.
  now rewrite image_field_here by discriminate.
Qed.

(** ** The configuration manager of unnamed/part_001 *)

Section Part001Config.

Context {env : Environment} {rt : Runtime}.

Lemma p001_loadFromGitHub_result c w :
  exists v,
    Part001.ConfigManager.loadFromGitHub c w
    = (Ok v, c, record_request (part001_read c) w) /\
    (failed (answer w (part001_read c)) -> v = VNull).
Proof.
  unfold Part001.ConfigManager.loadFromGitHub, answer, part001_read.
  unfold try_catch, bind, this, fetch, ret. cbv beta.
  cbn [requests record_request].
  destruct (server _) as [msg | st txt j] eqn:Hs.
  - eexists. split; [reflexivity|]. reflexivity.
  - unfold ok. cbn [status].
    change ((200 <=? st)%Z && (st <=? 299)%Z) with (ok_status st).
    destruct (ok_status st) eqn:Hst.
    + unfold json. cbn [json_body]. destruct j as [data|].
      * unfold ret, prop. destruct (nullish data).
        -- unfold throw. eexists. split; [reflexivity|]. simpl. congruence.
        -- unfold ret. unfold js_atob. destruct (atob _).
           ++ unfold ret, js_parse. destruct (JSON_parse _).
              ** unfold ret. eexists. split; [reflexivity|]. simpl. congruence.
              ** unfold throw. eexists. split; [reflexivity|]. simpl. congruence.
           ++ unfold throw. eexists. split; [reflexivity|]. simpl. congruence.
      * unfold throw. eexists. split; [reflexivity|]. simpl. congruence.
    + eexists. split; [reflexivity|]. reflexivity.
Qed.

Lemma p001_loadFromLocalStorage_total c w :
  exists v, Part001.ConfigManager.loadFromLocalStorage c w = (Ok v, c, w).
Proof.
  unfold Part001.ConfigManager.loadFromLocalStorage, localStorage_getItem.
  unfold bind, the_world, ret. cbv beta.
  destruct (storage_get _ _) as [text|]; [|eauto].
  destruct (text =? "")%string; [eauto|].
  unfold try_catch, js_parse. destruct (JSON_parse text) as [config|].
  - unfold ret, prop. destruct (nullish config); unfold throw, ret; eauto.
  - unfold throw. eauto.
Qed.

Lemma p001_loadFromLocalStorage_cached c w text cached :
  storage_get "ezeeAdminConfig" (localStorage w) = Some text ->
  text <> ""%string ->
  JSON_parse text = Some cached ->
  truthy (field (field cached "github") "token") = true ->
  Part001.ConfigManager.loadFromLocalStorage c w
  = (Ok (field cached "github"), c, w).
Proof.
  intros Hst Hne Hp Ht.
  unfold Part001.ConfigManager.loadFromLocalStorage, localStorage_getItem.
  unfold bind, the_world, ret. cbv beta. rewrite Hst.
  apply String.eqb_neq in Hne. rewrite Hne.
  unfold try_catch, js_parse. rewrite Hp. unfold ret, prop.
  destruct cached as [ | | b | n | str | xs | fs]; try discriminate Ht.
  cbn [nullish]. unfold ret, js_or.
  destruct (field (VObj fs) "github"); try discriminate Ht; reflexivity.
Qed.

Lemma p001_loadConfig_result c w :
  exists config w',
    Part001.ConfigManager.loadConfig c w = (Ok config, c, w') /\
    requests w' = requests w ++ [part001_read c] /\
    (config = Part001.ConfigManager.getDefaultConfig \/
     truthy (field config "token") = true) /\
    (localStorage w' = localStorage w \/
     localStorage w'
     = ("ezeeAdminConfig", JSON_stringify (VObj [("github", config)]))
       :: localStorage w).
Proof.
  unfold Part001.ConfigManager.loadConfig.
  unfold try_catch, bind at 1. unfold console_write at 1, set_world.
  unfold bind at 1.
  match goal with
  | |- context [Part001.ConfigManager.loadFromGitHub c ?w0] =>
      destruct (p001_loadFromGitHub_result c w0) as (g & Hg & _);
      rewrite Hg
  end.
  destruct (truthy g && truthy (field g "token")) eqn:Ht.
  - apply andb_true_iff in Ht as [_ Ht].
    unfold bind, console_write, localStorage_setItem, set_world, ret.
    do 2 eexists. split; [reflexivity|]. cbn. auto.
  - unfold bind at 1.
    match goal with
    | |- context [Part001.ConfigManager.loadFromLocalStorage c ?w0] =>
        destruct (p001_loadFromLocalStorage_total c w0) as (l & Hl);
        rewrite Hl
    end.
    destruct (truthy l && truthy (field l "token")) eqn:Ht'.
    + apply andb_true_iff in Ht' as [_ Ht'].
      unfold bind, console_write, set_world, ret.
      do 2 eexists. split; [reflexivity|]. cbn. auto.
    + unfold bind, console_write, set_world, ret.
      do 2 eexists. split; [reflexivity|]. cbn. auto.
Qed.


Lemma p001_saveConfig_Ok config c w r s' w' :
  Part001.ConfigManager.saveConfig config c w = (Ok r, s', w') ->
  s' = c /\ r = VObj [("success", VBool true)] /\
  localStorage w'
  = ("ezeeAdminConfig", JSON_stringify (VObj [("github", config)]))
    :: localStorage w /\
  exists content sha earlier,
    encode (JSON_stringify2 config) = Some content /\
    requests w'
    = earlier ++
      [{| req_method := PUT;
          req_url := Part001.ConfigManager.config_url c;
          req_headers :=
            [("Authorization", "token " ++ to_string (field config "token"));
             ("Accept", "application/vnd.github.v3+json");
             ("Content-Type", "application/json")]%string;
          req_body :=
            Some (json_image
                    (VObj [("message", VStr "Update GitHub configuration");
                           ("content", VStr content);
                           ("branch", VStr "main");
                           ("sha", sha)])) |}].
Proof.
  unfold Part001.ConfigManager.saveConfig, encode, try_catch, bind, this,
    fetch, json, prop, ret, throw, btoa_utf8, js_btoa, console_write,
    localStorage_setItem, set_world, ok.
  simpl.
  destruct (nullish config); simpl.
  - crunch. all: discriminate.
  - crunch.
    all: try discriminate.
    all: intros H; inversion H; subst; clear H.
    all: repeat split.
    all: do 3 eexists; split; [reflexivity|]; reflexivity.
Qed.

End Part001Config.

(** X21. [ConfigManager.loadConfig] of unnamed/part_001 always returns a
    configuration: it sends its one read of [gitconfig.json], never
    throws, and gives either the default configuration or one whose
    [token] is set.  It writes to [localStorage] only to cache the
    configuration it returns. *)
Theorem part001_loadConfig_always_gives_a_configuration :
  forall (env : Environment) (rt : Runtime)
         (c : Part001.ConfigManager.t) (w : world),
    exists config w',
      Part001.ConfigManager.loadConfig c w = (Ok config, c, w') /\
      requests w' = requests w ++ [part001_read c] /\
      (config = Part001.ConfigManager.getDefaultConfig \/
       truthy (field config "token") = true) /\
      (localStorage w' = localStorage w \/
       localStorage w'
       = ("ezeeAdminConfig", JSON_stringify (VObj [("github", config)]))
         :: localStorage w).
Proof. intros env rt c w. apply p001_loadConfig_result. Qed.

(** X22. In unnamed/part_001 the cache serves every failed read.  With a
    configuration that has a token cached in [localStorage], a read of
    [gitconfig.json] that fails, be it for want of a connection or by a
    status that is not ok, makes [loadConfig] return the cached
    [github] entry, and [localStorage] is left as it was. *)
Theorem part001_loadConfig_uses_the_cache_on_any_failure :
  forall (env : Environment) (rt : Runtime)
         (c : Part001.ConfigManager.t) (w : world)
         (text : string) (cached : value),
    storage_get "ezeeAdminConfig" (localStorage w) = Some text ->
    text <> ""%string ->
    JSON_parse text = Some cached ->
    truthy (field (field cached "github") "token") = true ->
    failed (answer w (part001_read c)) ->
    exists w',
      Part001.ConfigManager.loadConfig c w
      = (Ok (field cached "github"), c, w') /\
      localStorage w' = localStorage w.
Proof.
  intros env rt c w text cached Hst Hne Hp Ht Hfail.
  unfold Part001.ConfigManager.loadConfig.
  unfold try_catch, bind at 1. unfold console_write at 1, set_world.
  unfold bind at 1.
  match goal with
  | |- context [Part001.ConfigManager.loadFromGitHub c ?w0] =>
      destruct (p001_loadFromGitHub_result c w0) as (g & Hg & Hnull);
      rewrite Hg; rewrite (Hnull Hfail)
  end.
  cbn [truthy andb]. unfold bind at 1.
  erewrite p001_loadFromLocalStorage_cached; eauto.
  assert (Hobj : truthy (field cached "github") = true).
  { destruct (field cached "github"); try discriminate Ht; reflexivity. }
  rewrite Hobj, Ht. cbn [andb].
  unfold bind, console_write, set_world, ret.
  eexists. split; reflexivity.
Qed.

(** X23. What [toggleGalleryUpload] of unnamed/part_001 has saved when
    it returns.  The configuration it wrote is the one [loadConfig] gave
    with [galleryUploadEnabled] set to the flag and [token] set to the
    given token, or left as loaded when none is given; every other
    entry is as loaded.  That configuration is the content of the PUT to
    [gitconfig.json] that ends the call, which is authorised with its
    token, and it is what [localStorage] holds afterwards. *)
Theorem part001_toggleGalleryUpload_saves_the_toggled_configuration :
  forall (env : Environment) (rt : Runtime) (enable tok : value)
         (c : Part001.ConfigManager.t) (w : world)
         (r : value) (s' : Part001.ConfigManager.t) (w' : world),
    Part001.ConfigManager.toggleGalleryUpload enable tok c w
    = (Ok r, s', w') ->
    exists loaded written w1 content put earlier,
      Part001.ConfigManager.loadConfig c w = (Ok loaded, c, w1) /\
      field written "galleryUploadEnabled" = enable /\
      field written "token" = js_or tok (field loaded "token") /\
      (forall k, k <> "galleryUploadEnabled"%string -> k <> "token"%string ->
                 field written k = field loaded k) /\
      encode (JSON_stringify2 written) = Some content /\
      requests w' = earlier ++ [put] /\
      req_method put = PUT /\
      req_url put = Part001.ConfigManager.config_url c /\
      In ("Authorization",
          ("token " ++ to_string (field written "token"))%string)
         (req_headers put) /\
      (exists body, req_body put = Some body /\
                    field body "content" = VStr content) /\
      storage_get "ezeeAdminConfig" (localStorage w')
      = Some (JSON_stringify (VObj [("github", written)])) /\
      s' = c.
Proof.
  intros env rt enable tok c w r s' w' Hrun.
  unfold Part001.ConfigManager.toggleGalleryUpload in Hrun.
  destruct (p001_loadConfig_result c w) as (loaded & w1 & Hload & _ & Hshape & _).
  rewrite (bind_Ok _ _ _ _ _ _ _ Hload) in Hrun.
  assert (Hobj : exists fs, loaded = VObj fs).
  { destruct Hshape as [-> | Ht]; [eexists; reflexivity|].
    destruct loaded; try discriminate Ht. eauto. }
  destruct Hobj as (fs & ->).
  unfold set_property at 1 in Hrun. unfold bind at 1, ret at 1 in Hrun.
  unfold prop at 1 in Hrun. cbn [nullish] in Hrun.
  unfold bind at 1, ret at 1 in Hrun.
  unfold set_property at 1 in Hrun. unfold bind at 1, ret at 1 in Hrun.
  apply p001_saveConfig_Ok in Hrun
    as (-> & -> & Hstore & content & sha & earlier & Henc & Hreq).
  set (flagged := assign "galleryUploadEnabled" enable fs) in *.
  assert (Htok : field (VObj flagged) "token" = field (VObj fs) "token").
  { unfold field, flagged. now rewrite lookup_assign_neq. }
  rewrite Htok in *.
  exists (VObj fs),
         (VObj (assign "token" (js_or tok (field (VObj fs) "token")) flagged)),
         w1, content.
  do 2 eexists. split; [exact Hload|].
  split.
  { unfold field. rewrite lookup_assign_neq by reflexivity.
    unfold flagged. now rewrite lookup_assign_eq. }
  split.
  { unfold field at 1. now rewrite lookup_assign_eq. }
  split.
  { intros k Hk1 Hk2. unfold field, flagged.
    rewrite !lookup_assign_neq; [reflexivity| |].
    - apply String.eqb_neq. congruence.
    - apply String.eqb_neq. congruence. }
  split; [exact Henc|].
  split; [exact Hreq|].
  split; [reflexivity|]. split; [reflexivity|].
  split.
  { cbn [req_headers]. left. reflexivity. }
  split.
  { eexists. split; [reflexivity|].
    rewrite image_field_other by reflexivity.
    rewrite image_field_here by discriminate. reflexivity. }
  split; [|reflexivity].
  rewrite Hstore. simpl. reflexivity.
Qed.

(** ** The submission service of unnamed/part_000 *)

Lemma required_result errors data group name msg c w :
  nullish (field data group) = false ->
  SubmissionService.required errors data group name msg c w
  = (Ok (errors ++ complaint data (group, name, msg)), c, w).
Proof.
  intros Hg. unfold SubmissionService.required, bind, prop, complaint, present.
  assert (Hd : nullish data = false) by (now destruct data).
  rewrite Hd. unfold ret. rewrite Hg. cbn [snd].
  destruct (truthy _); [now rewrite app_nil_r|reflexivity].
Qed.

Lemma required_throws errors data group name msg c w :
  nullish (field data group) = true ->
  exists e,
    SubmissionService.required errors data group name msg c w
    = (Throw e, c, w).
Proof.
  intros Hg. unfold SubmissionService.required, bind, prop.
  destruct (nullish data); unfold throw, ret; [eauto|].
  rewrite Hg. eauto.
Qed.

Lemma no_complaint data fields :
  Nat.eqb (length (flat_map (complaint data) fields)) 0
  = forallb (present data) fields.
Proof.
  induction fields as [|f fields IH]; [reflexivity|].
  cbn [flat_map forallb]. unfold complaint at 1.
  destruct (present data f); [exact IH|reflexivity].
Qed.

(** X24. [SubmissionService.validateSubmission] names every required
    field that is missing.  When the data has no [clientInfo] or no
    [serviceInfo] the call throws.  Otherwise it returns, [errors] holds
    the message of each of the eight required fields whose value is
    falsy, in the order of the fields, and [isValid] says that all eight
    are present. *)
Theorem validateSubmission_lists_every_missing_field :
  forall (data : value) (c : SubmissionService.t) (w : world),
    if nullish (field data "clientInfo") || nullish (field data "serviceInfo")
    then exists e,
           SubmissionService.validateSubmission data c w = (Throw e, c, w)
    else SubmissionService.validateSubmission data c w
         = (Ok (VObj
                  [("isValid", VBool (forallb (present data) required_fields));
                   ("errors",
                    VArr (flat_map (complaint data) required_fields))]),
            c, w).
Proof.
  intros data c w. unfold SubmissionService.validateSubmission.
  destruct (nullish (field data "clientInfo")) eqn:Hc.
  - cbn [orb].
    destruct (required_throws [] data "clientInfo" "fullName"
                "Client name is required" c w Hc) as (e & He).
    exists e. now rewrite (bind_Throw _ _ _ _ _ _ _ He).
  - cbn [orb].
    do 7 (erewrite bind_Ok; [|apply required_result; exact Hc]).
    destruct (nullish (field data "serviceInfo")) eqn:Hs.
    + match goal with
      | |- context [SubmissionService.required ?errs data "serviceInfo"] =>
          destruct (required_throws errs data "serviceInfo" "type"
                      "Service type is required" c w Hs) as (e & He)
      end.
      exists e. now rewrite (bind_Throw _ _ _ _ _ _ _ He).
    + erewrite bind_Ok; [|apply required_result; exact Hs].
      unfold ret. rewrite <- no_complaint.
      cbn [required_fields flat_map].
      rewrite <- !app_assoc. cbn [app]. rewrite ?app_nil_r. reflexivity.
Qed.

Lemma prefix_append p m : prefix p (p ++ m) = true.
Proof.
  induction p as [|a p IH]; simpl.
  - now destruct m.
  - destruct (ascii_dec a a); [exact IH|congruence].
Qed.

Section Submissions.

Context {env : Environment} {rt : Runtime}.

Lemma getClientIP_result c w :
  exists ip,
    SubmissionService.getClientIP c w
    = (Ok ip, c, record_request ip_request w) /\
    (forall msg, answer w ip_request = NetworkError msg ->
                 ip = VStr "Unknown").
Proof.
  unfold SubmissionService.getClientIP, answer, ip_request.
  unfold try_catch, bind, fetch, ret. cbn [requests record_request].
  destruct (server _) as [msg | st txt j].
  - eexists. split; [reflexivity|]. reflexivity.
  - unfold json. cbn [json_body]. destruct j as [data|].
    + unfold ret, prop. destruct (nullish data); unfold throw, ret;
        (eexists; split; [reflexivity|discriminate]).
    + unfold throw. eexists. split; [reflexivity|discriminate].
Qed.

End Submissions.


Ltac wrapped :=
  cbn [error_message]; first [reflexivity | apply prefix_append].


Section Filtering.

Variable agentScCode : value.

Lemma by_agent_result x c w :
  by_agent agentScCode x c w
  = if nullish (field x "agentInfo")
    then (Throw (TypeError (if nullish x then "cannot read agentInfo"
                            else "cannot read scCode")), c, w)
    else (Ok (strict_eq (agent_code x) agentScCode), c, w).
Proof.
  unfold by_agent, bind, prop, agent_code.
  destruct (nullish x) eqn:Hx.
  - destruct x; try discriminate Hx; reflexivity.
  - unfold ret. destruct (nullish (field x "agentInfo")); reflexivity.
Qed.

Lemma js_filter_all xs c w :
  Forall (fun x => nullish (field x "agentInfo") = false) xs ->
  js_filter (by_agent agentScCode) xs c w
  = (Ok (filter (fun x => strict_eq (agent_code x) agentScCode) xs), c, w).
Proof.
  induction 1 as [|x xs Hx _ IH]; [reflexivity|].
  cbn [js_filter filter]. unfold bind at 1. rewrite by_agent_result, Hx.
  unfold bind. rewrite IH. reflexivity.
Qed.

Lemma js_filter_stops xs c w :
  Exists (fun x => nullish (field x "agentInfo") = true) xs ->
  exists e, js_filter (by_agent agentScCode) xs c w = (Throw e, c, w).
Proof.
  induction 1 as [x xs Hx | x xs _ IH].
  - cbn [js_filter]. unfold bind. rewrite by_agent_result, Hx. eauto.
  - cbn [js_filter]. unfold bind at 1. rewrite by_agent_result.
    destruct (nullish (field x "agentInfo")); [eauto|].
    destruct IH as (e & IH). unfold bind. rewrite IH. eauto.
Qed.

End Filtering.

(** X27. What [SubmissionService.getAgentSubmissions] returns.  With a
    list stored under [ezeeSubmissions], the call returns the stored
    submissions whose [agentInfo.scCode] is the given code, in their
    order, provided every stored submission has an [agentInfo]; one
    stored submission without it makes the call throw, whatever code is
    asked for.  The call changes nothing. *)
Theorem getAgentSubmissions_needs_agentInfo_everywhere :
  forall (rt : Runtime) (agentScCode : value)
         (c : SubmissionService.t) (w : world) (xs : list value),
    stored_list "ezeeSubmissions" w = Some (VArr xs) ->
    (Forall (fun x => nullish (field x "agentInfo") = false) xs ->
     SubmissionService.getAgentSubmissions agentScCode c w
     = (Ok (VArr (filter (fun x => strict_eq (agent_code x) agentScCode) xs)),
        c, w)) /\
    (Exists (fun x => nullish (field x "agentInfo") = true) xs ->
     exists e,
       SubmissionService.getAgentSubmissions agentScCode c w
       = (Throw e, c, w)).
Proof.
  intros rt agentScCode c w xs Hx. unfold stored_list in Hx.
  assert (Hrun : forall r,
            (bind (js_filter (by_agent agentScCode) xs)
                  (fun kept => ret (VArr kept))) c w = r ->
            SubmissionService.getAgentSubmissions agentScCode c w = r).
  { intros r <-. unfold SubmissionService.getAgentSubmissions.
    unfold bind at 1, localStorage_getItem at 1, bind at 1, the_world at 1,
      ret at 1.
    unfold bind at 1, js_parse at 1. rewrite Hx. reflexivity. }
  split.
  - intros Hall. apply Hrun.
    now rewrite (bind_Ok _ _ _ _ _ _ _ (js_filter_all agentScCode xs c w Hall)).
  - intros Hone.
    destruct (js_filter_stops agentScCode xs c w Hone) as (e & He).
    exists e. apply Hrun. now rewrite (bind_Throw _ _ _ _ _ _ _ He).
Qed.

Lemma find_by_id submissionId xs c w :
  Forall (fun x => nullish x = false) xs ->
  find (by_id submissionId) xs c w
  = (Ok (match List.find (fun x => strict_eq (field x "id") submissionId) xs
         with Some x => x | None => VUndefined end), c, w).
Proof.
  induction 1 as [|x xs Hx _ IH]; [reflexivity|].
  cbn [find List.find]. unfold bind at 1, by_id at 1, bind, prop.
  rewrite Hx. unfold ret.
  destruct (strict_eq (field x "id") submissionId); [reflexivity|].
  exact IH.
Qed.

(** X28. What [SubmissionService.getSubmissionStatus] answers.  With a
    list stored under [ezeeSubmissions] that has no [null] entry, the
    call returns the [status] of the first stored submission whose [id]
    is the given one, and [not_found] when there is none.  It changes
    nothing. *)
Theorem getSubmissionStatus_answers_for_the_first_match :
  forall (rt : Runtime) (submissionId : value)
         (c : SubmissionService.t) (w : world) (xs : list value),
    stored_list "ezeeSubmissions" w = Some (VArr xs) ->
    Forall (fun x => nullish x = false) xs ->
    SubmissionService.getSubmissionStatus submissionId c w
    = (Ok (status_in xs submissionId), c, w).
Proof.
  intros rt submissionId c w xs Hx Hall. unfold stored_list in Hx.
  unfold SubmissionService.getSubmissionStatus.
  unfold bind at 1, localStorage_getItem at 1, bind at 1, the_world at 1,
    ret at 1.
  unfold bind at 1, js_parse at 1. rewrite Hx. unfold ret at 1.
  cbv beta iota.
  rewrite (bind_Ok _ _ _ _ _ _ _ (find_by_id submissionId xs c w Hall)).
  unfold status_in.
  destruct (List.find _ xs) as [x|]; [|reflexivity].
  destruct (truthy x) eqn:Ht; [|reflexivity].
  unfold prop. destruct x; try discriminate Ht; reflexivity.
Qed.

(** ** The further properties at work *)

(** X2 on a form whose first field is empty: the call throws after the
    read of the configuration, its only request. *)
Lemma incomplete_form_is_not_written :
  ~ valid_form Examples.incomplete_form /\
  exists e s' w',
    EnhancedSubmissionHandler.handleSubmission
      (env := Examples.metadata_rejected) (rt := browser)
      Examples.incomplete_form Examples.photos
      EnhancedSubmissionHandler.constructor initial_world
    = (Throw e, s', w') /\
    map line (requests w')
    = [(GET, Examples.repo ++ "/contents/gitconfig.json")%string].
Proof.
  assert (H : ~ valid_form Examples.incomplete_form).
  { intros [H _]. inversion H. discriminate. }
  split; [exact H|].
  destruct (handleSubmission_refuses_before_writing
              Examples.metadata_rejected browser Examples.incomplete_form
              Examples.photos EnhancedSubmissionHandler.constructor
              initial_world H) as (e & s' & w' & Hrun & Hreq).
  exists e, s', w'. split; [exact Hrun|]. rewrite Hreq. reflexivity.
Defined.

(** X6 on a repository whose head is the commit of the write: after
    [saveFile], the poll sends one request and calls nobody. *)
Lemma poll_after_own_write_is_silent :
  exists v s1 w1 s' w',
    RealTimeService.saveFile (env := Examples.settled) (rt := browser)
      "agents.json" (VObj [("agents", VArr [])]) "Update agents list"
      (Examples.polling (VStr "5ha1")) initial_world
    = (Ok v, s1, w1) /\
    RealTimeService.lastKnownHash s1 = VStr "c0ffee" /\
    RealTimeService.poll (env := Examples.settled) (rt := browser) s1 w1
    = (Ok tt, s', w') /\
    calls w' = [] /\
    length (requests w') = 3.
Proof.
  destruct (RealTimeService.saveFile (env := Examples.settled)
              (rt := browser) "agents.json" (VObj [("agents", VArr [])])
              "Update agents list" (Examples.polling (VStr "5ha1"))
              initial_world) as [[r s1] w1] eqn:Hsave.
  assert (Hv : exists v, r = Ok v /\ field v "sha" = VStr "c0ffee").
  { vm_compute in Hsave. inversion Hsave. eexists. split; reflexivity. }
  destruct Hv as (v & -> & Hsha).
  destruct (saveFile_records_its_commit Examples.settled browser _ _ _ _ _
              _ _ _ Hsave) as [Hrec Hpoll].
  assert (Hhead : exists w0,
            RealTimeService.getBranchSHA (env := Examples.settled) s1 w1
            = (Ok (field v "sha"), s1, w0)).
  { vm_compute in Hsave. inversion Hsave; subst.
    eexists. vm_compute. reflexivity. }
  destruct Hhead as [w0 Hhead].
  destruct (Hpoll w1 w0) as (s' & w' & Hp & Hreq & Hc & _).
  { vm_compute in Hsave. inversion Hsave; subst. reflexivity. }
  { rewrite Hsha. eexists. split; [reflexivity|discriminate]. }
  { exact Hhead. }
  exists v, s1, w1, s', w'. split; [reflexivity|].
  split; [now rewrite Hrec|]. split; [exact Hp|].
  vm_compute in Hsave. inversion Hsave; subst.
  split; [rewrite Hc; reflexivity|rewrite Hreq; reflexivity].
Defined.

(** X7 on a submission without [id]: the image is uploaded, then the
    call throws. *)
Lemma unnamed_visit_is_refused_after_its_upload :
  truthy (field Examples.unnamed_visit "id") = false /\
  exists e w' sent,
    RealTimeService.submitAgentData (env := Examples.moved) (rt := browser)
      Examples.unnamed_visit (Examples.polling (VStr "5ha1")) initial_world
    = (Throw e, Examples.polling (VStr "5ha1"), w') /\
    requests w' = sent /\
    Forall (rt_image_write (Examples.polling (VStr "5ha1"))) sent /\
    calls w' = [].
Proof.
  split; [reflexivity|].
  exact (submitAgentData_needs_an_id Examples.moved browser
           Examples.unnamed_visit (Examples.polling (VStr "5ha1"))
           initial_world eq_refl).
Defined.

(** X8 on a server that fails the first read of [submissions.json] and
    answers the second: the call returns, and the document written,
    read back, holds the new submission alone. *)
Lemma failed_read_replaces_the_submissions :
  exists v s' w' final,
    RealTimeService.submitAgentData (env := Examples.flaky) (rt := browser)
      Examples.visit (Examples.polling (VStr "5ha1")) initial_world
    = (Ok v, s', w') /\
    field v "submissionId" = VStr "SUB-7" /\
    map status_of (replies (env := Examples.flaky) [] (requests w'))
    = [200; 500; 200; 200]%Z /\
    option_map (document_sent (rt := browser)) (last_request (requests w'))
    = Some (Some (VObj [("submissions", VArr [final])])) /\
    field final "id" = VStr "SUB-7".
Proof.
  destruct (RealTimeService.submitAgentData (env := Examples.flaky)
              (rt := browser) Examples.visit
              (Examples.polling (VStr "5ha1")) initial_world)
    as [[r s'] w'] eqn:Hrun.
  assert (Hr : exists v, r = Ok v).
  { vm_compute in Hrun. inversion Hrun. eexists. reflexivity. }
  destruct Hr as [v ->].
  destruct (submitAgentData_appends_to_what_getFile_returned
              Examples.flaky browser _ _ _ _ _ _ Hrun)
    as (w1 & got & w2 & final & put & text & _ & _ & _ & _ & Hid & _).
  vm_compute in Hrun. inversion Hrun; subst.
  do 4 eexists. split; [reflexivity|]. split; [exact Hid|].
  split; [vm_compute; reflexivity|].
  split; vm_compute; reflexivity.
Defined.

(** X11 on a server that fails every request: [getSubmissions] throws,
    and says why. *)
Lemma getSubmissions_on_a_failing_server :
  configured Examples.github /\
  exists w',
    GitHubService.getSubmissions (env := Examples.failing) (rt := browser)
      Examples.github initial_world
    = (Throw (Error ("Failed to get submissions: File read error: "
                     ++ "Read failed: 500 Internal Server Error")),
       Examples.github, w').
Proof.
  assert (Hcfg : configured Examples.github) by (repeat split; reflexivity).
  split; [exact Hcfg|].
  destruct (getSubmissions_raises_on_a_failed_read Examples.failing browser
              Examples.github initial_world Hcfg) as [[_ Hst] _].
  eexists.
  exact (Hst 500%Z "Internal Server Error"%string
           (Some (VObj [("message", VStr "Server Error")]))
           eq_refl eq_refl).
Defined.

(** X12 on a repository that has the file: the read is followed by the
    DELETE, with the SHA read. *)
Lemma deleteFile_sends_the_sha_it_read :
  configured Examples.github /\
  exists r w' del,
    GitHubService.deleteFile (env := Examples.moved)
      "submissions.json" "Delete file" Examples.github initial_world
    = (r, Examples.github, w') /\
    map line (requests w')
    = [(GET, Examples.repo ++ "/contents/submissions.json")%string;
       (DELETE, Examples.repo ++ "/contents/submissions.json")%string] /\
    last_request (requests w') = Some del /\
    version_token del = VStr "b10b".
Proof.
  assert (Hcfg : configured Examples.github) by (repeat split; reflexivity).
  split; [exact Hcfg|].
  destruct (deleteFile_deletes_what_it_read Examples.moved browser
              "submissions.json" "Delete file" Examples.github
              initial_world Hcfg)
    as (r & w' & rest & Hrun & _).
  vm_compute in Hrun. inversion Hrun; subst.
  do 3 eexists. split; [vm_compute; reflexivity|].
  split; [reflexivity|]. split; reflexivity.
Defined.

(** X13 on two images, one of which is not text: one entry reports a
    success, the other a failure. *)
Lemma scans_are_both_reported :
  nullish Examples.scans = false /\
  exists results w',
    GitHubService.uploadSubmissionImages (env := Examples.moved)
      "S1" Examples.scans Examples.github initial_world
    = (Ok (VObj results), Examples.github, w') /\
    map fst results = ["idFront"; "idBack"]%string /\
    field (field (VObj results) "idFront") "success" = VBool true /\
    field (field (VObj results) "idBack") "success" = VBool false.
Proof.
  split; [reflexivity|].
  destruct (uploadSubmissionImages_reports_every_image Examples.moved
              browser "S1" Examples.scans Examples.github initial_world eq_refl)
    as (results & w' & Hrun & _).
  vm_compute in Hrun. inversion Hrun; subst.
  do 2 eexists. split; [vm_compute; reflexivity|].
  split; [reflexivity|]. split; reflexivity.
Defined.


(** X16 in a browser that has a configuration cached: a server that
    answers 500 gives the cached token, no connection gives none. *)
Lemma cached_token_is_used_on_a_refusal :
  exists text cached,
    storage_get "ezeeAdminConfig" (localStorage Examples.configured_browser)
    = Some text /\
    JSON_parse (Runtime := browser) text = Some cached /\
    exists config w',
      ConfigManager.loadConfig (env := Examples.failing) (rt := browser)
        ConfigManager.constructor Examples.configured_browser
      = (Ok config, ConfigManager.constructor, w') /\
      field config "token" = VStr "ghp_cached".
Proof.
  exists (JSON_stringify (Runtime := browser) Examples.cached_config),
         Examples.cached_config.
  split; [reflexivity|]. split; [vm_compute; reflexivity|].
  destruct (loadConfig_uses_the_cache_on_a_refusal_only Examples.failing
              browser ConfigManager.constructor Examples.configured_browser
              (JSON_stringify (Runtime := browser) Examples.cached_config)
              Examples.cached_config)
    as [_ Hrefused].
  { reflexivity. }
  { vm_compute. discriminate. }
  { vm_compute. reflexivity. }
  { reflexivity. }
  do 2 eexists. split.
  - exact (Hrefused 500%Z "Internal Server Error"%string
             (Some (VObj [("message", VStr "Server Error")]))
             eq_refl eq_refl).
  - reflexivity.
Defined.

(** X17 on the submission whose first image was refused: the call
    returns, so the form was valid. *)
Lemma accepted_submission_had_a_valid_form :
  exists result s' w',
    EnhancedSubmissionHandler.handleSubmission
      (env := Examples.image_rejected) (rt := browser)
      Examples.form Examples.photos
      EnhancedSubmissionHandler.constructor initial_world
    = (Ok result, s', w') /\
    field result "submissionId" = VStr "AGENT-1700000000000-k3x" /\
    valid_form Examples.form.
Proof.
  destruct (EnhancedSubmissionHandler.handleSubmission
              (env := Examples.image_rejected) (rt := browser)
              Examples.form Examples.photos
              EnhancedSubmissionHandler.constructor initial_world)
    as [[r s'] w'] eqn:Hrun.
  assert (Hr : exists result,
            r = Ok result /\
            field result "submissionId" = VStr "AGENT-1700000000000-k3x").
  { vm_compute in Hrun. inversion Hrun. eexists. split; reflexivity. }
  destruct Hr as (result & -> & Hid).
  destruct (handleSubmission_writes_the_record_it_reports
              Examples.image_rejected browser _ _ _ _ _ _ _ Hrun)
    as [Hvalid _].
  exists result, s', w'. split; [reflexivity|]. split; assumption.
Defined.

(** X18 on a service created in a browser that has nothing stored. *)
Lemma unconfigured_service_sends_nothing :
  nullish (GitHubService.config Examples.unconfigured) = false /\
  ~ configured Examples.unconfigured /\
  GitHubService.readFile (env := Examples.moved) (rt := browser)
    "submissions.json" Examples.unconfigured initial_world
  = (Throw (Error "GitHub configuration is incomplete"),
     Examples.unconfigured, initial_world).
Proof.
  assert (H : ~ configured Examples.unconfigured).
  { intros [Ht _]. discriminate. }
  split; [reflexivity|]. split; [exact H|].
  destruct (incomplete_configuration_sends_nothing Examples.moved browser
              Examples.unconfigured initial_world eq_refl H)
    as (_ & Hread & _).
  apply Hread.
Defined.

(** X19 on the data URL of a photograph. *)
Lemma data_url_of_a_photograph_is_stripped :
  includes_comma "data:image/jpeg;base64" = false /\
  includes_comma "AAAA" = false /\
  GitHubService.uploadImage (env := Examples.moved) "images/a.jpg"
    (VStr "data:image/jpeg;base64,AAAA") "Upload image"
    Examples.github initial_world
  = GitHubService.uploadFile (env := Examples.moved) "images/a.jpg"
      (VStr "AAAA") "Upload image" Examples.github initial_world.
Proof.
  split; [reflexivity|]. split; [reflexivity|].
  destruct (uploadImage_strips_the_prefix Examples.moved "images/a.jpg"
              "Upload image" "data:image/jpeg;base64" "AAAA" ""
              Examples.github initial_world eq_refl eq_refl)
    as (H & _).
  exact H.
Defined.

(** X20 on a list of one agent. *)
Lemma one_agent_is_saved_with_its_count :
  exists v s' w' put encoded,
    GitHubService.saveAgents (env := Examples.moved) (rt := browser)
      (VArr [VObj [("scCode", VStr "SC001")]]) Examples.github initial_world
    = (Ok v, s', w') /\
    last_request (requests w') = Some put /\
    content_sent put = VStr encoded /\
    btoa (Runtime := browser)
      (JSON_stringify2
         (VObj [("agents", VArr [VObj [("scCode", VStr "SC001")]]);
                ("lastUpdated", VStr "2023-11-14T22:13:20.000Z");
                ("totalAgents", VNum 1)]))
    = Some encoded.
Proof.
  destruct (GitHubService.saveAgents (env := Examples.moved) (rt := browser)
              (VArr [VObj [("scCode", VStr "SC001")]]) Examples.github
              initial_world) as [[r s'] w'] eqn:Hrun.
  assert (Hr : exists v, r = Ok v).
  { vm_compute in Hrun. inversion Hrun. eexists. reflexivity. }
  destruct Hr as [v ->].
  destruct (saveAgents_writes_the_list_with_its_length Examples.moved
              browser _ _ _ _ _ _ Hrun)
    as (put & encoded & Hreq & _ & _ & Hc & He).
  exists v, s', w', put, encoded. split; [reflexivity|].
  split.
  { rewrite Hreq. reflexivity. }
  split; [exact Hc|].
  rewrite <- He. vm_compute. reflexivity.
Defined.

(** X1 on two forms: the complete one is let through, the one whose
    first field is empty is refused under the name of that field. *)
Lemma forms_are_checked_field_by_field :
  EnhancedSubmissionHandler.validateFormData (rt := browser) Examples.form
    EnhancedSubmissionHandler.constructor initial_world
  = (Ok tt, EnhancedSubmissionHandler.constructor, initial_world) /\
  valid_form Examples.form /\
  EnhancedSubmissionHandler.validateFormData (rt := browser)
    Examples.incomplete_form EnhancedSubmissionHandler.constructor
    initial_world
  = (Throw (Error "Please fill in full name"),
     EnhancedSubmissionHandler.constructor, initial_world).
Proof.
  destruct (validateFormData_accepts_filled_forms Examples.moved browser
              Examples.form EnhancedSubmissionHandler.constructor
              initial_world) as ([_ Hvalid] & _).
  destruct (validateFormData_accepts_filled_forms Examples.moved browser
              Examples.incomplete_form EnhancedSubmissionHandler.constructor
              initial_world) as (_ & _ & Hmissing & _).
  split; [vm_compute; reflexivity|].
  split; [apply Hvalid; vm_compute; reflexivity|].
  exact (Hmissing "fullName"%string eq_refl eq_refl).
Defined.

(** X4 on a new [RealTimeService]: started, stopped and started again,
    it has two polls pending. *)
Lemma restarted_service_has_two_polls_pending :
  exists s' w',
    (RealTimeService.startRealTimePolling
       (env := Examples.moved) (rt := browser) ;;
     RealTimeService.stopRealTimePolling ;;
     RealTimeService.startRealTimePolling
       (env := Examples.moved) (rt := browser))
      RealTimeService.constructor initial_world
    = (Ok tt, s', w') /\
    RealTimeService.isPolling s' = true /\
    timers w' = [5000; 5000]%Z.
Proof.
  destruct (restarting_before_the_poll_fires_doubles_the_chain
              Examples.moved browser) as [Hrt _].
  destruct (Hrt RealTimeService.constructor initial_world) as [_ Hstopped].
  destruct (Hstopped eq_refl) as (_ & s' & w' & Hrun & Hp & Ht).
  exists s', w'. auto.
Defined.

(** X10 in a browser that has nothing stored: no token, the answer is
    [false], even when the argument carries a token. *)
Lemma init_ignores_the_token_of_its_argument :
  exists s' w',
    RealTimeService.init (rt := browser)
      (VObj [("token", VStr "ghp_example")])
      RealTimeService.constructor initial_world
    = (Ok false, s', w') /\
    RealTimeService.token s' = VUndefined.
Proof.
  destruct (init_reads_the_token_from_localStorage Examples.moved browser
              (VObj [("token", VStr "ghp_example")]) VUndefined
              RealTimeService.constructor initial_world)
    as (r & s' & w' & s2 & w2 & Hrun & _ & _ & _ & _ & Hempty).
  destruct Hempty as [-> Htok]; [reflexivity|vm_compute; reflexivity|].
  exists s', w'. auto.
Defined.

(** X22 in a browser that has a configuration cached and no connection:
    the cached configuration is returned. *)
Lemma part001_cached_token_is_used_without_a_connection :
  exists w',
    Part001.ConfigManager.loadConfig (env := Examples.disconnected)
      (rt := browser) Part001.ConfigManager.constructor
      Examples.configured_browser
    = (Ok (field Examples.cached_config "github"),
       Part001.ConfigManager.constructor, w') /\
    localStorage w' = localStorage Examples.configured_browser /\
    field (field Examples.cached_config "github") "token" = VStr "ghp_cached".
Proof.
  destruct (part001_loadConfig_uses_the_cache_on_any_failure
              Examples.disconnected browser Part001.ConfigManager.constructor
              Examples.configured_browser
              (JSON_stringify (Runtime := browser) Examples.cached_config)
              Examples.cached_config)
    as (w' & Hrun & Hstore).
  { reflexivity. }
  { vm_compute. discriminate. }
  { vm_compute. reflexivity. }
  { reflexivity. }
  { exact I. }
  exists w'. split; [exact Hrun|]. split; [exact Hstore|reflexivity].
Defined.

(** X23 on a repository that holds a configuration: the gallery is
    enabled with a new token, and the rest of the configuration is
    kept. *)
Lemma gallery_is_enabled_with_a_new_token :
  exists r s' w' written,
    Part001.ConfigManager.toggleGalleryUpload (env := Examples.moved)
      (rt := browser) (VBool true) (VStr "ghp_new")
      Part001.ConfigManager.constructor initial_world
    = (Ok r, s', w') /\
    storage_get "ezeeAdminConfig" (localStorage w')
    = Some (JSON_stringify (Runtime := browser)
              (VObj [("github", written)])) /\
    field written "galleryUploadEnabled" = VBool true /\
    field written "token" = VStr "ghp_new" /\
    field written "repoOwner" = VStr "BarasaGodwilTech".
Proof.
  destruct (Part001.ConfigManager.toggleGalleryUpload (env := Examples.moved)
              (rt := browser) (VBool true) (VStr "ghp_new")
              Part001.ConfigManager.constructor initial_world)
    as [[r s'] w'] eqn:Hrun.
  assert (Hr : exists v, r = Ok v).
  { vm_compute in Hrun. inversion Hrun. eexists. reflexivity. }
  destruct Hr as (v & ->).
  destruct (part001_toggleGalleryUpload_saves_the_toggled_configuration
              Examples.moved browser _ _ _ _ _ _ _ Hrun)
    as (loaded & written & w1 & content & put & earlier & Hload & Hflag
        & Htok & Hrest & _ & _ & _ & _ & _ & _ & Hstore & _).
  exists v, s', w', written.
  split; [reflexivity|]. split; [exact Hstore|].
  split; [exact Hflag|]. split; [exact Htok|].
  rewrite Hrest by discriminate.
  vm_compute in Hload. inversion Hload. reflexivity.
Defined.



(** X27 after the submission of data that names no agent: the
    submissions of no agent can be listed any more. *)
Lemma walk_in_breaks_the_agent_lists :
  exists e,
    SubmissionService.getAgentSubmissions (rt := browser) (VStr "SC-1")
      Examples.office Examples.stored_walk_in
    = (Throw e, Examples.office, Examples.stored_walk_in).
Proof.
  edestruct (getAgentSubmissions_needs_agentInfo_everywhere browser
               (VStr "SC-1") Examples.office Examples.stored_walk_in)
    as [_ Hthrows].
  { vm_compute. reflexivity. }
  apply Hthrows. apply Exists_cons_hd. reflexivity.
Defined.

(** X28 after a submission: its identifier has the status
    [submitted], another has none. *)
Lemma stored_submission_is_submitted :
  SubmissionService.getSubmissionStatus (rt := browser)
    (VStr "1700000000000") Examples.office Examples.stored_walk_in
  = (Ok (VStr "submitted"), Examples.office, Examples.stored_walk_in) /\
  SubmissionService.getSubmissionStatus (rt := browser)
    (VStr "1700000000001") Examples.office Examples.stored_walk_in
  = (Ok (VStr "not_found"), Examples.office, Examples.stored_walk_in).
Proof.
  split.
  - erewrite getSubmissionStatus_answers_for_the_first_match;
      [ | vm_compute; reflexivity | repeat constructor ].
    reflexivity.
  - erewrite getSubmissionStatus_answers_for_the_first_match;
      [ | vm_compute; reflexivity | repeat constructor ].
    reflexivity.
Defined.
